(** * researchbot: search fallback, retry/backoff and pagination

    A shallow embedding of [research_agent.py]: the [SearchEngine] class
    (Google Custom Search with DuckDuckGo fallback, retry loops, backend
    rotation, exponential backoff) and the [AIResearchAgent.research]
    method (pagination of the over-fetched result list, history).

    Python integers are [Z]; strings are [string]; the dictionaries that the
    providers return are [gmap string string]; the jitter and the sleep
    durations are rationals.  Effects (instance attributes, exceptions, the
    network, the clock, the random source) are threaded through a small
    state-and-exception monad; every external call is recorded in a trace,
    and the k-th answer of an external service is read from a [World]. *)

From Stdlib Require Import ZArith QArith Qminmax String Ascii List Lia.
From Stdlib Require Import DecimalString.
From stdpp Require Import base list strings gmap.
Import ListNotations.

Open Scope string_scope.
Open Scope list_scope.
Open Scope Z_scope.

(** ** Python helpers *)

Module Py.

(** [len(l)] *)
Definition len {A} (l : list A) : Z := Z.of_nat (length l).

(** Truth value of a list: [if l:] *)
Definition truthy_list {A} (l : list A) : bool :=
  match l with [] => false | _ :: _ => true end.

(** Truth value of an optional string (an environment variable):
    [None] and the empty string are false. *)
Definition truthy_str (o : option string) : bool :=
  match o with
  | Some s => negb (String.eqb s "")
  | None => false
  end.

(** [a or b] on strings *)
Definition or_str (a b : string) : string :=
  if String.eqb a "" then b else a.


(** Normalisation of one bound of a slice over a sequence of length [n]. *)
Definition slice_index (n i : Z) : Z :=
  if i <? 0 then Z.max (i + n) 0 else Z.min i n.

(** [l[lo:hi]] *)
Definition slice {A} (l : list A) (lo hi : Z) : list A :=
  let n := len l in
  let lo' := slice_index n lo in
  let hi' := slice_index n hi in
  take (Z.to_nat (hi' - lo')) (drop (Z.to_nat lo') l).

(** [range(n)] *)
Definition range (n : Z) : list Z :=
  map Z.of_nat (seq 0 (Z.to_nat n)).

(** *** [str.lower()]

    A Python string is held as its UTF-8 encoding.  [lower] reads the code
    points, maps each one through the lower-case mapping of the Unicode
    Character Database (version 14.0, that of CPython 3.11), with the
    final-sigma rule of CPython's [str.lower], and writes the result back.
    A byte that belongs to no well-formed sequence is kept as it is. *)

Definition is_cont (n : N) : bool := ((128 <=? n) && (n <? 192))%N.

(** A byte outside every well-formed sequence, as a pseudo code point. *)
Definition raw_byte (n : N) : N := (1114112 + n)%N.

Fixpoint decode (s : string) : list N :=
  match s with
  | EmptyString => []
  | String b0 r0 =>
      let n0 := N_of_ascii b0 in
      if (n0 <? 128)%N then n0 :: decode r0
      else
        match r0 with
        | String b1 r1 =>
            let n1 := N_of_ascii b1 in
            let c2 := ((n0 - 192) * 64 + (n1 - 128))%N in
            if ((192 <=? n0) && (n0 <? 224))%N && is_cont n1
               && (128 <=? c2)%N
            then c2 :: decode r1
            else
              match r1 with
              | String b2 r2 =>
                  let n2 := N_of_ascii b2 in
                  let c3 :=
                    ((n0 - 224) * 4096 + (n1 - 128) * 64 + (n2 - 128))%N in
                  if ((224 <=? n0) && (n0 <? 240))%N
                     && is_cont n1 && is_cont n2
                     && (2048 <=? c3)%N
                     && negb ((55296 <=? c3) && (c3 <=? 57343))%N
                  then c3 :: decode r2
                  else
                    match r2 with
                    | String b3 r3 =>
                        let n3 := N_of_ascii b3 in
                        let c4 :=
                          ((n0 - 240) * 262144 + (n1 - 128) * 4096
                           + (n2 - 128) * 64 + (n3 - 128))%N in
                        if ((240 <=? n0) && (n0 <? 248))%N
                           && is_cont n1 && is_cont n2 && is_cont n3
                           && ((65536 <=? c4) && (c4 <? 1114112))%N
                        then c4 :: decode r3
                        else raw_byte n0 :: decode r0
                    | EmptyString => raw_byte n0 :: decode r0
                    end
              | EmptyString => raw_byte n0 :: decode r0
              end
        | EmptyString => raw_byte n0 :: decode r0
        end
  end.

Definition bytes (l : list N) : string :=
  string_of_list_ascii (map ascii_of_N l).

Definition encode_char (c : N) : string :=
  (if c <? 128 then bytes [c]
   else if c <? 2048 then bytes [192 + c / 64; 128 + c mod 64]
   else if c <? 65536
   then bytes [224 + c / 4096; 128 + (c / 64) mod 64; 128 + c mod 64]
   else if c <? 1114112
   then bytes [240 + c / 262144; 128 + (c / 4096) mod 64;
               128 + (c / 64) mod 64; 128 + c mod 64]
   else bytes [c - 1114112])%N.

Fixpoint encode (l : list N) : string :=
  match l with
  | [] => EmptyString
  | c :: r => String.append (encode_char c) (encode r)
  end.

(** The simple lower-case mappings, as runs [(first, last, image of first)]
    of consecutive code points with consecutive images. *)
Definition lower_shift : list (N * N * N) :=
  [(65, 90, 97); (192, 214, 224); (216, 222, 248);
   (376, 376, 255); (385, 385, 595); (390, 390, 596);
   (391, 391, 392); (393, 394, 598); (395, 395, 396);
   (398, 398, 477); (399, 399, 601); (400, 400, 603);
   (401, 401, 402); (403, 403, 608); (404, 404, 611);
   (406, 406, 617); (407, 407, 616); (408, 408, 409);
   (412, 412, 623); (413, 413, 626); (415, 415, 629);
   (422, 422, 640); (423, 423, 424); (425, 425, 643);
   (428, 428, 429); (430, 430, 648); (431, 431, 432);
   (433, 434, 650); (439, 439, 658); (440, 440, 441);
   (444, 444, 445); (452, 452, 454); (453, 453, 454);
   (455, 455, 457); (456, 456, 457); (458, 458, 460);
   (497, 497, 499); (502, 502, 405); (503, 503, 447);
   (544, 544, 414); (570, 570, 11365); (571, 571, 572);
   (573, 573, 410); (574, 574, 11366); (577, 577, 578);
   (579, 579, 384); (580, 580, 649); (581, 581, 652);
   (886, 886, 887); (895, 895, 1011); (902, 902, 940);
   (904, 906, 941); (908, 908, 972); (910, 911, 973);
   (913, 929, 945); (931, 939, 963); (975, 975, 983);
   (1012, 1012, 952); (1015, 1015, 1016); (1017, 1017, 1010);
   (1018, 1018, 1019); (1021, 1023, 891); (1024, 1039, 1104);
   (1040, 1071, 1072); (1216, 1216, 1231); (1329, 1366, 1377);
   (4256, 4293, 11520); (4295, 4295, 11559); (4301, 4301, 11565);
   (5024, 5103, 43888); (5104, 5109, 5112); (7312, 7354, 4304);
   (7357, 7359, 4349); (7838, 7838, 223); (7944, 7951, 7936);
   (7960, 7965, 7952); (7976, 7983, 7968); (7992, 7999, 7984);
   (8008, 8013, 8000); (8025, 8025, 8017); (8027, 8027, 8019);
   (8029, 8029, 8021); (8031, 8031, 8023); (8040, 8047, 8032);
   (8072, 8079, 8064); (8088, 8095, 8080); (8104, 8111, 8096);
   (8120, 8121, 8112); (8122, 8123, 8048); (8124, 8124, 8115);
   (8136, 8139, 8050); (8140, 8140, 8131); (8152, 8153, 8144);
   (8154, 8155, 8054); (8168, 8169, 8160); (8170, 8171, 8058);
   (8172, 8172, 8165); (8184, 8185, 8056); (8186, 8187, 8060);
   (8188, 8188, 8179); (8486, 8486, 969); (8490, 8490, 107);
   (8491, 8491, 229); (8498, 8498, 8526); (8544, 8559, 8560);
   (8579, 8579, 8580); (9398, 9423, 9424); (11264, 11311, 11312);
   (11360, 11360, 11361); (11362, 11362, 619); (11363, 11363, 7549);
   (11364, 11364, 637); (11373, 11373, 593); (11374, 11374, 625);
   (11375, 11375, 592); (11376, 11376, 594); (11378, 11378, 11379);
   (11381, 11381, 11382); (11390, 11391, 575); (11506, 11506, 11507);
   (42877, 42877, 7545); (42891, 42891, 42892); (42893, 42893, 613);
   (42922, 42922, 614); (42923, 42923, 604); (42924, 42924, 609);
   (42925, 42925, 620); (42926, 42926, 618); (42928, 42928, 670);
   (42929, 42929, 647); (42930, 42930, 669); (42931, 42931, 43859);
   (42948, 42948, 42900); (42949, 42949, 642); (42950, 42950, 7566);
   (42960, 42960, 42961); (42997, 42997, 42998); (65313, 65338, 65345);
   (66560, 66599, 66600); (66736, 66771, 66776); (66928, 66938, 66967);
   (66940, 66954, 66979); (66956, 66962, 66995); (66964, 66965, 67003);
   (68736, 68786, 68800); (71840, 71871, 71872); (93760, 93791, 93792);
   (125184, 125217, 125218)]%N.

(** Runs [(first, last)] in which every second code point, from the first
    on, is an upper-case letter followed by its lower-case letter. *)
Definition lower_alternating : list (N * N) :=
  [(256, 302); (306, 310); (313, 327); (330, 374);
   (377, 381); (386, 388); (416, 420); (435, 437);
   (459, 475); (478, 494); (498, 500); (504, 542);
   (546, 562); (582, 590); (880, 882); (984, 1006);
   (1120, 1152); (1162, 1214); (1217, 1229); (1232, 1326);
   (7680, 7828); (7840, 7934); (11367, 11371); (11392, 11490);
   (11499, 11501); (42560, 42604); (42624, 42650); (42786, 42798);
   (42802, 42862); (42873, 42875); (42878, 42886); (42896, 42898);
   (42902, 42920); (42932, 42946); (42951, 42953); (42966, 42968)]%N.

(** The cased characters that are not case-ignorable, and the
    case-ignorable characters, as ranges; the final-sigma rule tests
    whether a character is cased only after it found it not
    case-ignorable. *)
Definition cased_ranges : list (N * N) :=
  [(65, 90); (97, 122); (170, 170); (181, 181);
   (186, 186); (192, 214); (216, 246); (248, 442);
   (444, 447); (452, 659); (661, 687); (880, 883);
   (886, 887); (891, 893); (895, 895); (902, 902);
   (904, 906); (908, 908); (910, 929); (931, 1013);
   (1015, 1153); (1162, 1327); (1329, 1366); (1376, 1416);
   (4256, 4293); (4295, 4295); (4301, 4301); (4304, 4346);
   (4349, 4351); (5024, 5109); (5112, 5117); (7296, 7304);
   (7312, 7354); (7357, 7359); (7424, 7467); (7531, 7543);
   (7545, 7578); (7680, 7957); (7960, 7965); (7968, 8005);
   (8008, 8013); (8016, 8023); (8025, 8025); (8027, 8027);
   (8029, 8029); (8031, 8061); (8064, 8116); (8118, 8124);
   (8126, 8126); (8130, 8132); (8134, 8140); (8144, 8147);
   (8150, 8155); (8160, 8172); (8178, 8180); (8182, 8188);
   (8450, 8450); (8455, 8455); (8458, 8467); (8469, 8469);
   (8473, 8477); (8484, 8484); (8486, 8486); (8488, 8488);
   (8490, 8493); (8495, 8500); (8505, 8505); (8508, 8511);
   (8517, 8521); (8526, 8526); (8544, 8575); (8579, 8580);
   (9398, 9449); (11264, 11387); (11390, 11492); (11499, 11502);
   (11506, 11507); (11520, 11557); (11559, 11559); (11565, 11565);
   (42560, 42605); (42624, 42651); (42786, 42863); (42865, 42887);
   (42891, 42894); (42896, 42954); (42960, 42961); (42963, 42963);
   (42965, 42969); (42997, 42998); (43002, 43002); (43824, 43866);
   (43872, 43880); (43888, 43967); (64256, 64262); (64275, 64279);
   (65313, 65338); (65345, 65370); (66560, 66639); (66736, 66771);
   (66776, 66811); (66928, 66938); (66940, 66954); (66956, 66962);
   (66964, 66965); (66967, 66977); (66979, 66993); (66995, 67001);
   (67003, 67004); (68736, 68786); (68800, 68850); (71840, 71903);
   (93760, 93823); (119808, 119892); (119894, 119964); (119966, 119967);
   (119970, 119970); (119973, 119974); (119977, 119980); (119982, 119993);
   (119995, 119995); (119997, 120003); (120005, 120069); (120071, 120074);
   (120077, 120084); (120086, 120092); (120094, 120121); (120123, 120126);
   (120128, 120132); (120134, 120134); (120138, 120144); (120146, 120485);
   (120488, 120512); (120514, 120538); (120540, 120570); (120572, 120596);
   (120598, 120628); (120630, 120654); (120656, 120686); (120688, 120712);
   (120714, 120744); (120746, 120770); (120772, 120779); (122624, 122633);
   (122635, 122654); (125184, 125251); (127280, 127305); (127312, 127337);
   (127344, 127369)]%N.

Definition case_ignorable_ranges : list (N * N) :=
  [(39, 39); (46, 46); (58, 58); (94, 94);
   (96, 96); (168, 168); (173, 173); (175, 175);
   (180, 180); (183, 184); (688, 879); (884, 885);
   (890, 890); (900, 901); (903, 903); (1155, 1161);
   (1369, 1369); (1375, 1375); (1425, 1469); (1471, 1471);
   (1473, 1474); (1476, 1477); (1479, 1479); (1524, 1524);
   (1536, 1541); (1552, 1562); (1564, 1564); (1600, 1600);
   (1611, 1631); (1648, 1648); (1750, 1757); (1759, 1768);
   (1770, 1773); (1807, 1807); (1809, 1809); (1840, 1866);
   (1958, 1968); (2027, 2037); (2042, 2042); (2045, 2045);
   (2070, 2093); (2137, 2139); (2184, 2184); (2192, 2193);
   (2200, 2207); (2249, 2306); (2362, 2362); (2364, 2364);
   (2369, 2376); (2381, 2381); (2385, 2391); (2402, 2403);
   (2417, 2417); (2433, 2433); (2492, 2492); (2497, 2500);
   (2509, 2509); (2530, 2531); (2558, 2558); (2561, 2562);
   (2620, 2620); (2625, 2626); (2631, 2632); (2635, 2637);
   (2641, 2641); (2672, 2673); (2677, 2677); (2689, 2690);
   (2748, 2748); (2753, 2757); (2759, 2760); (2765, 2765);
   (2786, 2787); (2810, 2815); (2817, 2817); (2876, 2876);
   (2879, 2879); (2881, 2884); (2893, 2893); (2901, 2902);
   (2914, 2915); (2946, 2946); (3008, 3008); (3021, 3021);
   (3072, 3072); (3076, 3076); (3132, 3132); (3134, 3136);
   (3142, 3144); (3146, 3149); (3157, 3158); (3170, 3171);
   (3201, 3201); (3260, 3260); (3263, 3263); (3270, 3270);
   (3276, 3277); (3298, 3299); (3328, 3329); (3387, 3388);
   (3393, 3396); (3405, 3405); (3426, 3427); (3457, 3457);
   (3530, 3530); (3538, 3540); (3542, 3542); (3633, 3633);
   (3636, 3642); (3654, 3662); (3761, 3761); (3764, 3772);
   (3782, 3782); (3784, 3789); (3864, 3865); (3893, 3893);
   (3895, 3895); (3897, 3897); (3953, 3966); (3968, 3972);
   (3974, 3975); (3981, 3991); (3993, 4028); (4038, 4038);
   (4141, 4144); (4146, 4151); (4153, 4154); (4157, 4158);
   (4184, 4185); (4190, 4192); (4209, 4212); (4226, 4226);
   (4229, 4230); (4237, 4237); (4253, 4253); (4348, 4348);
   (4957, 4959); (5906, 5908); (5938, 5939); (5970, 5971);
   (6002, 6003); (6068, 6069); (6071, 6077); (6086, 6086);
   (6089, 6099); (6103, 6103); (6109, 6109); (6155, 6159);
   (6211, 6211); (6277, 6278); (6313, 6313); (6432, 6434);
   (6439, 6440); (6450, 6450); (6457, 6459); (6679, 6680);
   (6683, 6683); (6742, 6742); (6744, 6750); (6752, 6752);
   (6754, 6754); (6757, 6764); (6771, 6780); (6783, 6783);
   (6823, 6823); (6832, 6862); (6912, 6915); (6964, 6964);
   (6966, 6970); (6972, 6972); (6978, 6978); (7019, 7027);
   (7040, 7041); (7074, 7077); (7080, 7081); (7083, 7085);
   (7142, 7142); (7144, 7145); (7149, 7149); (7151, 7153);
   (7212, 7219); (7222, 7223); (7288, 7293); (7376, 7378);
   (7380, 7392); (7394, 7400); (7405, 7405); (7412, 7412);
   (7416, 7417); (7468, 7530); (7544, 7544); (7579, 7679);
   (8125, 8125); (8127, 8129); (8141, 8143); (8157, 8159);
   (8173, 8175); (8189, 8190); (8203, 8207); (8216, 8217);
   (8228, 8228); (8231, 8231); (8234, 8238); (8288, 8292);
   (8294, 8303); (8305, 8305); (8319, 8319); (8336, 8348);
   (8400, 8432); (11388, 11389); (11503, 11505); (11631, 11631);
   (11647, 11647); (11744, 11775); (11823, 11823); (12293, 12293);
   (12330, 12333); (12337, 12341); (12347, 12347); (12441, 12446);
   (12540, 12542); (40981, 40981); (42232, 42237); (42508, 42508);
   (42607, 42610); (42612, 42621); (42623, 42623); (42652, 42655);
   (42736, 42737); (42752, 42785); (42864, 42864); (42888, 42890);
   (42994, 42996); (43000, 43001); (43010, 43010); (43014, 43014);
   (43019, 43019); (43045, 43046); (43052, 43052); (43204, 43205);
   (43232, 43249); (43263, 43263); (43302, 43309); (43335, 43345);
   (43392, 43394); (43443, 43443); (43446, 43449); (43452, 43453);
   (43471, 43471); (43493, 43494); (43561, 43566); (43569, 43570);
   (43573, 43574); (43587, 43587); (43596, 43596); (43632, 43632);
   (43644, 43644); (43696, 43696); (43698, 43700); (43703, 43704);
   (43710, 43711); (43713, 43713); (43741, 43741); (43756, 43757);
   (43763, 43764); (43766, 43766); (43867, 43871); (43881, 43883);
   (44005, 44005); (44008, 44008); (44013, 44013); (64286, 64286);
   (64434, 64450); (65024, 65039); (65043, 65043); (65056, 65071);
   (65106, 65106); (65109, 65109); (65279, 65279); (65287, 65287);
   (65294, 65294); (65306, 65306); (65342, 65342); (65344, 65344);
   (65392, 65392); (65438, 65439); (65507, 65507); (65529, 65531);
   (66045, 66045); (66272, 66272); (66422, 66426); (67456, 67461);
   (67463, 67504); (67506, 67514); (68097, 68099); (68101, 68102);
   (68108, 68111); (68152, 68154); (68159, 68159); (68325, 68326);
   (68900, 68903); (69291, 69292); (69446, 69456); (69506, 69509);
   (69633, 69633); (69688, 69702); (69744, 69744); (69747, 69748);
   (69759, 69761); (69811, 69814); (69817, 69818); (69821, 69821);
   (69826, 69826); (69837, 69837); (69888, 69890); (69927, 69931);
   (69933, 69940); (70003, 70003); (70016, 70017); (70070, 70078);
   (70089, 70092); (70095, 70095); (70191, 70193); (70196, 70196);
   (70198, 70199); (70206, 70206); (70367, 70367); (70371, 70378);
   (70400, 70401); (70459, 70460); (70464, 70464); (70502, 70508);
   (70512, 70516); (70712, 70719); (70722, 70724); (70726, 70726);
   (70750, 70750); (70835, 70840); (70842, 70842); (70847, 70848);
   (70850, 70851); (71090, 71093); (71100, 71101); (71103, 71104);
   (71132, 71133); (71219, 71226); (71229, 71229); (71231, 71232);
   (71339, 71339); (71341, 71341); (71344, 71349); (71351, 71351);
   (71453, 71455); (71458, 71461); (71463, 71467); (71727, 71735);
   (71737, 71738); (71995, 71996); (71998, 71998); (72003, 72003);
   (72148, 72151); (72154, 72155); (72160, 72160); (72193, 72202);
   (72243, 72248); (72251, 72254); (72263, 72263); (72273, 72278);
   (72281, 72283); (72330, 72342); (72344, 72345); (72752, 72758);
   (72760, 72765); (72767, 72767); (72850, 72871); (72874, 72880);
   (72882, 72883); (72885, 72886); (73009, 73014); (73018, 73018);
   (73020, 73021); (73023, 73029); (73031, 73031); (73104, 73105);
   (73109, 73109); (73111, 73111); (73459, 73460); (78896, 78904);
   (92912, 92916); (92976, 92982); (92992, 92995); (94031, 94031);
   (94095, 94111); (94176, 94177); (94179, 94180); (110576, 110579);
   (110581, 110587); (110589, 110590); (113821, 113822); (113824, 113827);
   (118528, 118573); (118576, 118598); (119143, 119145); (119155, 119170);
   (119173, 119179); (119210, 119213); (119362, 119364); (121344, 121398);
   (121403, 121452); (121461, 121461); (121476, 121476); (121499, 121503);
   (121505, 121519); (122880, 122886); (122888, 122904); (122907, 122913);
   (122915, 122916); (122918, 122922); (123184, 123197); (123566, 123566);
   (123628, 123631); (125136, 125142); (125252, 125259); (127995, 127999);
   (917505, 917505); (917536, 917631); (917760, 917999)]%N.

Definition in_ranges (ranges : list (N * N)) (c : N) : bool :=
  existsb (fun r => ((fst r <=? c) && (c <=? snd r))%N) ranges.

Definition is_cased (c : N) : bool := in_ranges cased_ranges c.
Definition is_case_ignorable (c : N) : bool :=
  in_ranges case_ignorable_ranges c.

(** The lower-case mapping of one code point; U+0130 is the one code point
    whose image has two. *)
Definition to_lower_full (c : N) : list N :=
  (if c =? 304 then [105; 775]
   else
     match List.find (fun r => (fst (fst r) <=? c) && (c <=? snd (fst r)))
                     lower_shift with
     | Some r => [snd r + (c - fst (fst r))]
     | None =>
         if existsb (fun r => (fst r <=? c) && (c <=? snd r)
                              && N.even (c - fst r))
                    lower_alternating
         then [c + 1]
         else [c]
     end)%N.

Fixpoint skip_ignorable (l : list N) : list N :=
  match l with
  | [] => []
  | c :: r => if is_case_ignorable c then skip_ignorable r else l
  end.

(** Whether a capital sigma is at the end of a word: a cased character
    before it and none after it, case-ignorable characters apart. *)
Definition final_sigma (before after : list N) : bool :=
  match skip_ignorable before with
  | c :: _ => is_cased c
  | [] => false
  end
  && match skip_ignorable after with
     | c :: _ => negb (is_cased c)
     | [] => true
     end.

(** [before] holds the characters already read, the nearest first. *)
Fixpoint lower_chars (before l : list N) : list N :=
  match l with
  | [] => []
  | c :: r =>
      (if (c =? 931)%N
       then [if final_sigma before r then 962%N else 963%N]
       else to_lower_full c)
      ++ lower_chars (c :: before) r
  end.

(** [s.lower()] *)
Definition lower (s : string) : string := encode (lower_chars [] (decode s)).

(** [needle in hay] on strings *)
Fixpoint contains (needle hay : string) : bool :=
  if String.prefix needle hay then true
  else match hay with
       | EmptyString => false
       | String _ r => contains needle r
       end.

(** [str(n)] on an integer *)
Definition str_int (z : Z) : string := NilZero.string_of_int (Z.to_int z).

(** [enumerate(l, 1)] *)
Definition enumerate1 {A} (l : list A) : list (Z * A) :=
  combine (map Z.of_nat (seq 1 (length l))) l.

(** [s.startswith(p)] *)
Definition startswith (s p : string) : bool := String.prefix p s.

End Py.

(** ** RetryPolicy: [SearchEngine._retry_backoff] *)

(** The duration that [_retry_backoff(attempt)] sleeps, as a function of the
    value drawn from [random.uniform(-0.5, 0.5)]. *)
Definition sleep_time (attempt : Z) (jitter : Q) : Q :=
  let base := Z.min 16 (2 ^ attempt) in
  Qmax 1 (inject_Z base + jitter).

(** ** Paginator: the page window of [AIResearchAgent.research] *)




(** [page_results = all_results[start:start + per_page] if all_results else []] *)
Definition page_results {A} (all_results : list A) (start per_page : Z) : list A :=
  if Py.truthy_list all_results
  then Py.slice all_results start (start + per_page)
  else [].

(** [has_more = bool(all_results and len(all_results) > (start + per_page))] *)
Definition has_more {A} (all_results : list A) (start per_page : Z) : bool :=
  Py.truthy_list all_results && (Py.len all_results >? start + per_page).

(** ** Data model *)

(** A raw hit as a provider returns it: a dictionary from field names to
    strings. *)
Abbreviation RawHit := (gmap string string).

(** [d.get(key, default)] *)
Definition dict_get (d : RawHit) (key default : string) : string :=
  match d !! key with
  | Some v => v
  | None => default
  end.

(** The normalised record.  Web hits carry [title], [url] and [snippet];
    news hits carry [date] and [source] as well. *)
Record SearchRecord := mkRecord {
  title : string;
  url : string;
  snippet : string;
  date : option string;
  source : option string
}.

(** The exceptions the code distinguishes: the DuckDuckGo client's own
    exception (with the text of [str(e)]), [requests.exceptions.HTTPError]
    (with the status code of its response), and every other subclass of
    [Exception] (transport errors, malformed JSON, ...). *)
Inductive Exn :=
| DuckDuckGoSearchException (msg : string)
| HTTPError (status : Z)
| OtherException (msg : string).

Inductive Result (A : Type) :=
| Return (a : A)
| Raise (e : Exn).
Arguments Return {A} a.
Arguments Raise {A} e.

(** What [requests.get] hands back when the transport succeeds: the status
    code, and the [items] of the JSON body ([None] when the body does not
    parse; a body without [items] has the empty list, as
    [data.get('items', [])] reads it). *)
Record Response := mkResponse {
  status_code : Z;
  json_items : option (list RawHit)
}.

(** What [WebScraper.scrape_url] returns. *)
Record Scraped := mkScraped {
  scraped_url : string;
  scraped_title : option string;
  scraped_text : option string;
  scraped_error : option string;
  success : bool
}.

(** The dictionary [research_data] built by [research]. *)
Record ResearchData := mkData {
  rd_query : string;
  rd_timestamp : string;
  rd_search_results : list SearchRecord;
  rd_sources : list Scraped;
  rd_page : Z;
  rd_per_page : Z;
  rd_has_more : bool;
  rd_error : option string;
  rd_analysis : option string
}.

(** Every interaction with the outside, in program order.  The [Call_*]
    events mark the entry into a method of [SearchEngine], as a test double
    would count it. *)
Inductive Event :=
| Call_search_google (query : string) (max_results : Z)
| Call_search_duckduckgo (query : string) (max_results : Z)
| Call_news_search (query : string) (max_results : Z)
| requests_get (key cx q : string) (start num : Z)
| ddgs_text (query : string) (max_results : Z) (backend : string)
| ddgs_news (query : string) (max_results : Z)
| make_ddgs
| random_uniform
| time_sleep (seconds : Q)
| logging_error (last_error : option Exn)
| progress (msg : string)
| datetime_now
| scrape (target : string)
| analyze (backend : string).

(** The outside world: the answer of each service to its k-th request,
    the exception, if any, with which the k-th construction of a [DDGS]
    client fails, and the exception, if any, with which the k-th call of
    the caller's progress callback fails. *)
Record World := mkWorld {
  w_text : nat -> string -> Z -> string -> Result (list RawHit);
  w_news : nat -> string -> Z -> Result (list RawHit);
  w_get : nat -> string -> string -> string -> Z -> Z -> Result Response;
  w_uniform : nat -> Q;
  w_now : nat -> string;
  w_scrape : nat -> string -> Result Scraped;
  w_analyze : nat -> ResearchData -> string;
  w_make : nat -> option Exn;
  w_progress : nat -> option Exn
}.

(** The attributes of a [SearchEngine] instance that change or differ
    between instances.  [ddgs] is the client object, identified by the
    number of clients built so far.  [_backends_cycle] is assigned once in
    [__init__] and never again; it is the constant below. *)
Record SearchEngine := mkEngine {
  google_api_key : option string;
  google_cse_id : option string;
  preferred_engine : string;
  _backend_idx : Z;
  ddgs : nat
}.

(** The attributes of an [AIResearchAgent] instance.  [research_history]
    holds references into the heap of [research_data] dictionaries. *)
Record AIResearchAgent := mkAgent {
  search_engine : SearchEngine;
  use_ai : bool;
  ai_backend : string;
  research_history : list nat
}.

Record State := mkState {
  agent : AIResearchAgent;
  heap : list ResearchData;
  trace : list Event
}.

Definition _backends_cycle : list string := ["api"; "html"; "lite"].

Definition engine (s : State) : SearchEngine := search_engine (agent s).

Definition set_engine (e : SearchEngine) (s : State) : State :=
  mkState (mkAgent e (use_ai (agent s)) (ai_backend (agent s))
                   (research_history (agent s)))
          (heap s) (trace s).

Definition set_backend_idx (i : Z) (e : SearchEngine) : SearchEngine :=
  mkEngine (google_api_key e) (google_cse_id e) (preferred_engine e)
           i (ddgs e).

Definition set_ddgs (c : nat) (e : SearchEngine) : SearchEngine :=
  mkEngine (google_api_key e) (google_cse_id e) (preferred_engine e)
           (_backend_idx e) c.

Definition set_preferred (p : string) (e : SearchEngine) : SearchEngine :=
  mkEngine (google_api_key e) (google_cse_id e) p
           (_backend_idx e) (ddgs e).


Definition set_heap (h : list ResearchData) (s : State) : State :=
  mkState (agent s) h (trace s).

Definition log (e : Event) (s : State) : State :=
  mkState (agent s) (heap s) (trace s ++ [e]).

(** Number of events of a kind in a trace. *)
Fixpoint count_ev (p : Event -> bool) (t : list Event) : nat :=
  match t with
  | [] => O
  | e :: r => if p e then S (count_ev p r) else count_ev p r
  end.

Definition is_call_google (e : Event) : bool :=
  match e with Call_search_google _ _ => true | _ => false end.
Definition is_call_duckduckgo (e : Event) : bool :=
  match e with Call_search_duckduckgo _ _ => true | _ => false end.
Definition is_requests_get (e : Event) : bool :=
  match e with requests_get _ _ _ _ _ => true | _ => false end.
Definition is_ddgs_text (e : Event) : bool :=
  match e with ddgs_text _ _ _ => true | _ => false end.
Definition is_ddgs_news (e : Event) : bool :=
  match e with ddgs_news _ _ => true | _ => false end.
Definition is_make_ddgs (e : Event) : bool :=
  match e with make_ddgs => true | _ => false end.
Definition is_uniform (e : Event) : bool :=
  match e with random_uniform => true | _ => false end.
Definition is_sleep (e : Event) : bool :=
  match e with time_sleep _ => true | _ => false end.
Definition is_scrape (e : Event) : bool :=
  match e with scrape _ => true | _ => false end.
Definition is_analyze (e : Event) : bool :=
  match e with analyze _ => true | _ => false end.
Definition is_progress (e : Event) : bool :=
  match e with progress _ => true | _ => false end.

(** ** The state-and-exception monad *)

Definition M (A : Type) : Type := State -> Result A * State.

Definition ret {A} (a : A) : M A := fun s => (Return a, s).

Definition raise {A} (e : Exn) : M A := fun s => (Raise e, s).

Definition bind {A B} (m : M A) (k : A -> M B) : M B :=
  fun s =>
    match m s with
    | (Return a, s') => k a s'
    | (Raise e, s') => (Raise e, s')
    end.

(** [try: m  except Exception as e: h e] *)
Definition try_except {A} (m : M A) (h : Exn -> M A) : M A :=
  fun s =>
    match m s with
    | (Return a, s') => (Return a, s')
    | (Raise e, s') => h e s'
    end.

Declare Scope py_scope.
Delimit Scope py_scope with py.
Notation "'let*' x ':=' c1 'in' c2" := (bind c1 (fun x => c2))
  (at level 10, x name, c1 at level 100, c2 at level 200) : py_scope.
Open Scope py_scope.

Definition get : M State := fun s => (Return s, s).
Definition modify (f : State -> State) : M unit := fun s => (Return tt, f s).
Definition emit (e : Event) : M unit := modify (log e).

(** [l[i]]: raises [IndexError] out of range. *)
Definition subscript {A} (l : list A) (i : Z) : M A :=
  let j := if i <? 0 then i + Py.len l else i in
  match (if j <? 0 then None else l !! Z.to_nat j) with
  | Some x => ret x
  | None => raise (OtherException "IndexError")
  end.

(** ** External services *)

Section Program.

Variable w : World.

(** [self.ddgs.text(query, max_results=.., backend=..) or []] *)
Definition DDGS_text (query : string) (max_results : Z) (backend : string)
  : M (list RawHit) :=
  fun s =>
    (w_text w (count_ev is_ddgs_text (trace s)) query max_results backend,
     log (ddgs_text query max_results backend) s).

(** [self.ddgs.news(query, max_results=..) or []] *)
Definition DDGS_news (query : string) (max_results : Z) : M (list RawHit) :=
  fun s =>
    (w_news w (count_ev is_ddgs_news (trace s)) query max_results,
     log (ddgs_news query max_results) s).

(** [requests.get(url, params=params, timeout=10)] *)
Definition requests_get_ (key cx q : string) (start num : Z) : M Response :=
  fun s =>
    (w_get w (count_ev is_requests_get (trace s)) key cx q start num,
     log (requests_get key cx q start num) s).

(** [response.raise_for_status()] *)
Definition raise_for_status (r : Response) : M unit :=
  if (400 <=? status_code r) && (status_code r <? 600)
  then raise (HTTPError (status_code r))
  else ret tt.

(** [response.json().get('items', [])] *)
Definition json_get_items (r : Response) : M (list RawHit) :=
  match json_items r with
  | Some items => ret items
  | None => raise (OtherException "JSONDecodeError")
  end.

(** [random.uniform(-0.5, 0.5)] *)
Definition uniform : M Q :=
  fun s =>
    (Return (w_uniform w (count_ev is_uniform (trace s))),
     log random_uniform s).

(** [time.sleep(seconds)] *)
Definition sleep (seconds : Q) : M unit := emit (time_sleep seconds).


(** ** SearchEngine *)

(** [SearchEngine.__init__], given the two environment variables. *)
Definition SearchEngine_init (env_key env_cse : option string)
           (preferred : string) : SearchEngine :=
  mkEngine env_key env_cse (Py.lower preferred) 0 1.

(** [set_preferred_engine] *)
Definition set_preferred_engine (e : string) : M unit :=
  modify (fun s => set_engine (set_preferred (Py.lower e) (engine s)) s).

(** [self.ddgs = self._make_ddgs()]: when the constructor of the client
    raises, the attribute is not assigned and the exception goes on. *)
Definition rebuild_client : M unit :=
  fun s =>
    let k := count_ev is_make_ddgs (trace s) in
    match w_make w k with
    | None =>
        (Return tt, log make_ddgs (set_engine (set_ddgs (S k) (engine s)) s))
    | Some e => (Raise e, log make_ddgs s)
    end.

(** [_retry_backoff] *)
Definition _retry_backoff (attempt : Z) : M unit :=
  let* jitter := uniform in
  sleep (sleep_time attempt jitter).

(** The three normalisers (the dictionary literals of [_search_google],
    [_search_duckduckgo] and [news_search]). *)
Definition normalize_google (item : RawHit) : SearchRecord :=
  mkRecord (dict_get item "title" "Untitled")
           (dict_get item "link" "")
           (dict_get item "snippet" "")
           None None.

Definition normalize_text (r : RawHit) : SearchRecord :=
  mkRecord (dict_get r "title" "")
           (Py.or_str (dict_get r "href" "") (dict_get r "url" ""))
           (Py.or_str (dict_get r "body" "") (dict_get r "snippet" ""))
           None None.

Definition normalize_news (r : RawHit) : SearchRecord :=
  mkRecord (dict_get r "title" "")
           (dict_get r "url" "")
           (Py.or_str (dict_get r "body" "") (dict_get r "snippet" ""))
           (Some (dict_get r "date" ""))
           (Some (dict_get r "source" "")).

(** The [for i in range(num_requests)] loop of [_search_google]. *)
Fixpoint google_requests (key cx query : string) (max_results : Z)
         (indices : list Z) (results : list SearchRecord)
  : M (list SearchRecord) :=
  match indices with
  | [] => ret results
  | i :: rest =>
      let start_index := i * 10 + 1 in
      let num := Z.min 10 (max_results - Py.len results) in
      let* response := requests_get_ key cx query start_index num in
      let* _ := raise_for_status response in
      let* items := json_get_items response in
      if negb (Py.truthy_list items) then ret results
      else
        let results := (results ++ map normalize_google items)%list in
        if Py.len results >=? max_results then ret results
        else google_requests key cx query max_results rest results
  end.

Definition _search_google (query : string) (max_results : Z)
  : M (list SearchRecord) :=
  let* _ := emit (Call_search_google query max_results) in
  let* s := get in
  let self := engine s in
  match google_api_key self, google_cse_id self with
  | Some key, Some cx =>
      if String.eqb key "" || String.eqb cx "" then ret []
      else if Py.contains "your_custom_search_engine_id" (Py.lower cx)
      then ret []
      else
        try_except
          (let num_requests := Z.min ((max_results + 9) / 10) 3 in
           let* results :=
             google_requests key cx query max_results
                             (Py.range num_requests) [] in
           ret (Py.slice results 0 max_results))
          (fun e =>
             match e with
             | HTTPError _ => ret []
             | _ => ret []
             end)
  | _, _ => ret []
  end.

(** [max_results = max(1, min(max_results, 20))] *)
Definition clamp (max_results : Z) : Z := Z.max 1 (Z.min max_results 20).

(** ["Ratelimit" in str(e) or "429" in str(e)] *)
Definition is_rate_limit (msg : string) : bool :=
  Py.contains "Ratelimit" msg || Py.contains "429" msg.

(** [self._backend_idx = (self._backend_idx + 1) % len(self._backends_cycle)] *)
Definition rotate_backend : M unit :=
  modify (fun s =>
    set_engine
      (set_backend_idx
         ((_backend_idx (engine s) + 1) mod Py.len _backends_cycle)
         (engine s)) s).

(** The two [except] clauses of the loop of [_search_duckduckgo].  Either
    branch ends the iteration: by [continue] while [attempt < 4], by
    reaching the end of the loop body on the last attempt. *)
Definition text_handler (attempt : Z) (e : Exn) : M unit :=
  match e with
  | DuckDuckGoSearchException msg =>
      let* continued :=
        (if is_rate_limit msg then
           let* _ := rotate_backend in
           let* _ := rebuild_client in
           if attempt <? 4
           then let* _ := _retry_backoff attempt in ret true
           else ret false
         else ret false) in
      if (continued : bool) then ret tt
      else
        let* _ := rebuild_client in
        if attempt <? 4 then sleep 1 else ret tt
  | _ =>
      let* _ := rebuild_client in
      if attempt <? 4 then sleep 1 else ret tt
  end.

(** One iteration of the loop: [inl results] when the [try] body reaches
    [return results], [inr e] when [e] was caught. *)
Definition text_attempt (query : string) (max_results attempt : Z)
  : M (list SearchRecord + Exn) :=
  try_except
    (let* s := get in
     let* backend :=
       subscript _backends_cycle
                 (_backend_idx (engine s) mod Py.len _backends_cycle) in
     let* results_raw := DDGS_text query max_results backend in
     ret (inl (map normalize_text results_raw)))
    (fun e => let* _ := text_handler attempt e in ret (inr e)).

(** [for attempt in range(5): ...] followed by the exhausted-retries exit. *)
Fixpoint text_attempts (query : string) (max_results : Z)
         (attempts : list Z) (last_error : option Exn)
  : M (list SearchRecord) :=
  match attempts with
  | [] =>
      let* _ := emit (logging_error last_error) in
      ret []
  | attempt :: rest =>
      let* r := text_attempt query max_results attempt in
      match r with
      | inl results => ret results
      | inr e => text_attempts query max_results rest (Some e)
      end
  end.

Definition _search_duckduckgo (query : string) (max_results : Z)
  : M (list SearchRecord) :=
  let* _ := emit (Call_search_duckduckgo query max_results) in
  let max_results := clamp max_results in
  text_attempts query max_results (Py.range 5) None.

Definition search (query : string) (max_results : Z)
  : M (list SearchRecord) :=
  let* s := get in
  let self := engine s in
  if String.eqb (preferred_engine self) "duckduckgo" then
    _search_duckduckgo query max_results
  else if String.eqb (preferred_engine self) "google" then
    if Py.truthy_str (google_api_key self)
       && Py.truthy_str (google_cse_id self)
    then
      let* google_results := _search_google query max_results in
      if Py.truthy_list google_results then ret google_results
      else _search_duckduckgo query max_results
    else _search_duckduckgo query max_results
  else
    if Py.truthy_str (google_api_key self)
       && Py.truthy_str (google_cse_id self)
    then
      let* google_results := _search_google query max_results in
      if Py.truthy_list google_results then ret google_results
      else _search_duckduckgo query max_results
    else _search_duckduckgo query max_results.

(** The [except] clauses of the loop of [news_search]. *)
Definition news_handler (attempt : Z) (e : Exn) : M unit :=
  match e with
  | DuckDuckGoSearchException msg =>
      let* continued :=
        (if is_rate_limit msg then
           let* _ := rebuild_client in
           if attempt <? 4
           then let* _ := _retry_backoff attempt in ret true
           else ret false
         else ret false) in
      if (continued : bool) then ret tt
      else
        let* _ := rebuild_client in
        if attempt <? 4 then _retry_backoff attempt else ret tt
  | _ =>
      let* _ := rebuild_client in
      if attempt <? 4 then _retry_backoff attempt else ret tt
  end.

Definition news_attempt (query : string) (max_results attempt : Z)
  : M (list SearchRecord + Exn) :=
  try_except
    (let* results_raw := DDGS_news query max_results in
     ret (inl (map normalize_news results_raw)))
    (fun e => let* _ := news_handler attempt e in ret (inr e)).

(** The loop of [news_search], then the fallback to the generic search. *)
Fixpoint news_attempts (query : string) (max_results : Z)
         (attempts : list Z) (last_error : option Exn)
  : M (list SearchRecord) :=
  match attempts with
  | [] =>
      let* _ := emit (logging_error last_error) in
      try_except
        (let* generic := search (query ++ " news")%string max_results in
         ret generic)
        (fun _ => ret [])
  | attempt :: rest =>
      let* r := news_attempt query max_results attempt in
      match r with
      | inl results => ret results
      | inr e => news_attempts query max_results rest (Some e)
      end
  end.

Definition news_search (query : string) (max_results : Z)
  : M (list SearchRecord) :=
  let* _ := emit (Call_news_search query max_results) in
  let max_results := clamp max_results in
  news_attempts query max_results (Py.range 5) None.

(** ** WebScraper and the analysis back end *)

(** [WebScraper.scrape_url]: the check of the URL is the code's; the
    download and the extraction are the world's.  Every call is
    recorded, also one that stops at the check. *)
Definition scrape_url (target : string) : M Scraped :=
  fun s =>
    let k := count_ev is_scrape (trace s) in
    let s' := log (scrape target) s in
    if String.eqb target ""
       || negb (Py.startswith target "http://"
                || Py.startswith target "https://")
    then (Return (mkScraped target None None (Some "Invalid URL") false), s')
    else (w_scrape w k target, s').


(** ** AIResearchAgent *)


(** In-place update of the dictionary at a reference. *)
Definition update (r : nat) (f : ResearchData -> ResearchData) : M unit :=
  modify (fun s => set_heap (alter f r (heap s)) s).




Definition add_source (x : Scraped) (d : ResearchData) : ResearchData :=
  mkData (rd_query d) (rd_timestamp d) (rd_search_results d)
         (rd_sources d ++ [x])
         (rd_page d) (rd_per_page d) (rd_has_more d) (rd_error d)
         (rd_analysis d).


(** [if progress_cb: progress_cb(msg)]; the callback, when there is one,
    is the caller's code: it returns or raises as the world has it. *)
Definition call_progress (progress_cb : bool) (msg : string) : M unit :=
  if progress_cb
  then fun s =>
         (match w_progress w (count_ev is_progress (trace s)) with
          | None => Return tt
          | Some e => Raise e
          end,
          log (progress msg) s)
  else ret tt.

(** [for i, result in enumerate(page_results, 1): ...] *)
Fixpoint scrape_sources (progress_cb : bool) (research_data : nat)
         (total : Z) (items : list (Z * SearchRecord)) : M unit :=
  match items with
  | [] => ret tt
  | (i, result) :: rest =>
      let target := url result in
      let* _ :=
        call_progress progress_cb
          ("Scraping [" ++ Py.str_int i ++ "/" ++ Py.str_int total ++ "] "
                        ++ target)%string in
      let* _ :=
        try_except
          (let* scraped := scrape_url target in
           if success scraped
           then update research_data (add_source scraped)
           else ret tt)
          (fun _ => ret tt) in
      scrape_sources progress_cb research_data total rest
  end.


End Program.

(** [AIResearchAgent.__init__] and the state of a fresh process. *)
Definition AIResearchAgent_init (env_key env_cse : option string)
           (use_ai : bool) (ai_backend search_engine : string)
  : AIResearchAgent :=
  mkAgent (SearchEngine_init env_key env_cse search_engine)
          use_ai ai_backend [].

Definition init_state (env_key env_cse : option string) (use_ai : bool)
           (ai_backend search_engine : string) : State :=
  mkState (AIResearchAgent_init env_key env_cse use_ai ai_backend search_engine)
          [] [make_ddgs].

(** ** Specification-side vocabulary *)

(** The backend that rotation slot [i] selects. *)
Definition backend_at (i : Z) : string :=
  nth (Z.to_nat (i mod Py.len _backends_cycle)) _backends_cycle "".

(** A failure of the fallback client that the loop treats as a rate limit. *)
Definition rate_limited (e : Exn) : bool :=
  match e with
  | DuckDuckGoSearchException msg => is_rate_limit msg
  | _ => false
  end.

(** The k-th request to the primary provider fails: transport error, HTTP
    error status, or a body that does not parse. *)
Definition get_fails (r : Result Response) : bool :=
  match r with
  | Raise _ => true
  | Return resp =>
      ((400 <=? status_code resp) && (status_code resp <? 600))
      || match json_items resp with None => true | Some _ => false end
  end.

Definition is_raise {A} (r : Result A) : bool :=
  match r with Raise _ => true | Return _ => false end.

(** Every construction of a [DDGS] client succeeds. *)
Definition clients_build (w : World) : Prop := forall k, w_make w k = None.

(** The provider answers with no more hits than it was asked for. *)
Definition honours_max_results (w : World) : Prop :=
  (forall k q m b items,
      w_text w k q m b = Return items -> Py.len items <= Z.max 0 m)
  /\ (forall k q m items,
      w_news w k q m = Return items -> Py.len items <= Z.max 0 m).

(** Number of rate-limit-flavoured answers among the [ddgs.text] calls of a
    trace suffix, the first of which is the [k]-th call overall. *)
Fixpoint rate_limit_count (w : World) (k : nat) (evs : list Event) : Z :=
  match evs with
  | [] => 0
  | ddgs_text q m b :: r =>
      (match w_text w k q m b with
       | Raise e => if rate_limited e then 1 else 0
       | Return _ => 0
       end) + rate_limit_count w (S k) r
  | _ :: r => rate_limit_count w k r
  end.

(** Events that the fallback and news loops emit: everything but the entry
    into a method of the engine and the requests to the primary provider. *)
Definition is_call (e : Event) : bool :=
  match e with
  | Call_search_google _ _ | Call_search_duckduckgo _ _
  | Call_news_search _ _ => true
  | _ => false
  end.

(** Events of the retry machinery common to both loops. *)
Definition retry_event (e : Event) : bool :=
  match e with
  | make_ddgs | random_uniform | time_sleep _ | logging_error _ => true
  | _ => false
  end.

Definition text_event (e : Event) : bool := is_ddgs_text e || retry_event e.
Definition news_event (e : Event) : bool := is_ddgs_news e || retry_event e.

(** The backend index after [n] rotations from slot [i]. *)
Definition rotated (n i : Z) : Z :=
  if n =? 0 then i else (i + n) mod Py.len _backends_cycle.

(** The events an [except] clause of the text loop adds after the request. *)
Definition text_handler_events (w : World) (a : Z) (e : Exn) (s : State)
  : list Event :=
  let j := w_uniform w (count_ev is_uniform (trace s)) in
  if rate_limited e
  then if a <? 4
       then [make_ddgs; random_uniform; time_sleep (sleep_time a j)]
       else [make_ddgs; make_ddgs]
  else if a <? 4
       then [make_ddgs; time_sleep 1]
       else [make_ddgs].

(** The events an [except] clause of the news loop adds after the request:
    the backoff is the exponential one for every kind of failure. *)
Definition news_handler_events (w : World) (a : Z) (e : Exn) (s : State)
  : list Event :=
  let j := w_uniform w (count_ev is_uniform (trace s)) in
  if a <? 4
  then [make_ddgs; random_uniform; time_sleep (sleep_time a j)]
  else if rate_limited e then [make_ddgs; make_ddgs] else [make_ddgs].

(** Events of a call of [search]. *)
Definition search_event (e : Event) : bool :=
  is_call_google e || is_call_duckduckgo e || is_requests_get e
  || text_event e.

(** Events of a call of a method of the engine. *)
Definition engine_event (e : Event) : bool :=
  search_event e || news_event e || is_call e.

(** The attributes that no method of the engine assigns. *)
Definition same_config (s s' : State) : Prop :=
  google_api_key (engine s') = google_api_key (engine s)
  /\ google_cse_id (engine s') = google_cse_id (engine s)
  /\ preferred_engine (engine s') = preferred_engine (engine s)
  /\ use_ai (agent s') = use_ai (agent s)
  /\ ai_backend (agent s') = ai_backend (agent s)
  /\ research_history (agent s') = research_history (agent s)
  /\ heap s' = heap s.

(** What holds of the outcome [out] of a generic search for [m] results
    started in [s]: it returned; the configuration, the history and the heap
    are as before; the trace grew by events of a search, among them at most
    five requests to the fallback backend; the backend index moved by one
    slot per rate-limit-flavoured failure; the records are at most
    [max(0, m)] ones of the primary client, or none, or the normalised
    answer of the fallback backend to a request for [clamp m]; and they are
    none when every request to either provider fails. *)
Definition search_post (w : World) (q : string) (m : Z) (s : State)
           (out : Result (list SearchRecord) * State) : Prop :=
  exists r s' evs,
    out = (Return r, s')
    /\ same_config s s'
    /\ trace s' = trace s ++ evs
    /\ Forall (fun e => search_event e = true) evs
    /\ (count_ev is_ddgs_text evs <= 5)%nat
    /\ _backend_idx (engine s')
       = rotated (rate_limit_count w (count_ev is_ddgs_text (trace s)) evs)
                 (_backend_idx (engine s))
    /\ ((r <> [] /\ Py.len r <= m)
        \/ r = []
        \/ exists k b items,
             w_text w k q (clamp m) b = Return items
             /\ r = map normalize_text items)
    /\ ((forall k q' m' b, is_raise (w_text w k q' m' b) = true) ->
        (forall k a b c d e, get_fails (w_get w k a b c d e) = true) ->
        r = []).

(** The same for every world: the search is left by [return], and then
    the records are as above, or by an exception, and then by one of the
    constructor of the client; what is said of the state and of the trace
    holds in both cases. *)
Definition search_outcome (w : World) (q : string) (m : Z) (s : State)
           (out : Result (list SearchRecord) * State) : Prop :=
  exists o s' evs,
    out = (o, s')
    /\ same_config s s'
    /\ trace s' = trace s ++ evs
    /\ Forall (fun e => search_event e = true) evs
    /\ (count_ev is_ddgs_text evs <= 5)%nat
    /\ _backend_idx (engine s')
       = rotated (rate_limit_count w (count_ev is_ddgs_text (trace s)) evs)
                 (_backend_idx (engine s))
    /\ match o with
       | Return r =>
           ((r <> [] /\ Py.len r <= m)
            \/ r = []
            \/ exists k b items,
                 w_text w k q (clamp m) b = Return items
                 /\ r = map normalize_text items)
           /\ ((forall k q' m' b, is_raise (w_text w k q' m' b) = true) ->
               (forall k a b c d e, get_fails (w_get w k a b c d e) = true) ->
               r = [])
       | Raise e => exists k, w_make w k = Some e
       end.

(** [try: return self.search(..)  except Exception: return []], on the
    outcome of the search. *)
Definition or_empty (out : Result (list SearchRecord) * State)
  : Result (list SearchRecord) * State :=
  match out with
  | (Return r, s) => (Return r, s)
  | (Raise _, s) => (Return [], s)
  end.

(** Two versions of a [research_data] dictionary that differ at most in
    [sources]. *)
Definition same_but_sources (d d' : ResearchData) : Prop :=
  rd_query d' = rd_query d
  /\ rd_timestamp d' = rd_timestamp d
  /\ rd_search_results d' = rd_search_results d
  /\ rd_page d' = rd_page d
  /\ rd_per_page d' = rd_per_page d
  /\ rd_has_more d' = rd_has_more d
  /\ rd_error d' = rd_error d
  /\ rd_analysis d' = rd_analysis d.

(** ** Worlds used as concrete inputs *)

Definition hit (t u b : string) : RawHit :=
  <["title" := t]> (<["href" := u]> (<["body" := b]> ∅)).

Definition three_hits : list RawHit :=
  [hit "A" "https://a.example" "first";
   hit "B" "https://b.example" "second";
   hit "C" "https://c.example" "third"].

Definition ten_items : list RawHit :=
  map (fun n => <["title" := "T"]> (<["link" := "https://g.example"]> ∅))
      (seq 0 10).

(** Every service fails: the fallback client with a rate limit, the primary
    provider with HTTP 429. *)
Definition world_down : World :=
  mkWorld (fun _ _ _ _ => Raise (DuckDuckGoSearchException "Ratelimit"))
          (fun _ _ _ => Raise (DuckDuckGoSearchException "202 Ratelimit"))
          (fun _ _ _ _ _ _ => Return (mkResponse 429 None))
          (fun _ => 0%Q)
          (fun _ => "2024-01-01T00:00:00")
          (fun _ _ => Raise (OtherException "timeout"))
          (fun _ _ => "summary")
          (fun _ => None)
          (fun _ => None).

(** The fallback client is rate limited once, then answers three hits; the
    news endpoint is down; the primary provider answers ten items a page. *)
Definition world_flaky : World :=
  mkWorld (fun k _ m _ =>
             match k with
             | O => Raise (DuckDuckGoSearchException "Ratelimit")
             | _ => Return (take (Z.to_nat m) three_hits)
             end)
          (fun _ _ _ => Raise (OtherException "ConnectionError"))
          (fun _ _ _ _ _ num => Return (mkResponse 200 (Some (take (Z.to_nat num) ten_items))))
          (fun _ => (1 # 4)%Q)
          (fun _ => "2024-01-01T00:00:00")
          (fun _ u => Return (mkScraped u (Some "t") (Some "x") None true))
          (fun _ _ => "summary")
          (fun _ => None)
          (fun _ => None).



Definition unconfigured (mode : string) : State :=
  init_state None None true "ollama" mode.

Definition configured (mode : string) : State :=
  init_state (Some "key") (Some "cx") true "ollama" mode.

(** ** Vocabulary for the properties beyond the specification *)

(** The guard at the head of [_search_google]: a credential is missing or
    empty, or the search-engine id is the placeholder of the sample
    configuration. *)
Definition google_disabled (e : SearchEngine) : bool :=
  negb (Py.truthy_str (google_api_key e))
  || negb (Py.truthy_str (google_cse_id e))
  || match google_cse_id e with
     | Some cx => Py.contains "your_custom_search_engine_id" (Py.lower cx)
     | None => false
     end.

(** The time a trace spends in [time.sleep], in seconds. *)
Fixpoint total_sleep (t : list Event) : Q :=
  match t with
  | [] => 0
  | time_sleep d :: r => d + total_sleep r
  | _ :: r => total_sleep r
  end.

(** [random.uniform(-0.5, 0.5)] stays within its bounds. *)
Definition jitter_bounded (w : World) : Prop :=
  forall k, (- (1 # 2) <= w_uniform w k)%Q /\ (w_uniform w k <= 1 # 2)%Q.

(** The longest sleep that can follow attempt [a] of a retry loop: none
    after the last attempt. *)
Definition sleep_budget (a : Z) : Q :=
  if a <? 4 then Qmax 1 (inject_Z (Z.min 16 (2 ^ a)) + (1 # 2)) else 0.

Fixpoint sleep_budget_sum (attempts : list Z) : Q :=
  match attempts with
  | [] => 0
  | a :: r => sleep_budget a + sleep_budget_sum r
  end.

(** The attempts that remain at some point of [range(5)]: all but the last
    are below 4, the last is not. *)
Fixpoint remaining_attempts (attempts : list Z) : Prop :=
  match attempts with
  | [] => False
  | [a] => 4 <= a
  | a :: r => a < 4 /\ remaining_attempts r
  end.

(** A request to the fallback provider goes to a backend of the cycle. *)
Definition known_backend (e : Event) : Prop :=
  forall q m b, e = ddgs_text q m b -> In b _backends_cycle.


(** The progress callback of a call, if there is one, returns whenever it
    is called. *)
Definition callback_returns (w : World) (progress_cb : bool) : Prop :=
  progress_cb = true -> forall k, w_progress w k = None.







(** A record of the news endpoint carries a date and a source; a record of
    a web search carries neither. *)
Definition is_news_record (r : SearchRecord) : Prop :=
  date r <> None /\ source r <> None.

Definition is_web_record (r : SearchRecord) : Prop :=
  date r = None /\ source r = None.

(** [AIResearchAgent.set_search_engine]: hands the name to the engine. *)
Definition set_search_engine (e : string) : M unit := set_preferred_engine e.

(** An engine name written with the Kelvin sign (U+212A, the bytes
    [E2 84 AA] in UTF-8) for its first [K]: [str.lower] maps the sign to the
    letter [k], so the name is [duckduckgo] in lower case. *)
Definition kelvin_name : string :=
  ("DUC" ++ String "226" (String "132" (String "170" "DUCKGO")))%string.

(** ** The chat bot's user data ([bot.py]) *)

Module Bot.

(** A value stored in [context.user_data]. *)
Inductive Value :=
| VStr (s : string)
| VInt (z : Z)
| VBool (b : bool).

(** [get_user_defaults]: the mode and the search engine of the user, with
    their defaults. *)
Definition get_user_defaults (user_data : gmap string Value) : Value * Value :=
  let mode :=
    match user_data !! "mode" with Some v => v | None => VStr "standard" end in
  let engine :=
    match user_data !! "search_engine" with
    | Some v => v
    | None => VStr "auto"
    end in
  (mode, engine).

(** The dictionary [defaults] of [init_user_data], in its order. *)
Definition defaults : list (string * Value) :=
  [("mode", VStr "standard"); ("search_engine", VStr "auto");
   ("page", VInt 0)].

(** [for key, value in defaults.items():
       if key not in context.user_data: context.user_data[key] = value] *)
Fixpoint set_missing (items : list (string * Value))
         (user_data : gmap string Value) : gmap string Value :=
  match items with
  | [] => user_data
  | (key, value) :: rest =>
      set_missing rest
        (match user_data !! key with
         | Some _ => user_data
         | None => <[key := value]> user_data
         end)
  end.

Definition init_user_data (user_data : gmap string Value)
  : gmap string Value :=
  set_missing defaults user_data.

End Bot.

(** ** The chat bot's keyboards ([bot.py]) *)

Module Keyboard.

(** The entries of [EMOJI] that the keyboards use. *)
Definition EMOJI : list (string * string) :=
  [("quick", "⚡"); ("news", "📰"); ("deep", "🧠"); ("auto", "🔄");
   ("google", "🔴"); ("ddg", "🦆")].

(** [EMOJI[key]] *)
Definition emoji (key : string) : string :=
  match List.find (fun kv => String.eqb (fst kv) key) EMOJI with
  | Some kv => snd kv
  | None => ""
  end.

Record InlineKeyboardButton := mkButton {
  text : string;
  callback_data : string
}.

(** An [InlineKeyboardMarkup]: rows of buttons. *)
Abbreviation InlineKeyboardMarkup := (list (list InlineKeyboardButton)).

(** [active_mark]: the button text with the mark of the current choice. *)
Definition active_mark (current target emoji label : string) : string :=
  if String.eqb current target
  then ("● " ++ emoji ++ " " ++ label)%string
  else ("○ " ++ emoji ++ " " ++ label)%string.

(** [mode_display.get(mode, 'Quick')] of the main menu. *)
Definition mode_display (mode : string) : string :=
  if String.eqb mode "standard" then (emoji "quick" ++ " Quick")%string
  else if String.eqb mode "news" then (emoji "news" ++ " News")%string
  else if String.eqb mode "deep" then (emoji "deep" ++ " Deep")%string
  else "Quick".

Definition build_keyboard (mode : string) (page : Z) (has_more : bool)
           (engine context : string) : InlineKeyboardMarkup :=
  if String.eqb context "main" then
    [ [ mkButton ("● " ++ mode_display mode ++ " Mode")%string "choose_mode" ];
      [ mkButton "⚙️ Settings" "show_settings";
        mkButton "💡 Help" "help" ] ]
  else if String.eqb context "choose_mode" then
    [ [ mkButton (active_mark mode "standard" (emoji "quick") "Quick Search")
                 "mode_standard" ];
      [ mkButton (active_mark mode "news" (emoji "news") "News Search")
                 "mode_news" ];
      [ mkButton (active_mark mode "deep" (emoji "deep") "Deep Research")
                 "mode_deep" ];
      [ mkButton "◀️ Back" "back_to_main" ] ]
  else if String.eqb context "settings" then
    [ [ mkButton (active_mark mode "standard" (emoji "quick") "Quick")
                 "mode_standard" ];
      [ mkButton (active_mark mode "news" (emoji "news") "News")
                 "mode_news" ];
      [ mkButton (active_mark mode "deep" (emoji "deep") "Deep")
                 "mode_deep" ];
      [ mkButton "━━━ Search Engine ━━━" "noop" ];
      [ mkButton (active_mark engine "auto" (emoji "auto") "Auto")
                 "engine_auto" ];
      [ mkButton (active_mark engine "google" (emoji "google") "Google")
                 "engine_google" ];
      [ mkButton (active_mark engine "duckduckgo" (emoji "ddg") "DuckDuckGo")
                 "engine_duckduckgo" ];
      [ mkButton "◀️ Back to Main" "back_to_main" ] ]
  else
    let nav :=
      (if 0 <? page
       then [ mkButton ("⏮ Page " ++ Py.str_int page)%string "page_prev" ]
       else [])
      ++ [ mkButton ("• " ++ Py.str_int (page + 1) ++ " •")%string "noop" ]
      ++ (if has_more
          then [ mkButton ("Page " ++ Py.str_int (page + 2) ++ " ⏭")%string
                          "page_next" ]
          else []) in
    (if (0 <? page) || has_more then [ nav ] else [])
    ++ [ [ mkButton "🔎 New Search" "back_to_main";
           mkButton "⚙️" "show_settings";
           mkButton "💡" "help" ] ].

(** The tests by which [button_callback] recognises the data of a button
    press, in its order. *)
Definition handled (data : string) : bool :=
  String.eqb data "noop"
  || String.eqb data "choose_mode"
  || String.eqb data "show_settings"
  || String.eqb data "back_to_main"
  || String.eqb data "help"
  || Py.startswith data "mode_"
  || Py.startswith data "engine_"
  || String.eqb data "page_next" || String.eqb data "page_prev".

(** Whether a keyboard has a button that sends [data]. *)
Definition sends (data : string) (k : InlineKeyboardMarkup) : bool :=
  existsb (fun b => String.eqb (callback_data b) data) (concat k).

End Keyboard.

(** ** The web scraper in full ([WebScraper.scrape_url])

    The research model above takes the answer of [scrape_url] for a valid
    URL from the world.  Here is the method itself.  Texts are sequences of
    characters of a type [C] with its whitespace test [isspace] and its
    blank [space]; what the libraries deliver (the article that newspaper
    extracts, the page that requests and BeautifulSoup deliver) comes from
    a [Web]. *)

Section WebScraper.

Variable C : Type.
Variable isspace : C -> bool.
Variable space : C.

(** [t.lstrip()], [t.rstrip()], [t.strip()] *)
Fixpoint lstrip (t : list C) : list C :=
  match t with
  | [] => []
  | c :: r => if isspace c then lstrip r else t
  end.

Definition rstrip (t : list C) : list C := rev (lstrip (rev t)).

Definition strip (t : list C) : list C := rstrip (lstrip t).

(** [t.split()]: the maximal runs without whitespace; [word] is the run
    being read, last character first. *)
Fixpoint split_ws (t : list C) (word : list C) : list (list C) :=
  match t with
  | [] => match word with [] => [] | _ => [rev word] end
  | c :: r =>
      if isspace c
      then match word with
           | [] => split_ws r []
           | _ => rev word :: split_ws r []
           end
      else split_ws r (c :: word)
  end.

(** [' '.join(words)] *)
Fixpoint join (words : list (list C)) : list C :=
  match words with
  | [] => []
  | [w] => w
  | w :: ws => w ++ space :: join ws
  end.

(** A value of the dictionary that [scrape_url] returns. *)
Inductive ScrapeValue :=
| SStr (s : string)
| SText (t : list C)
| SNone
| SBool (b : bool)
| SList (l : list string).

(** What [Article(url)] holds after [download()] and [parse()]. *)
Record Article := mkArticle {
  article_title : list C;
  article_text : list C;
  article_authors : list string;
  article_publish_date : option string
}.

(** What [BeautifulSoup(response.content, 'lxml')] holds once the unwanted
    elements are removed: the title element, if any, with its string, if
    any, and the text of the main content. *)
Record Soup := mkSoup {
  soup_title : option (option (list C));
  soup_text : list C
}.

(** The answer to [session.get]: the status, and the document or the
    exception of its parser. *)
Record Page := mkPage {
  page_status : Z;
  page_soup : Result Soup
}.

Record Web := mkWeb {
  web_article : string -> Result Article;
  web_get : string -> Result Page
}.

(** [str(e)] of an exception; of an HTTP error only the status is kept. *)
Definition str_exn (e : Exn) : string :=
  match e with
  | DuckDuckGoSearchException msg => msg
  | HTTPError status => Py.str_int status
  | OtherException msg => msg
  end.

(** The first [try] body: newspaper's extraction. *)
Definition scrape_article (web : Web) (target : string)
  : Result (gmap string ScrapeValue) :=
  match web_article web target with
  | Raise e => Raise e
  | Return article =>
      if negb (Py.truthy_list (article_text article))
         || (Py.len (strip (article_text article)) <? 50)
      then Raise (OtherException "Insufficient content extracted")
      else
        Return
          (<["url" := SStr target]>
           (<["title" := match article_title article with
                         | [] => SStr "Untitled"
                         | t => SText t
                         end]>
            (<["text" := SText (Py.slice (article_text article) 0 10000)]>
             (<["authors" := SList (article_authors article)]>
              (<["publish_date" := match article_publish_date article with
                                   | Some d => SStr d
                                   | None => SNone
                                   end]>
               (<["success" := SBool true]> ∅))))))
  end.

(** The second [try] body: the plain download. *)
Definition scrape_basic (web : Web) (target : string)
  : Result (gmap string ScrapeValue) :=
  match web_get web target with
  | Raise e => Raise e
  | Return page =>
      if (400 <=? page_status page) && (page_status page <? 600)
      then Raise (HTTPError (page_status page))
      else
        match page_soup page with
        | Raise e => Raise e
        | Return soup =>
            let text := join (split_ws (soup_text soup) []) in
            if Py.len (strip text) <? 50
            then Raise (OtherException "Insufficient content")
            else
              Return
                (<["url" := SStr target]>
                 (<["title" := match soup_title soup with
                               | Some (Some t) => SText t
                               | Some None => SNone
                               | None => SStr "Untitled"
                               end]>
                  (<["text" := SText (Py.slice text 0 10000)]>
                   (<["success" := SBool true]> ∅))))
        end
  end.

Definition WebScraper_scrape_url (web : Web) (target : string)
  : Result (gmap string ScrapeValue) :=
  if String.eqb target ""
     || negb (Py.startswith target "http://"
              || Py.startswith target "https://")
  then
    Return (<["url" := SStr target]>
            (<["error" := SStr "Invalid URL"]>
             (<["success" := SBool false]> ∅)))
  else
    match scrape_article web target with
    | Return d => Return d
    | Raise _ =>
        match scrape_basic web target with
        | Return d => Return d
        | Raise fallback_error =>
            Return (<["url" := SStr target]>
                    (<["error" := SStr (str_exn fallback_error)]>
                     (<["success" := SBool false]> ∅)))
        end
    end.

End WebScraper.

Arguments SStr {C} s.
Arguments SText {C} t.
Arguments SNone {C}.
Arguments SBool {C} b.
Arguments SList {C} l.

(** A text is single-spaced when no whitespace character follows another;
    [prev] tells whether the character before the text is whitespace, so
    [single_spaced isspace true t] also says that [t] does not begin with
    whitespace. *)
Fixpoint single_spaced {C} (isspace : C -> bool) (prev : bool) (t : list C)
  : bool :=
  match t with
  | [] => true
  | c :: r => negb (prev && isspace c) && single_spaced isspace (isspace c) r
  end.

(** A small web for the scraper: newspaper fails on every page, and the
    plain download gives a page whose text has runs of blanks. *)
Definition is_blank (c : ascii) : bool := Ascii.eqb c " "%char.

Definition spaced_text : list ascii :=
  list_ascii_of_string
    "  Results   of the  survey were published on Monday by the institute.  ".

Definition web_plain : Web ascii :=
  mkWeb ascii
    (fun _ => Raise (OtherException "download failed"))
    (fun _ => Return (mkPage ascii 200
                        (Return (mkSoup ascii None spaced_text)))).

(** ** The chat bot's message ([format_results] of [bot.py])

    A Python string is held as its UTF-8 encoding.  [len] and the slices of
    Python count code points: here, the bytes that are not continuation
    bytes. *)

Module Format.

Definition MAX_MESSAGE_LEN : Z := 3800.
Definition ANALYSIS_MAX_LEN : Z := 1000.

(** The line feed and the double quote. *)
Definition nl : string := String "010"%char "".
Definition dq : string := String "034"%char "".

Definition is_continuation (c : ascii) : bool :=
  (128 <=? nat_of_ascii c)%nat && (nat_of_ascii c <? 192)%nat.

(** [len(s)] *)
Fixpoint len (s : string) : Z :=
  match s with
  | EmptyString => 0
  | String c r => (if is_continuation c then 0 else 1) + len r
  end.

(** The first [n] code points of [s]. *)
Fixpoint take_chars (n : nat) (s : string) : string :=
  match s with
  | EmptyString => EmptyString
  | String c r =>
      if is_continuation c then String c (take_chars n r)
      else match n with
           | O => EmptyString
           | S n' => String c (take_chars n' r)
           end
  end.

(** [s[:n]], for the bounds [0 <= n] that the code uses. *)
Definition slice_to (s : string) (n : Z) : string := take_chars (Z.to_nat n) s.

(** The code points of [s], each as its bytes. *)
Fixpoint chars (s : string) : list string :=
  match s with
  | EmptyString => []
  | String c r =>
      match chars r with
      | String c' g :: gs =>
          if is_continuation c' then String c (String c' g) :: gs
          else String c "" :: String c' g :: gs
      | gs => String c "" :: gs
      end
  end.

Definition of_bytes (l : list nat) : string :=
  string_of_list_ascii (map ascii_of_nat l).

(** The whitespace of [str.strip]: U+0009 to U+000D, U+001C to U+0020,
    U+0085, U+00A0, U+1680, U+2000 to U+200A, U+2028, U+2029, U+202F,
    U+205F and U+3000. *)
Definition whitespace : list string :=
  map of_bytes
      ([[9]; [10]; [11]; [12]; [13]; [28]; [29]; [30]; [31]; [32];
        [194; 133]; [194; 160]; [225; 154; 128]]
       ++ map (fun k => [226; 128; k]) (seq 128 11)
       ++ [[226; 128; 168]; [226; 128; 169]; [226; 128; 175];
           [226; 129; 159]; [227; 128; 128]])%nat.

Definition isspace (ch : string) : bool :=
  existsb (String.eqb ch) whitespace.

(** [s.strip()] *)
Definition str_strip (s : string) : string :=
  String.concat "" (strip string isspace (chars s)).

(** [html.escape(s)], with the quotes. *)
Fixpoint escape (s : string) : string :=
  match s with
  | EmptyString => EmptyString
  | String c r =>
      ((if Ascii.eqb c "&" then "&amp;"
        else if Ascii.eqb c "<" then "&lt;"
        else if Ascii.eqb c ">" then "&gt;"
        else if Ascii.eqb c "034" then "&quot;"
        else if Ascii.eqb c "'" then "&#x27;"
        else String c "")
       ++ escape r)%string
  end.

(** [sep in s], for a separator of one character *)
Fixpoint occurs (sep : ascii) (s : string) : bool :=
  match s with
  | EmptyString => false
  | String c r => Ascii.eqb c sep || occurs sep r
  end.

(** [s.rsplit(sep, 1)[0]]: what is before the last [sep], or all of [s]
    when it has none. *)
Fixpoint rsplit_head (sep : ascii) (s : string) : string :=
  match s with
  | EmptyString => EmptyString
  | String c r =>
      if occurs sep r then String c (rsplit_head sep r)
      else if Ascii.eqb c sep then EmptyString
      else String c r
  end.

(** ["\n".join(parts)] *)
Fixpoint join_lines (parts : list string) : string :=
  match parts with
  | [] => ""
  | [p] => p
  | p :: ps => (p ++ nl ++ join_lines ps)%string
  end.

Definition header : string := "🔍 <b>Search Results</b>".

Definition truncated : string := (nl ++ nl ++ "<i>...truncated</i>")%string.

(** One line of the results:
    [f"{i}. <a href=\"{url}\">{title}</a>"] *)
Definition result_line (it : Z * SearchRecord) : string :=
  let title := escape (slice_to (title (snd it)) 100) in
  let url := escape (url (snd it)) in
  (Py.str_int (fst it) ++ ". <a href=" ++ dq ++ url ++ dq ++ ">"
   ++ title ++ "</a>")%string.

(** The analysis as it is shown. *)
Definition analysis_text (analysis : string) : string :=
  let text := escape (str_strip analysis) in
  if ANALYSIS_MAX_LEN <? len text
  then (rsplit_head " " (slice_to text ANALYSIS_MAX_LEN) ++ "…")%string
  else text.

(** The list [parts] of [format_results] when all is appended. *)
Definition parts (data : ResearchData) : list string :=
  let query := escape (rd_query data) in
  let page := rd_page data + 1 in
  [header; ("<b>Query:</b> <code>" ++ query ++ "</code>")%string]
  ++ (if 1 <? page then [("<b>Page:</b> " ++ Py.str_int page)%string]
      else [])
  ++ [(nl ++ "━━━━━━━━━━━━━━━━━━━━")%string]
  ++ (if Py.truthy_list (rd_search_results data)
      then (nl ++ "🔗 <b>Found "
            ++ Py.str_int (Py.len (rd_search_results data))
            ++ " results:</b>" ++ nl)%string
           :: map result_line (Py.enumerate1 (rd_search_results data))
      else [(nl ++ "⚠️ <b>No results found</b>")%string])
  ++ (if Py.truthy_list (rd_sources data)
      then [(nl ++ "📄 <b>Analyzed:</b> "
             ++ Py.str_int (Py.len (rd_sources data)) ++ " source(s)")%string]
      else [])
  ++ (if Py.truthy_str (rd_analysis data)
      then [(nl ++ "━━━━━━━━━━━━━━━━━━━━")%string;
            (nl ++ "🧠 <b>AI Analysis:</b>" ++ nl ++ nl
             ++ analysis_text (match rd_analysis data with
                               | Some a => a
                               | None => ""
                               end))%string]
      else [])
  ++ (if Py.truthy_str (rd_error data)
      then [(nl ++ nl ++ "⚠️ <i>"
             ++ escape (slice_to (match rd_error data with
                                  | Some e => e
                                  | None => ""
                                  end) 200)
             ++ "</i>")%string]
      else []).

(** The final length check. *)
Definition fit (msg : string) : string :=
  if MAX_MESSAGE_LEN <? len msg
  then (rsplit_head "010" (slice_to msg MAX_MESSAGE_LEN) ++ truncated)%string
  else msg.

Definition format_results (data : ResearchData) : string :=
  fit (join_lines (parts data)).

End Format.

(** An entry whose message is too long: the query has 4000 characters. *)
Definition long_entry : ResearchData :=
  mkData (string_of_list_ascii (repeat "a"%char 4000)) "" [] [] 0 3 false
         None None.

(** The number of occurrences of a character, and the number of tags that
    the templates of [format_results] open for an entry. *)
Fixpoint count_char (c : ascii) (s : string) : nat :=
  match s with
  | EmptyString => O
  | String x r => ((if Ascii.eqb x c then 1 else 0) + count_char c r)%nat
  end.

Definition markup_tags (data : ResearchData) : nat :=
  (6
   + (if (1 <? rd_page data + 1)%Z then 2 else 0)
   + (if Py.truthy_list (rd_search_results data)
      then 2 + 2 * length (rd_search_results data)
      else 2)
   + (if Py.truthy_list (rd_sources data) then 2 else 0)
   + (if Py.truthy_str (rd_analysis data) then 2 else 0)
   + (if Py.truthy_str (rd_error data) then 2 else 0))%nat.

(** * Properties *)

(** ** Slices and the page window *)

Lemma len_nonneg {A} (l : list A) : 0 <= Py.len l.
Proof. unfold Py.len. lia. Qed.

Lemma truthy_list_len {A} (l : list A) :
  Py.truthy_list l = (0 <? Py.len l).
Proof. destruct l; reflexivity. Qed.

Lemma len_slice {A} (l : list A) (lo hi : Z) :
  0 <= lo -> 0 <= hi ->
  Py.len (Py.slice l lo hi)
  = Z.max 0 (Z.min hi (Py.len l) - Z.min lo (Py.len l)).
Proof.
  intros Hlo Hhi. unfold Py.slice, Py.slice_index, Py.len.
  destruct (Z.ltb_spec lo 0); [lia|].
  destruct (Z.ltb_spec hi 0); [lia|].
  rewrite length_take, length_drop. lia.
Qed.

(** C4: for [page >= 0] and [per_page > 0], the page slice has
    [min(per_page, max(0, len(all) - start))] records, hence at most
    [per_page], and [has_more] is [len(all) > start + per_page]. *)
Theorem paginate_window {A} (all_results : list A) (page per_page : Z) :
  0 <= page -> 0 < per_page ->
  let start := page * per_page in
  Py.len (page_results all_results start per_page)
  = Z.min per_page (Z.max 0 (Py.len all_results - start))
  /\ Py.len (page_results all_results start per_page) <= per_page
  /\ has_more all_results start per_page
     = (Py.len all_results >? start + per_page).
Proof.
  intros Hpage Hper start.
  assert (Hstart : 0 <= start) by (subst start; nia).
  pose proof (len_nonneg all_results) as Hlen.
  assert (Hsz : Py.len (page_results all_results start per_page)
                = Z.min per_page (Z.max 0 (Py.len all_results - start))).
  { unfold page_results. rewrite truthy_list_len.
    destruct (Z.ltb_spec 0 (Py.len all_results)) as [Hpos|Hzero].
    - rewrite len_slice by lia. lia.
    - change (Py.len (@nil A)) with 0. lia. }
  split; [exact Hsz|]. split; [lia|].
  unfold has_more. rewrite truthy_list_len.
  destruct (Z.ltb_spec 0 (Py.len all_results)) as [Hpos|Hzero]; [reflexivity|].
  simpl. symmetry. rewrite Z.gtb_ltb. apply Z.ltb_ge. lia.
Qed.

Lemma paginate_window_witness :
  Py.len (page_results [1; 2; 3; 4; 5; 6; 7; 8; 9] (2 * 3) 3) = 3
  /\ has_more [1; 2; 3; 4; 5; 6; 7; 8; 9] (2 * 3) 3 = false.
Proof.
  destruct (paginate_window [1; 2; 3; 4; 5; 6; 7; 8; 9] 2 3) as (H1 & _ & H3);
    [lia | lia |].
  split; [exact H1 | exact H3].
Defined.

(** ** RetryPolicy *)

(** C7: for [attempt >= 0] and a jitter in [-0.5, 0.5], the delay is
    [max(1, min(16, 2^attempt) + jitter)] and lies in [1, 16.5]; it is the
    duration [_retry_backoff] sleeps, once, after one draw of the jitter. *)
Theorem retry_backoff_bounds (w : World) (attempt : Z) (s : State) :
  0 <= attempt ->
  let jitter := w_uniform w (count_ev is_uniform (trace s)) in
  (- (1 # 2) <= jitter)%Q -> (jitter <= 1 # 2)%Q ->
  _retry_backoff w attempt s
  = (Return tt, log (time_sleep (sleep_time attempt jitter))
                    (log random_uniform s))
  /\ sleep_time attempt jitter
     = Qmax 1 (inject_Z (Z.min 16 (2 ^ attempt)) + jitter)
  /\ (1 <= sleep_time attempt jitter)%Q
  /\ (sleep_time attempt jitter <= 33 # 2)%Q.
Proof.
  intros Hatt jitter Hlo Hhi.
  split; [reflexivity|]. split; [reflexivity|].
  unfold sleep_time. split.
  - apply Q.le_max_l.
  - apply Q.max_lub; [discriminate|].
    assert (Hbase : (inject_Z (Z.min 16 (2 ^ attempt)) <= 16)%Q).
    { change 16%Q with (inject_Z 16). rewrite <- Zle_Qle. lia. }
    apply Qle_trans with (16 + (1 # 2))%Q.
    + apply Qplus_le_compat; assumption.
    + unfold Qle. simpl. lia.
Qed.

Lemma retry_backoff_bounds_witness :
  (1 <= sleep_time 3 (w_uniform world_flaky 0))%Q
  /\ (sleep_time 3 (w_uniform world_flaky 0) <= 33 # 2)%Q.
Proof.
  destruct (retry_backoff_bounds world_flaky 3 (unconfigured "auto"))
    as (_ & _ & H1 & H2).
  - lia.
  - vm_compute. discriminate.
  - vm_compute. discriminate.
  - split; [exact H1 | exact H2].
Defined.

(** ** Traces *)

Lemma count_ev_app p (t u : list Event) :
  count_ev p (t ++ u) = (count_ev p t + count_ev p u)%nat.
Proof.
  induction t as [|e t IH]; simpl; [reflexivity|].
  destruct (p e); rewrite IH; reflexivity.
Qed.

Lemma count_ev_none p (P : Event -> bool) (evs : list Event) :
  (forall e, P e = true -> p e = false) ->
  Forall (fun e => P e = true) evs ->
  count_ev p evs = O.
Proof.
  intros Hp Hall. induction Hall as [|e evs He _ IH]; simpl; [reflexivity|].
  rewrite (Hp e He). exact IH.
Qed.

Lemma count_ev_le_length p (evs : list Event) :
  (count_ev p evs <= length evs)%nat.
Proof.
  induction evs as [|e evs IH]; simpl; [lia|]. destruct (p e); lia.
Qed.

Lemma rate_limit_count_app w (a b : list Event) : forall k,
  rate_limit_count w k (a ++ b)
  = rate_limit_count w k a
    + rate_limit_count w (k + count_ev is_ddgs_text a) b.
Proof.
  induction a as [|e a IH]; intros k; simpl.
  - rewrite Nat.add_0_r. lia.
  - destruct e; simpl; rewrite IH; try reflexivity.
    rewrite Nat.add_succ_r. simpl. lia.
Qed.

Lemma rate_limit_count_retry w k (evs : list Event) :
  Forall (fun e => retry_event e = true) evs ->
  rate_limit_count w k evs = 0.
Proof.
  intros Hall. induction Hall as [|e evs He _ IH]; simpl; [reflexivity|].
  destruct e; try discriminate; exact IH.
Qed.

Ltac solve_config := unfold same_config; cbn; tauto.

Lemma same_config_refl s : same_config s s.
Proof. unfold same_config. tauto. Qed.

Lemma same_config_trans s1 s2 s3 :
  same_config s1 s2 -> same_config s2 s3 -> same_config s1 s3.
Proof. unfold same_config. intuition congruence. Qed.

Lemma rotated_succ n i :
  0 <= n -> rotated n ((i + 1) mod Py.len _backends_cycle) = rotated (1 + n) i.
Proof.
  intros Hn. unfold rotated.
  destruct (Z.eqb_spec (1 + n) 0) as [|_]; [lia|].
  destruct (Z.eqb_spec n 0) as [->|_].
  - reflexivity.
  - rewrite Zplus_mod_idemp_l. f_equal. lia.
Qed.

Lemma rate_limit_count_nonneg w (evs : list Event) : forall k,
  0 <= rate_limit_count w k evs.
Proof.
  induction evs as [|e evs IH]; intros k; simpl; [lia|].
  destruct e; try apply IH.
  specialize (IH (S k)).
  destruct (w_text w k query max_results backend) as [|x]; [lia|].
  destruct (rate_limited x); lia.
Qed.

(** ** The fallback client *)

Lemma subscript_backend (i : Z) (s : State) :
  subscript _backends_cycle (i mod Py.len _backends_cycle) s
  = (Return (backend_at i), s).
Proof.
  unfold subscript, backend_at.
  change (Py.len _backends_cycle) with 3.
  pose proof (Z.mod_pos_bound i 3 ltac:(lia)) as Hb.
  destruct (Z.ltb_spec (i mod 3) 0) as [|_]; [lia|].
  assert (Hc : i mod 3 = 0 \/ i mod 3 = 1 \/ i mod 3 = 2) by lia.
  destruct Hc as [-> | [-> | ->]]; reflexivity.
Qed.

(** One iteration of the loop of [_search_duckduckgo], by the answer of the
    backend. *)
Lemma text_attempt_run w q m a s :
  let idx := _backend_idx (engine s) in
  let ev := ddgs_text q m (backend_at idx) in
  text_attempt w q m a s
  = match w_text w (count_ev is_ddgs_text (trace s)) q m (backend_at idx) with
    | Return items => (Return (inl (map normalize_text items)), log ev s)
    | Raise e =>
        match text_handler w a e (log ev s) with
        | (Return _, s') => (Return (inr e), s')
        | (Raise e', s') => (Raise e', s')
        end
    end.
Proof.
  intros idx ev.
  unfold text_attempt, try_except, get. unfold bind at 1 2.
  rewrite subscript_backend. unfold bind at 1, DDGS_text.
  fold idx. fold ev.
  destruct (w_text w (count_ev is_ddgs_text (trace s)) q m (backend_at idx));
    reflexivity.
Qed.

(** One attempt of the text loop, whatever the constructor of the client
    does: the request succeeds; or it fails and the [except] clause runs to
    its end; or the constructor raises inside the [except] clause and its
    exception leaves the loop. *)
Lemma text_attempt_cases w q m a s :
  let idx := _backend_idx (engine s) in
  let ev := ddgs_text q m (backend_at idx) in
  match w_text w (count_ev is_ddgs_text (trace s)) q m (backend_at idx) with
  | Return items =>
      text_attempt w q m a s
      = (Return (inl (map normalize_text items)), log ev s)
  | Raise e =>
      exists out s' evs,
        text_attempt w q m a s = (out, s')
        /\ same_config s s'
        /\ _backend_idx (engine s')
           = (if rate_limited e
              then (idx + 1) mod Py.len _backends_cycle else idx)
        /\ trace s' = trace s ++ ev :: evs
        /\ ((out = Return (inr e)
             /\ ddgs (engine s')
                = (S (count_ev is_make_ddgs (trace s))
                   + (if rate_limited e && negb (a <? 4)%Z then 1 else 0))%nat
             /\ evs = text_handler_events w a e s)
            \/ ((exists e' k, out = Raise e' /\ w_make w k = Some e')
                /\ evs <> []
                /\ Forall (fun x => x = make_ddgs) evs))
  end.
Proof.
  intros idx ev.
  rewrite text_attempt_run. fold idx. fold ev.
  destruct (w_text w (count_ev is_ddgs_text (trace s)) q m (backend_at idx))
    as [items|e]; [reflexivity|].
  assert (Hu : count_ev is_uniform ((trace s ++ [ev]) ++ [make_ddgs])
               = count_ev is_uniform (trace s)).
  { rewrite !count_ev_app. simpl. lia. }
  assert (Hm : count_ev is_make_ddgs (trace s ++ [ev])
               = count_ev is_make_ddgs (trace s)).
  { rewrite count_ev_app. simpl. lia. }
  assert (Hm2 : count_ev is_make_ddgs ((trace s ++ [ev]) ++ [make_ddgs])
               = S (count_ev is_make_ddgs (trace s))).
  { rewrite !count_ev_app. simpl. lia. }
  unfold text_handler_events.
  unfold text_handler, bind, ret, rotate_backend, rebuild_client,
    _retry_backoff, uniform, sleep, emit, modify.
  destruct e as [msg|st|msg]; simpl rate_limited;
    [destruct (is_rate_limit msg) eqn:Hrl | |];
    destruct (a <? 4) eqn:Ha;
    cbn -[Z.modulo Py.len sleep_time]; rewrite ?Hm;
    destruct (w_make w (count_ev is_make_ddgs (trace s))) as [e1|] eqn:Hk1;
    cbn -[Z.modulo Py.len sleep_time]; rewrite ?Hm2;
    try (destruct (w_make w (S (count_ev is_make_ddgs (trace s))))
           as [e2|] eqn:Hk2;
         cbn -[Z.modulo Py.len sleep_time]);
    eexists; eexists; eexists;
    (split; [reflexivity|]); cbn -[Z.modulo Py.len sleep_time];
    rewrite ?Hu, <- ?app_assoc;
    (split; [unfold same_config; cbn; tauto|]);
    (split; [reflexivity|]);
    (split; [reflexivity|]);
    first [ left; split; [reflexivity|]; split; [|reflexivity]; cbn; lia
          | right; split; [eauto|]; split; [discriminate|];
            repeat constructor ].
Qed.


Lemma text_event_retry (evs : list Event) :
  Forall (fun e => retry_event e = true) evs ->
  Forall (fun e => text_event e = true) evs.
Proof.
  intros H. eapply Forall_impl; [exact H|].
  intros e He. unfold text_event. rewrite He. apply orb_true_r.
Qed.

Lemma text_handler_events_retry w a e s :
  Forall (fun e => retry_event e = true) (text_handler_events w a e s).
Proof.
  unfold text_handler_events.
  destruct (rate_limited e), (a <? 4); repeat constructor.
Qed.

(** The loop of [_search_duckduckgo] from any point on: it returns, it asks
    the backend at most once per remaining attempt and always for [m]
    records, it leaves the configuration alone, it rotates the backend once
    per rate-limit-flavoured failure, and what it returns is empty or the
    normalised answer of the backend; when every request fails it uses all
    the remaining attempts and returns the empty list. *)
Lemma make_events_retry (evs : list Event) :
  Forall (fun x => x = make_ddgs) evs ->
  Forall (fun e => retry_event e = true) evs.
Proof.
  intros H. eapply Forall_impl; [exact H|]. intros x ->. reflexivity.
Qed.

(** The loop of the fallback client, whatever the constructor of the
    client does: what holds of the state and of the trace when the loop
    is left, by [return] or by an exception of the constructor. *)
Lemma text_attempts_frame w q m attempts : forall last s,
  exists out s' evs,
    text_attempts w q m attempts last s = (out, s')
    /\ same_config s s'
    /\ trace s' = trace s ++ evs
    /\ Forall (fun e => text_event e = true) evs
    /\ (count_ev is_ddgs_text evs <= length attempts)%nat
    /\ Forall (fun e => forall q' m' b,
                   e = ddgs_text q' m' b -> q' = q /\ m' = m) evs
    /\ _backend_idx (engine s')
       = rotated (rate_limit_count w (count_ev is_ddgs_text (trace s)) evs)
                 (_backend_idx (engine s))
    /\ match out with
       | Return r =>
           (r = [] \/ exists k b items,
               w_text w k q m b = Return items /\ r = map normalize_text items)
           /\ ((forall k b, is_raise (w_text w k q m b) = true) ->
               r = [] /\ count_ev is_ddgs_text evs = length attempts)
       | Raise e' => exists k, w_make w k = Some e'
       end.
Proof.
  induction attempts as [|a rest IH]; intros last s.
  - exists (Return []), (log (logging_error last) s), [logging_error last].
    split; [reflexivity|]. split; [solve_config|].
    split; [reflexivity|]. split; [repeat constructor|].
    split; [simpl; lia|].
    split; [constructor; [discriminate|constructor]|].
    split; [reflexivity|]. split; [left; reflexivity|].
    intros _. split; reflexivity.
  - pose proof (text_attempt_cases w q m a s) as Hstep. cbv zeta in Hstep.
    set (k := count_ev is_ddgs_text (trace s)) in *.
    set (idx := _backend_idx (engine s)) in *.
    set (ev := ddgs_text q m (backend_at idx)) in *.
    simpl text_attempts. unfold bind at 1.
    destruct (w_text w k q m (backend_at idx)) as [items|e] eqn:Hw.
    + rewrite Hstep.
      exists (Return (map normalize_text items)), (log ev s), [ev].
      split; [reflexivity|]. split; [solve_config|].
      split; [reflexivity|]. split; [repeat constructor|].
      split; [simpl; lia|].
      split.
      { constructor; [|constructor]. subst ev. intros q' m' b Heq.
        injection Heq as <- <- _. split; reflexivity. }
      split.
      { subst ev. simpl. fold k. fold idx. rewrite Hw. reflexivity. }
      split.
      { right. exists k, (backend_at idx), items.
        split; [exact Hw|reflexivity]. }
      intros Hall. specialize (Hall k (backend_at idx)).
      rewrite Hw in Hall. discriminate.
    + destruct Hstep as (out1 & s1 & evs1 & Hrun & Hcfg1 & Hidx1 & Htr1 & Hcase).
      assert (Hretry : Forall (fun e => retry_event e = true) evs1).
      { destruct Hcase as [(_ & _ & ->)|(_ & _ & Hmk)].
        - apply text_handler_events_retry.
        - apply make_events_retry, Hmk. }
      assert (Hc1 : count_ev is_ddgs_text evs1 = O).
      { apply (count_ev_none _ retry_event); [|exact Hretry].
        intros x Hx. destruct x; try discriminate; reflexivity. }
      assert (Hk1 : count_ev is_ddgs_text (trace s1) = S k).
      { rewrite Htr1, count_ev_app. subst ev. simpl. rewrite Hc1. lia. }
      assert (Hrot : forall evs2,
                 rotated (rate_limit_count w (S k) evs2)
                         (_backend_idx (engine s1))
                 = rotated (rate_limit_count w k (ev :: evs1 ++ evs2)) idx).
      { intros evs2. rewrite Hidx1.
        change (rate_limit_count w k (ev :: evs1 ++ evs2))
          with ((match w_text w k q m (backend_at idx) with
                 | Raise e => if rate_limited e then 1 else 0
                 | Return _ => 0
                 end) + rate_limit_count w (S k) (evs1 ++ evs2)).
        rewrite Hw, rate_limit_count_app, Hc1, Nat.add_0_r.
        rewrite (rate_limit_count_retry w (S k) evs1 Hretry).
        pose proof (rate_limit_count_nonneg w evs2 (S k)) as Hnn.
        destruct (rate_limited e).
        - rewrite rotated_succ by lia. reflexivity.
        - reflexivity. }
      rewrite Hrun.
      destruct Hcase as [(-> & _ & _)|((e' & k' & -> & Hk') & _ & _)].
      * destruct (IH (Some e) s1)
          as (out & s' & evs2 & Hrun2 & Hcfg2 & Htr2 & Hev2 & Hcnt2 & Hreq2
              & Hidx2 & Hout2).
        exists out, s', (ev :: evs1 ++ evs2).
        split; [exact Hrun2|].
        split; [eapply same_config_trans; eassumption|].
        split; [rewrite Htr2, Htr1, <- app_assoc; reflexivity|].
        split.
        { constructor; [reflexivity|]. apply Forall_app. split; [|exact Hev2].
          apply text_event_retry, Hretry. }
        split.
        { simpl. rewrite count_ev_app, Hc1. simpl. lia. }
        split.
        { constructor.
          - subst ev. intros q' m' b Heq. injection Heq as <- <- _.
            split; reflexivity.
          - apply Forall_app. split; [|exact Hreq2].
            eapply Forall_impl; [exact Hretry|].
            intros x Hx q' m' b ->. discriminate. }
        split.
        { rewrite Hidx2, Hk1. apply Hrot. }
        destruct out as [r|e2]; [|exact Hout2].
        destruct Hout2 as [Hres2 Hfail2].
        split; [exact Hres2|].
        intros Hall. destruct (Hfail2 Hall) as [-> Hn].
        split; [reflexivity|].
        simpl. rewrite count_ev_app, Hc1, Hn. reflexivity.
      * exists (Raise e'), s1, (ev :: evs1 ++ []).
        split; [reflexivity|].
        split; [exact Hcfg1|].
        split; [rewrite Htr1, app_nil_r; reflexivity|].
        split.
        { constructor; [reflexivity|]. rewrite app_nil_r.
          apply text_event_retry, Hretry. }
        split.
        { simpl. rewrite count_ev_app, Hc1. simpl. lia. }
        split.
        { constructor.
          - subst ev. intros q' m' b Heq. injection Heq as <- <- _.
            split; reflexivity.
          - rewrite app_nil_r. eapply Forall_impl; [exact Hretry|].
            intros x Hx q' m' b ->. discriminate. }
        split.
        { rewrite <- (Hrot []). reflexivity. }
        exists k'. exact Hk'.
Qed.

Lemma text_attempts_spec w q m attempts :
  clients_build w ->
  forall last s,
  exists r s' evs,
    text_attempts w q m attempts last s = (Return r, s')
    /\ same_config s s'
    /\ trace s' = trace s ++ evs
    /\ Forall (fun e => text_event e = true) evs
    /\ (count_ev is_ddgs_text evs <= length attempts)%nat
    /\ Forall (fun e => forall q' m' b,
                   e = ddgs_text q' m' b -> q' = q /\ m' = m) evs
    /\ _backend_idx (engine s')
       = rotated (rate_limit_count w (count_ev is_ddgs_text (trace s)) evs)
                 (_backend_idx (engine s))
    /\ (r = [] \/ exists k b items,
           w_text w k q m b = Return items /\ r = map normalize_text items)
    /\ ((forall k b, is_raise (w_text w k q m b) = true) ->
        r = [] /\ count_ev is_ddgs_text evs = length attempts).
Proof.
  intros Hb last s.
  destruct (text_attempts_frame w q m attempts last s)
    as (out & s' & evs & Hrun & Hcfg & Htr & Hev & Hcnt & Hreq & Hidx & Hout).
  destruct out as [r|e'].
  - destruct Hout as [Hres Hfail].
    exists r, s', evs. repeat (split; [assumption|]). exact Hfail.
  - destruct Hout as [k Hk]. rewrite Hb in Hk. discriminate.
Qed.

(** [_search_duckduckgo]: the entry is recorded once, then the loop runs on
    the five attempts with the clamped [max_results]. *)
Lemma search_duckduckgo_frame w q m s :
  exists out s' evs,
    _search_duckduckgo w q m s = (out, s')
    /\ same_config s s'
    /\ trace s' = trace s ++ Call_search_duckduckgo q m :: evs
    /\ Forall (fun e => text_event e = true) evs
    /\ (count_ev is_ddgs_text evs <= 5)%nat
    /\ Forall (fun e => forall q' m' b,
                   e = ddgs_text q' m' b -> q' = q /\ m' = clamp m) evs
    /\ _backend_idx (engine s')
       = rotated (rate_limit_count w (count_ev is_ddgs_text (trace s)) evs)
                 (_backend_idx (engine s))
    /\ match out with
       | Return r =>
           (r = [] \/ exists k b items,
               w_text w k q (clamp m) b = Return items
               /\ r = map normalize_text items)
           /\ ((forall k q' m' b, is_raise (w_text w k q' m' b) = true) ->
               r = [] /\ count_ev is_ddgs_text evs = 5%nat)
       | Raise e' => exists k, w_make w k = Some e'
       end.
Proof.
  unfold _search_duckduckgo, bind at 1, emit, modify.
  set (s0 := log (Call_search_duckduckgo q m) s).
  destruct (text_attempts_frame w q (clamp m) (Py.range 5) None s0)
    as (out & s' & evs & Hrun & Hcfg & Htr & Hev & Hcnt & Hreq & Hidx & Hout).
  exists out, s', evs.
  assert (Hk : count_ev is_ddgs_text (trace s0)
               = count_ev is_ddgs_text (trace s)).
  { subst s0. simpl. rewrite count_ev_app. simpl. lia. }
  split; [exact Hrun|].
  split; [eapply same_config_trans; [|exact Hcfg]; subst s0; solve_config|].
  split; [rewrite Htr; subst s0; simpl; rewrite <- app_assoc; reflexivity|].
  split; [exact Hev|]. split; [exact Hcnt|]. split; [exact Hreq|].
  split; [rewrite Hidx, Hk; reflexivity|].
  destruct out as [r|e']; [|exact Hout].
  destruct Hout as [Hres Hfail].
  split; [exact Hres|].
  intros Hall. apply Hfail. intros k b. apply Hall.
Qed.


(** ** The primary client *)

Lemma length_range (n : Z) : length (Py.range n) = Z.to_nat n.
Proof. unfold Py.range. rewrite length_map, length_seq. reflexivity. Qed.

(** The request loop of [_search_google]: it touches nothing but the trace,
    where it leaves at most one request per index; a failing request ends
    it with an exception. *)
Lemma google_requests_spec w key cx q m indices : forall results s,
  exists r s' evs,
    google_requests w key cx q m indices results s = (r, s')
    /\ agent s' = agent s /\ heap s' = heap s
    /\ trace s' = trace s ++ evs
    /\ Forall (fun e => is_requests_get e = true) evs
    /\ (length evs <= length indices)%nat
    /\ (indices = [] -> r = Return results)
    /\ ((forall k a b c d e, get_fails (w_get w k a b c d e) = true) ->
        indices <> [] -> is_raise r = true).
Proof.
  induction indices as [|i rest IH]; intros results s.
  - exists (Return results), s, []. simpl.
    rewrite app_nil_r. repeat split; try reflexivity.
    + constructor.
    + intros _ Hne. contradiction.
  - simpl google_requests.
    set (ev := requests_get key cx q (i * 10 + 1)
                            (Z.min 10 (m - Py.len results))).
    unfold bind at 1, requests_get_. fold ev.
    destruct (w_get w (count_ev is_requests_get (trace s)) key cx q
                    (i * 10 + 1) (Z.min 10 (m - Py.len results)))
      as [resp|e] eqn:Hget.
    2:{ exists (Raise e), (log ev s), [ev].
        repeat split; try reflexivity; try discriminate.
        - repeat constructor.
        - simpl. lia. }
    unfold bind at 1, raise_for_status.
    destruct ((400 <=? status_code resp) && (status_code resp <? 600))
      eqn:Hst.
    { exists (Raise (HTTPError (status_code resp))), (log ev s), [ev].
      repeat split; try reflexivity; try discriminate.
      - repeat constructor.
      - simpl. lia. }
    unfold ret at 1. unfold bind at 1, json_get_items.
    destruct (json_items resp) as [items|] eqn:Hjs.
    2:{ exists (Raise (OtherException "JSONDecodeError")), (log ev s), [ev].
        repeat split; try reflexivity; try discriminate.
        - repeat constructor.
        - simpl. lia. }
    assert (Hok : forall P : Prop,
               (forall k a b c d e, get_fails (w_get w k a b c d e) = true) ->
               P).
    { intros P Hall.
      specialize (Hall (count_ev is_requests_get (trace s)) key cx q
                       (i * 10 + 1) (Z.min 10 (m - Py.len results))).
      rewrite Hget in Hall. simpl in Hall. rewrite Hst, Hjs in Hall.
      discriminate. }
    unfold ret at 1.
    destruct (negb (Py.truthy_list items)).
    { exists (Return results), (log ev s), [ev].
      repeat split; try reflexivity; try discriminate.
      - repeat constructor.
      - simpl. lia.
      - intros Hall _. apply Hok, Hall. }
    destruct (Py.len (results ++ map normalize_google items) >=? m).
    { exists (Return (results ++ map normalize_google items)), (log ev s), [ev].
      repeat split; try reflexivity; try discriminate.
      - repeat constructor.
      - simpl. lia.
      - intros Hall _. apply Hok, Hall. }
    destruct (IH (results ++ map normalize_google items) (log ev s))
      as (r & s' & evs & Hrun & Hag & Hhp & Htr & Hev & Hlen & _ & _).
    exists r, s', (ev :: evs).
    split; [exact Hrun|]. split; [exact Hag|]. split; [exact Hhp|].
    split; [rewrite Htr; simpl; rewrite <- app_assoc; reflexivity|].
    split; [constructor; [reflexivity|exact Hev]|].
    split; [simpl; lia|].
    split; [discriminate|].
    intros Hall _. apply Hok, Hall.
Qed.

Lemma len_slice_prefix {A} (l : list A) (m : Z) :
  0 <= m -> Py.len (Py.slice l 0 m) <= m.
Proof.
  intros Hm. rewrite len_slice by lia. pose proof (len_nonneg l). lia.
Qed.

Lemma slice_nil {A} (lo hi : Z) : Py.slice (@nil A) lo hi = [].
Proof. unfold Py.slice. rewrite drop_nil, take_nil. reflexivity. Qed.

Lemma range_nonpos (n : Z) : n <= 0 -> Py.range n = [].
Proof.
  intros Hn. unfold Py.range. replace (Z.to_nat n) with O by lia. reflexivity.
Qed.

(** [_search_google]: it always returns, it changes nothing but the trace,
    where its entry is followed by at most three requests; it returns at
    most [max_results] records, and the empty list when the request
    fails. *)
Lemma search_google_spec w q m s :
  exists g s' evs,
    _search_google w q m s = (Return g, s')
    /\ agent s' = agent s /\ heap s' = heap s
    /\ trace s' = trace s ++ Call_search_google q m :: evs
    /\ Forall (fun e => is_requests_get e = true) evs
    /\ (length evs <= 3)%nat
    /\ Py.len g <= Z.max 0 m
    /\ ((forall k a b c d e, get_fails (w_get w k a b c d e) = true) ->
        g = []).
Proof.
  unfold _search_google, bind at 1, emit, modify. unfold bind at 1, get.
  set (s0 := log (Call_search_google q m) s).
  assert (Hnil : exists g s' evs,
             (Return (@nil SearchRecord), s0) = (Return g, s')
             /\ agent s' = agent s /\ heap s' = heap s
             /\ trace s' = trace s ++ Call_search_google q m :: evs
             /\ Forall (fun e => is_requests_get e = true) evs
             /\ (length evs <= 3)%nat
             /\ Py.len g <= Z.max 0 m
             /\ ((forall k a b c d e,
                     get_fails (w_get w k a b c d e) = true) -> g = [])).
  { exists [], s0, []. repeat split; try reflexivity.
    - constructor.
    - simpl. lia.
    - change (Py.len (@nil SearchRecord)) with 0. lia. }
  destruct (google_api_key (engine s0)) as [key|]; [|exact Hnil].
  destruct (google_cse_id (engine s0)) as [cx|]; [|exact Hnil].
  destruct (String.eqb key "" || String.eqb cx ""); [exact Hnil|].
  destruct (Py.contains "your_custom_search_engine_id" (Py.lower cx));
    [exact Hnil|].
  clear Hnil. unfold try_except, bind at 1.
  set (n := Z.min ((m + 9) / 10) 3).
  destruct (google_requests_spec w key cx q m (Py.range n) [] s0)
    as (r & s' & evs & Hrun & Hag & Hhp & Htr & Hev & Hlen & Hempty & Hfail).
  rewrite Hrun.
  assert (Hlen3 : (length evs <= 3)%nat).
  { rewrite length_range in Hlen. subst n. lia. }
  assert (Htr' : trace s' = trace s ++ Call_search_google q m :: evs).
  { rewrite Htr. subst s0. simpl. rewrite <- app_assoc. reflexivity. }
  destruct r as [results|e].
  - exists (Py.slice results 0 m), s', evs.
    split; [reflexivity|]. split; [exact Hag|]. split; [exact Hhp|].
    split; [exact Htr'|]. split; [exact Hev|]. split; [exact Hlen3|].
    split.
    { destruct (Z.leb_spec m 0) as [Hneg|Hpos].
      - assert (Hn : n <= 0).
        { subst n. assert ((m + 9) / 10 < 1); [|lia].
          apply Z.div_lt_upper_bound; lia. }
        rewrite (range_nonpos n Hn) in Hempty.
        specialize (Hempty eq_refl). injection Hempty as ->.
        rewrite slice_nil. change (Py.len (@nil SearchRecord)) with 0. lia.
      - pose proof (len_slice_prefix results m ltac:(lia)). lia. }
    intros Hall.
    destruct (Py.range n) as [|i rest] eqn:Hrange.
    + specialize (Hempty eq_refl). injection Hempty as ->.
      apply slice_nil.
    + specialize (Hfail Hall ltac:(discriminate)). discriminate.
  - exists [], s', evs.
    assert (Hret : (match e with HTTPError _ => ret [] | _ => ret [] end) s'
                   = (Return (@nil SearchRecord), s')).
    { destruct e; reflexivity. }
    split; [exact Hret|]. split; [exact Hag|]. split; [exact Hhp|].
    split; [exact Htr'|]. split; [exact Hev|]. split; [exact Hlen3|].
    split; [change (Py.len (@nil SearchRecord)) with 0; lia|].
    reflexivity.
Qed.

(** ** Call counts of the two clients *)

Lemma duckduckgo_counts w q m s :
  let s' := snd (_search_duckduckgo w q m s) in
  count_ev is_call_duckduckgo (trace s')
  = S (count_ev is_call_duckduckgo (trace s))
  /\ count_ev is_call_google (trace s') = count_ev is_call_google (trace s)
  /\ count_ev is_requests_get (trace s')
     = count_ev is_requests_get (trace s).
Proof.
  destruct (search_duckduckgo_frame w q m s)
    as (out & s' & evs & Hrun & _ & Htr & Hev & _).
  rewrite Hrun. simpl. rewrite Htr, !count_ev_app. simpl.
  rewrite (count_ev_none is_call_duckduckgo text_event evs),
          (count_ev_none is_call_google text_event evs),
          (count_ev_none is_requests_get text_event evs);
    try exact Hev;
    try (intros e He; destruct e; try discriminate; reflexivity).
  lia.
Qed.

Lemma google_counts w q m s :
  let s' := snd (_search_google w q m s) in
  count_ev is_call_google (trace s') = S (count_ev is_call_google (trace s))
  /\ count_ev is_call_duckduckgo (trace s')
     = count_ev is_call_duckduckgo (trace s)
  /\ count_ev is_ddgs_text (trace s') = count_ev is_ddgs_text (trace s).
Proof.
  destruct (search_google_spec w q m s)
    as (g & s' & evs & Hrun & _ & _ & Htr & Hev & _).
  rewrite Hrun. simpl. rewrite Htr, !count_ev_app. simpl.
  rewrite (count_ev_none is_call_duckduckgo is_requests_get evs),
          (count_ev_none is_call_google is_requests_get evs),
          (count_ev_none is_ddgs_text is_requests_get evs);
    try exact Hev;
    try (intros e He; destruct e; try discriminate; reflexivity).
  lia.
Qed.

(** ** The orchestrator *)

Lemma search_forced_duckduckgo w q m s :
  preferred_engine (engine s) = "duckduckgo" ->
  search w q m s = _search_duckduckgo w q m s.
Proof.
  intros Hmode. unfold search, bind at 1, get. rewrite Hmode. reflexivity.
Qed.

Lemma search_auto_unfold w q m s :
  preferred_engine (engine s) = "auto" ->
  search w q m s
  = if Py.truthy_str (google_api_key (engine s))
       && Py.truthy_str (google_cse_id (engine s))
    then match _search_google w q m s with
         | (Return g, s1) =>
             if Py.truthy_list g then (Return g, s1)
             else _search_duckduckgo w q m s1
         | (Raise e, s1) => (Raise e, s1)
         end
    else _search_duckduckgo w q m s.
Proof.
  intros Hmode. unfold search, bind at 1, get. rewrite Hmode. simpl.
  destruct (Py.truthy_str (google_api_key (engine s))
            && Py.truthy_str (google_cse_id (engine s))); [|reflexivity].
  unfold bind. destruct (_search_google w q m s) as [[g|e] s1]; [|reflexivity].
  destruct (Py.truthy_list g); reflexivity.
Qed.

(** C1: in mode [auto] with both credentials configured, the primary client
    is called first, on the state the call started from; a non-empty answer
    is returned as it is and the fallback client is not called; an empty
    answer makes the fallback client run exactly once, after the primary,
    and its answer is returned.  Without the credentials the fallback client
    runs directly (once) and the primary client is neither called nor
    sent a request. *)
Theorem search_auto_order (w : World) (q : string) (m : Z) (s : State) :
  preferred_engine (engine s) = "auto" ->
  let configured :=
    Py.truthy_str (google_api_key (engine s))
    && Py.truthy_str (google_cse_id (engine s)) in
  let final := snd (search w q m s) in
  (configured = true ->
   exists g s1,
     _search_google w q m s = (Return g, s1)
     /\ count_ev is_call_google (trace final)
        = S (count_ev is_call_google (trace s))
     /\ (g <> [] ->
         search w q m s = (Return g, s1)
         /\ count_ev is_call_duckduckgo (trace final)
            = count_ev is_call_duckduckgo (trace s)
         /\ count_ev is_ddgs_text (trace final)
            = count_ev is_ddgs_text (trace s))
     /\ (g = [] ->
         search w q m s = _search_duckduckgo w q m s1
         /\ count_ev is_call_duckduckgo (trace final)
            = S (count_ev is_call_duckduckgo (trace s))))
  /\ (configured = false ->
      search w q m s = _search_duckduckgo w q m s
      /\ count_ev is_call_duckduckgo (trace final)
         = S (count_ev is_call_duckduckgo (trace s))
      /\ count_ev is_call_google (trace final)
         = count_ev is_call_google (trace s)
      /\ count_ev is_requests_get (trace final)
         = count_ev is_requests_get (trace s)).
Proof.
  intros Hmode configured final. subst final.
  rewrite (search_auto_unfold w q m s Hmode). fold configured.
  split; intros Hc; rewrite Hc.
  - destruct (search_google_spec w q m s) as (g & s1 & evs & Hrun & _).
    pose proof (google_counts w q m s) as (Hg1 & Hg2 & Hg3).
    rewrite Hrun in Hg1, Hg2, Hg3. simpl in Hg1, Hg2, Hg3.
    pose proof (duckduckgo_counts w q m s1) as (Hd1 & Hd2 & _).
    cbv zeta in Hd1, Hd2.
    exists g, s1. rewrite Hrun. split; [reflexivity|].
    destruct g as [|x g]; simpl.
    + split; [rewrite Hd2; exact Hg1|].
      split; [intros Hne; contradiction|].
      intros _. split; [reflexivity|]. rewrite Hd1, Hg2. reflexivity.
    + split; [exact Hg1|].
      split; [|discriminate].
      intros _. split; [reflexivity|]. split; assumption.
  - pose proof (duckduckgo_counts w q m s) as (Hd1 & Hd2 & Hd3).
    split; [reflexivity|]. split; [exact Hd1|]. split; assumption.
Qed.

Lemma search_auto_order_witness :
  (exists g s1,
      _search_google world_flaky "ai" 5 (configured "auto") = (Return g, s1)
      /\ g <> []
      /\ search world_flaky "ai" 5 (configured "auto") = (Return g, s1))
  /\ search world_flaky "ai" 5 (unconfigured "auto")
     = _search_duckduckgo world_flaky "ai" 5 (unconfigured "auto").
Proof.
  split.
  - destruct (search_auto_order world_flaky "ai" 5 (configured "auto")
                                eq_refl) as [Hconf _].
    destruct (Hconf eq_refl) as (g & s1 & Hrun & _ & Hne & _).
    exists g, s1. split; [exact Hrun|].
    assert (Hg : g <> []).
    { intros ->. vm_compute in Hrun. discriminate. }
    split; [exact Hg|]. apply Hne, Hg.
  - destruct (search_auto_order world_flaky "ai" 5 (unconfigured "auto")
                                eq_refl) as [_ Hunconf].
    apply (Hunconf eq_refl).
Defined.

(** C2: in mode [duckduckgo] the result is the fallback client's alone,
    whatever the credentials: the primary client is not called and no
    request goes to the primary provider. *)
Theorem search_forced_fallback (w : World) (q : string) (m : Z) (s : State) :
  preferred_engine (engine s) = "duckduckgo" ->
  search w q m s = _search_duckduckgo w q m s
  /\ count_ev is_call_google (trace (snd (search w q m s)))
     = count_ev is_call_google (trace s)
  /\ count_ev is_requests_get (trace (snd (search w q m s)))
     = count_ev is_requests_get (trace s)
  /\ count_ev is_call_duckduckgo (trace (snd (search w q m s)))
     = S (count_ev is_call_duckduckgo (trace s)).
Proof.
  intros Hmode. rewrite (search_forced_duckduckgo w q m s Hmode).
  pose proof (duckduckgo_counts w q m s) as (Hd1 & Hd2 & Hd3).
  split; [reflexivity|]. split; [exact Hd2|]. split; assumption.
Qed.

Lemma search_forced_fallback_witness :
  search world_flaky "ai" 5 (configured "DuckDuckGo")
  = _search_duckduckgo world_flaky "ai" 5 (configured "DuckDuckGo")
  /\ count_ev is_call_google
       (trace (snd (search world_flaky "ai" 5 (configured "DuckDuckGo"))))
     = count_ev is_call_google (trace (configured "DuckDuckGo")).
Proof.
  destruct (search_forced_fallback world_flaky "ai" 5
                                   (configured "DuckDuckGo") eq_refl)
    as (H1 & H2 & _).
  split; [exact H1 | exact H2].
Defined.

(** ** Every mode of [search] *)

Lemma rate_limit_count_no_text w (evs : list Event) : forall k,
  Forall (fun e => is_ddgs_text e = false) evs ->
  rate_limit_count w k evs = 0.
Proof.
  intros k Hall. induction Hall as [|e evs He _ IH]; simpl; [reflexivity|].
  destruct e; try discriminate; exact IH.
Qed.

Lemma search_event_text (evs : list Event) :
  Forall (fun e => text_event e = true) evs ->
  Forall (fun e => search_event e = true) evs.
Proof.
  intros H. eapply Forall_impl; [exact H|].
  intros e He. unfold search_event. rewrite He. apply orb_true_r.
Qed.

Lemma search_event_get (evs : list Event) :
  Forall (fun e => is_requests_get e = true) evs ->
  Forall (fun e => search_event e = true) evs.
Proof.
  intros H. eapply Forall_impl; [exact H|].
  intros e He. unfold search_event. rewrite He.
  rewrite orb_true_r. reflexivity.
Qed.

Lemma duckduckgo_outcome w q m s :
  search_outcome w q m s (_search_duckduckgo w q m s).
Proof.
  destruct (search_duckduckgo_frame w q m s)
    as (out & s' & evs & Hrun & Hcfg & Htr & Hev & Hcnt & _ & Hidx & Hout).
  exists out, s', (Call_search_duckduckgo q m :: evs).
  split; [exact Hrun|]. split; [exact Hcfg|]. split; [exact Htr|].
  split; [constructor; [reflexivity|apply search_event_text, Hev]|].
  split; [exact Hcnt|]. split; [exact Hidx|].
  destruct out as [r|e]; [|exact Hout].
  destruct Hout as [Hres Hfail].
  split; [right; exact Hres|].
  intros Hall _. apply Hfail, Hall.
Qed.

Lemma google_then_duckduckgo_outcome w q m s :
  search_outcome w q m s
    ((let* google_results := _search_google w q m in
      if Py.truthy_list google_results then ret google_results
      else _search_duckduckgo w q m) s).
Proof.
  unfold bind.
  destruct (search_google_spec w q m s)
    as (g & s1 & evs1 & Hrun1 & Hag & Hhp & Htr1 & Hev1 & _ & Hlen & Hfail1).
  rewrite Hrun1.
  assert (Hcfg1 : same_config s s1).
  { unfold same_config, engine. rewrite Hag, Hhp. tauto. }
  assert (Hnt : Forall (fun e => is_ddgs_text e = false)
                       (Call_search_google q m :: evs1)).
  { constructor; [reflexivity|]. eapply Forall_impl; [exact Hev1|].
    intros e He. destruct e; try discriminate; reflexivity. }
  assert (Hc1 : count_ev is_ddgs_text (Call_search_google q m :: evs1) = O).
  { apply (count_ev_none _ (fun e => negb (is_ddgs_text e))).
    - intros e He. destruct (is_ddgs_text e); [discriminate|reflexivity].
    - eapply Forall_impl; [exact Hnt|]. intros e ->. reflexivity. }
  destruct g as [|x g]; simpl Py.truthy_list; cbv iota.
  - destruct (duckduckgo_outcome w q m s1)
      as (out & s' & evs2 & Hrun2 & Hcfg2 & Htr2 & Hev2 & Hcnt2 & Hidx2
          & Hout2).
    exists out, s', ((Call_search_google q m :: evs1) ++ evs2).
    split; [exact Hrun2|].
    split; [eapply same_config_trans; eassumption|].
    split; [rewrite Htr2, Htr1, <- app_assoc; reflexivity|].
    split.
    { apply Forall_app. split; [|exact Hev2].
      constructor; [reflexivity|apply search_event_get, Hev1]. }
    split; [rewrite count_ev_app, Hc1; exact Hcnt2|].
    split.
    { rewrite Hidx2, rate_limit_count_app, Hc1, Nat.add_0_r.
      rewrite (rate_limit_count_no_text w _ _ Hnt), Htr1, count_ev_app, Hc1.
      rewrite Nat.add_0_r. unfold engine. rewrite Hag. reflexivity. }
    exact Hout2.
  - exists (Return (x :: g)), s1, (Call_search_google q m :: evs1).
    split; [reflexivity|]. split; [exact Hcfg1|]. split; [exact Htr1|].
    split; [constructor; [reflexivity|apply search_event_get, Hev1]|].
    split; [rewrite Hc1; lia|].
    split.
    { rewrite (rate_limit_count_no_text w _ _ Hnt). unfold engine.
      rewrite Hag. reflexivity. }
    split.
    { left. split; [discriminate|].
      assert (0 < Py.len (x :: g)) by (unfold Py.len; simpl; lia). lia. }
    intros _ Hall. specialize (Hfail1 Hall). discriminate.
Qed.

(** [search], in every mode and on every world. *)
Lemma search_frame w q m s : search_outcome w q m s (search w q m s).
Proof.
  unfold search, bind at 1, get.
  destruct (String.eqb (preferred_engine (engine s)) "duckduckgo");
    [apply duckduckgo_outcome|].
  destruct (String.eqb (preferred_engine (engine s)) "google");
    destruct (Py.truthy_str (google_api_key (engine s))
              && Py.truthy_str (google_cse_id (engine s)));
    first [apply google_then_duckduckgo_outcome | apply duckduckgo_outcome].
Qed.

(** Where every client is built, a search returns. *)
Lemma search_spec w q m s :
  clients_build w -> search_post w q m s (search w q m s).
Proof.
  intros Hb.
  destruct (search_frame w q m s)
    as (out & s' & evs & Hrun & Hcfg & Htr & Hev & Hcnt & Hidx & Hout).
  destruct out as [r|e].
  - destruct Hout as [Hres Hfail].
    exists r, s', evs. repeat (split; [assumption|]). exact Hfail.
  - destruct Hout as [k Hk]. rewrite Hb in Hk. discriminate.
Qed.


(** ** The news client *)

Lemma news_handler_events_retry w a e s :
  Forall (fun e => retry_event e = true) (news_handler_events w a e s).
Proof.
  unfold news_handler_events.
  destruct (a <? 4), (rate_limited e); repeat constructor.
Qed.

(** One iteration of the loop of [news_search], by the answer of the
    backend and by what the constructor of the client does. *)
Lemma news_attempt_cases w q m a s :
  let ev := ddgs_news q m in
  match w_news w (count_ev is_ddgs_news (trace s)) q m with
  | Return items =>
      news_attempt w q m a s
      = (Return (inl (map normalize_news items)), log ev s)
  | Raise e =>
      exists out s' evs,
        news_attempt w q m a s = (out, s')
        /\ same_config s s'
        /\ _backend_idx (engine s') = _backend_idx (engine s)
        /\ trace s' = trace s ++ ev :: evs
        /\ ((out = Return (inr e) /\ evs = news_handler_events w a e s)
            \/ ((exists e' k, out = Raise e' /\ w_make w k = Some e')
                /\ evs <> []
                /\ Forall (fun x => x = make_ddgs) evs))
  end.
Proof.
  intros ev.
  assert (Hrun : news_attempt w q m a s
    = match w_news w (count_ev is_ddgs_news (trace s)) q m with
      | Return items => (Return (inl (map normalize_news items)), log ev s)
      | Raise e =>
          match news_handler w a e (log ev s) with
          | (Return _, s') => (Return (inr e), s')
          | (Raise e', s') => (Raise e', s')
          end
      end).
  { unfold news_attempt, try_except. unfold bind at 1, DDGS_news. fold ev.
    destruct (w_news w (count_ev is_ddgs_news (trace s)) q m); reflexivity. }
  rewrite Hrun. clear Hrun.
  destruct (w_news w (count_ev is_ddgs_news (trace s)) q m) as [items|e];
    [reflexivity|].
  assert (Hu : count_ev is_uniform ((trace s ++ [ev]) ++ [make_ddgs])
               = count_ev is_uniform (trace s)).
  { rewrite !count_ev_app. simpl. lia. }
  assert (Hm : count_ev is_make_ddgs (trace s ++ [ev])
               = count_ev is_make_ddgs (trace s)).
  { rewrite count_ev_app. simpl. lia. }
  assert (Hm2 : count_ev is_make_ddgs ((trace s ++ [ev]) ++ [make_ddgs])
               = S (count_ev is_make_ddgs (trace s))).
  { rewrite !count_ev_app. simpl. lia. }
  unfold news_handler_events, news_handler, bind, ret, rebuild_client,
    _retry_backoff, uniform, sleep, emit, modify.
  destruct e as [msg|st|msg]; simpl rate_limited;
    [destruct (is_rate_limit msg) eqn:Hrl | |];
    destruct (a <? 4) eqn:Ha;
    cbn -[sleep_time]; rewrite ?Hm;
    destruct (w_make w (count_ev is_make_ddgs (trace s))) as [e1|] eqn:Hk1;
    cbn -[sleep_time]; rewrite ?Hm2;
    try (destruct (w_make w (S (count_ev is_make_ddgs (trace s))))
           as [e2|] eqn:Hk2;
         cbn -[sleep_time]);
    eexists; eexists; eexists;
    (split; [reflexivity|]); cbn -[sleep_time];
    rewrite ?Hu, <- ?app_assoc;
    (split; [solve_config|]);
    (split; [reflexivity|]);
    (split; [reflexivity|]);
    first [ left; split; reflexivity
          | right; split; [eauto|]; split; [discriminate|];
            repeat constructor ].
Qed.

Lemma news_attempt_spec w q m a s :
  clients_build w ->
  let ev := ddgs_news q m in
  match w_news w (count_ev is_ddgs_news (trace s)) q m with
  | Return items =>
      news_attempt w q m a s
      = (Return (inl (map normalize_news items)), log ev s)
  | Raise e =>
      exists s',
        news_attempt w q m a s = (Return (inr e), s')
        /\ same_config s s'
        /\ _backend_idx (engine s') = _backend_idx (engine s)
        /\ trace s' = trace s ++ ev :: news_handler_events w a e s
  end.
Proof.
  intros Hb ev.
  pose proof (news_attempt_cases w q m a s) as H. cbv zeta in H. fold ev in H.
  destruct (w_news w (count_ev is_ddgs_news (trace s)) q m) as [items|e];
    [exact H|].
  destruct H as (out & s' & evs & Hrun & Hcfg & Hidx & Htr & Hcase).
  destruct Hcase as [(-> & ->)|((e' & k & _ & Hk) & _)].
  - exists s'. split; [exact Hrun|]. split; [exact Hcfg|].
    split; [exact Hidx|exact Htr].
  - rewrite Hb in Hk. discriminate.
Qed.

(** The loop of [news_search] from any point on, on every world.  Up to
    the state [s1] the loop leaves the configuration and the backend index
    alone and sends one news request per attempt.  It is left in one of
    three ways: an attempt succeeds and its normalised answer is
    returned; or the attempts run out and the outcome is that of the
    generic search for the query with [" news"] appended, an exception of
    which becomes the empty list; or the constructor of the client raises
    in an [except] clause and its exception leaves [news_search]. *)
Lemma news_attempts_frame w q m attempts : forall last s,
  exists s1 evs,
    same_config s s1
    /\ _backend_idx (engine s1) = _backend_idx (engine s)
    /\ trace s1 = trace s ++ evs
    /\ Forall (fun e => news_event e = true) evs
    /\ (count_ev is_ddgs_news evs <= length attempts)%nat
    /\ Forall (fun e => forall q' m',
                   e = ddgs_news q' m' -> q' = q /\ m' = m) evs
    /\ ((exists k items,
            w_news w k q m = Return items
            /\ news_attempts w q m attempts last s
               = (Return (map normalize_news items), s1))
        \/ (news_attempts w q m attempts last s
            = or_empty (search w (q ++ " news")%string m s1)
            /\ count_ev is_ddgs_news evs = length attempts)
        \/ (exists e' k,
               news_attempts w q m attempts last s = (Raise e', s1)
               /\ w_make w k = Some e'))
    /\ ((forall k q' m', is_raise (w_news w k q' m') = true) ->
        (news_attempts w q m attempts last s
         = or_empty (search w (q ++ " news")%string m s1)
         /\ count_ev is_ddgs_news evs = length attempts)
        \/ (exists e' k,
               news_attempts w q m attempts last s = (Raise e', s1)
               /\ w_make w k = Some e')).
Proof.
  induction attempts as [|a rest IH]; intros last s.
  - exists (log (logging_error last) s), [logging_error last].
    assert (Hrun : news_attempts w q m [] last s
                   = or_empty (search w (q ++ " news")%string m
                                      (log (logging_error last) s))).
    { simpl. unfold bind at 1, emit, modify, try_except, bind, ret, or_empty.
      destruct (search w (q ++ " news")%string m
                       (log (logging_error last) s)) as [[r|e] s'];
        reflexivity. }
    split; [solve_config|]. split; [reflexivity|]. split; [reflexivity|].
    split; [repeat constructor|]. split; [simpl; lia|].
    split; [constructor; [discriminate|constructor]|].
    split; [right; left; split; [exact Hrun|reflexivity]|].
    intros _. left. split; [exact Hrun|reflexivity].
  - pose proof (news_attempt_cases w q m a s) as Hstep. cbv zeta in Hstep.
    set (k := count_ev is_ddgs_news (trace s)) in *.
    set (ev := ddgs_news q m) in *.
    assert (Hcons : news_attempts w q m (a :: rest) last s
              = match news_attempt w q m a s with
                | (Return (inl results), s') => (Return results, s')
                | (Return (inr e), s') => news_attempts w q m rest (Some e) s'
                | (Raise e, s') => (Raise e, s')
                end).
    { simpl. unfold bind.
      destruct (news_attempt w q m a s) as [[[?|?]|?] ?]; reflexivity. }
    rewrite Hcons. clear Hcons.
    destruct (w_news w k q m) as [items|e] eqn:Hw.
    + rewrite Hstep. exists (log ev s), [ev].
      split; [solve_config|]. split; [reflexivity|]. split; [reflexivity|].
      split; [repeat constructor|]. split; [simpl; lia|].
      split.
      { constructor; [|constructor]. subst ev. intros q' m' Heq.
        injection Heq as <- <-. split; reflexivity. }
      split.
      { left. exists k, items. split; [exact Hw|reflexivity]. }
      intros Hall. specialize (Hall k q m). rewrite Hw in Hall. discriminate.
    + destruct Hstep as (out0 & s0 & evs0 & Hrun & Hcfg0 & Hidx0 & Htr0
                         & Hcase).
      assert (Hretry : Forall (fun e => retry_event e = true) evs0).
      { destruct Hcase as [(_ & ->)|(_ & _ & Hmk)].
        - apply news_handler_events_retry.
        - apply make_events_retry, Hmk. }
      assert (Hc0 : count_ev is_ddgs_news evs0 = O).
      { apply (count_ev_none _ retry_event); [|exact Hretry].
        intros x Hx. destruct x; try discriminate; reflexivity. }
      assert (Hnews : Forall (fun e => news_event e = true) evs0).
      { eapply Forall_impl; [exact Hretry|].
        intros x Hx. unfold news_event. rewrite Hx. apply orb_true_r. }
      assert (Hpar : Forall (fun e => forall q' m',
                                 e = ddgs_news q' m' -> q' = q /\ m' = m)
                            evs0).
      { eapply Forall_impl; [exact Hretry|].
        intros x Hx q' m' ->. discriminate. }
      rewrite Hrun.
      destruct Hcase as [(-> & _)|((e' & k' & -> & Hk') & _ & _)].
      * destruct (IH (Some e) s0)
          as (s1 & evs & Hcfg & Hidx & Htr & Hev & Hcnt & Hreq & Hout & Hfail).
        exists s1, (ev :: evs0 ++ evs).
        split; [eapply same_config_trans; eassumption|].
        split; [rewrite Hidx; exact Hidx0|].
        split; [rewrite Htr, Htr0, <- app_assoc; reflexivity|].
        split.
        { constructor; [reflexivity|]. apply Forall_app.
          split; [exact Hnews|exact Hev]. }
        split; [simpl; rewrite count_ev_app, Hc0; simpl; lia|].
        split.
        { constructor.
          - subst ev. intros q' m' Heq. injection Heq as <- <-.
            split; reflexivity.
          - apply Forall_app. split; [exact Hpar|exact Hreq]. }
        split.
        { destruct Hout as [Hok | [[Hgen Hn] | Hraise]].
          - left; exact Hok.
          - right. left. split; [exact Hgen|].
            simpl. rewrite count_ev_app, Hc0, Hn. reflexivity.
          - right. right. exact Hraise. }
        intros Hall. destruct (Hfail Hall) as [[Hgen Hn] | Hraise].
        -- left. split; [exact Hgen|].
           simpl. rewrite count_ev_app, Hc0, Hn. reflexivity.
        -- right. exact Hraise.
      * exists s0, (ev :: evs0).
        split; [exact Hcfg0|]. split; [exact Hidx0|]. split; [exact Htr0|].
        split; [constructor; [reflexivity|exact Hnews]|].
        split; [simpl; rewrite Hc0; lia|].
        split.
        { constructor; [|exact Hpar].
          subst ev. intros q' m' Heq. injection Heq as <- <-.
          split; reflexivity. }
        split.
        { right. right. exists e', k'. split; [reflexivity|exact Hk']. }
        intros _. right. exists e', k'. split; [reflexivity|exact Hk'].
Qed.

(** Where every client is built, the exception cases fall away. *)
Lemma news_attempts_spec w q m attempts :
  clients_build w ->
  forall last s,
  exists s1 evs,
    same_config s s1
    /\ _backend_idx (engine s1) = _backend_idx (engine s)
    /\ trace s1 = trace s ++ evs
    /\ Forall (fun e => news_event e = true) evs
    /\ (count_ev is_ddgs_news evs <= length attempts)%nat
    /\ Forall (fun e => forall q' m',
                   e = ddgs_news q' m' -> q' = q /\ m' = m) evs
    /\ ((exists k items,
            w_news w k q m = Return items
            /\ news_attempts w q m attempts last s
               = (Return (map normalize_news items), s1))
        \/ (news_attempts w q m attempts last s
            = search w (q ++ " news")%string m s1
            /\ count_ev is_ddgs_news evs = length attempts))
    /\ ((forall k q' m', is_raise (w_news w k q' m') = true) ->
        news_attempts w q m attempts last s
        = search w (q ++ " news")%string m s1
        /\ count_ev is_ddgs_news evs = length attempts).
Proof.
  intros Hb last s.
  destruct (news_attempts_frame w q m attempts last s)
    as (s1 & evs & Hcfg & Hidx & Htr & Hev & Hcnt & Hreq & Hout & Hfail).
  assert (Hsearch : or_empty (search w (q ++ " news")%string m s1)
                    = search w (q ++ " news")%string m s1).
  { destruct (search_spec w (q ++ " news")%string m s1 Hb)
      as (r & s' & evs' & Hs & _).
    rewrite Hs. reflexivity. }
  rewrite Hsearch in *.
  exists s1, evs. repeat (split; [assumption|]). split.
  - destruct Hout as [Hok | [Hgen | (e' & k & _ & Hk)]].
    + left. exact Hok.
    + right. exact Hgen.
    + rewrite Hb in Hk. discriminate.
  - intros Hall. destruct (Hfail Hall) as [Hgen | (e' & k & _ & Hk)].
    + exact Hgen.
    + rewrite Hb in Hk. discriminate.
Qed.

Lemma news_search_unfold w q m s :
  news_search w q m s
  = news_attempts w q (clamp m) (Py.range 5) None
                  (log (Call_news_search q m) s).
Proof. reflexivity. Qed.



(** [news_search], where every client is built. *)
Lemma news_search_spec w q m s :
  clients_build w ->
  exists r s' evs,
    news_search w q m s = (Return r, s')
    /\ same_config s s'
    /\ trace s' = trace s ++ evs
    /\ Forall (fun e => engine_event e = true) evs
    /\ ((exists k items,
            w_news w k q (clamp m) = Return items
            /\ r = map normalize_news items)
        \/ (r <> [] /\ Py.len r <= clamp m)
        \/ r = []
        \/ (exists k b items,
               w_text w k (q ++ " news")%string (clamp (clamp m)) b
               = Return items
               /\ r = map normalize_text items))
    /\ ((forall k q' m', is_raise (w_news w k q' m') = true) ->
        (forall k q' m' b, is_raise (w_text w k q' m' b) = true) ->
        (forall k a b c d e, get_fails (w_get w k a b c d e) = true) ->
        r = []).
Proof.
  intros Hb. rewrite news_search_unfold.
  set (s0 := log (Call_news_search q m) s).
  destruct (news_attempts_spec w q (clamp m) (Py.range 5) Hb None s0)
    as (s1 & evs & Hcfg & _ & Htr & Hev & _ & _ & Hout & Hfail).
  assert (Hcfg0 : same_config s s0) by (subst s0; solve_config).
  assert (Hev0 : Forall (fun e => engine_event e = true)
                        (Call_news_search q m :: evs)).
  { constructor; [reflexivity|]. eapply Forall_impl; [exact Hev|].
    intros e He. unfold engine_event. rewrite He.
    rewrite orb_true_r. reflexivity. }
  assert (Htr0 : trace s1 = trace s ++ Call_news_search q m :: evs).
  { rewrite Htr. subst s0. simpl. rewrite <- app_assoc. reflexivity. }
  destruct Hout as [(k & items & Hw & Hrun) | [Hgen _]].
  - exists (map normalize_news items), s1, (Call_news_search q m :: evs).
    split; [exact Hrun|].
    split; [eapply same_config_trans; eassumption|].
    split; [exact Htr0|]. split; [exact Hev0|].
    split; [left; exists k, items; split; [exact Hw|reflexivity]|].
    intros Hall _ _. specialize (Hall k q (clamp m)).
    rewrite Hw in Hall. discriminate.
  - destruct (search_spec w (q ++ " news")%string (clamp m) s1 Hb)
      as (r & s' & evs2 & Hrun2 & Hcfg2 & Htr2 & Hev2 & _ & _ & Hres2
          & Hfail2).
    exists r, s', ((Call_news_search q m :: evs) ++ evs2).
    split; [rewrite Hgen; exact Hrun2|].
    split; [eapply same_config_trans; [|exact Hcfg2];
            eapply same_config_trans; eassumption|].
    split; [rewrite Htr2, Htr0, <- app_assoc; reflexivity|].
    split.
    { apply Forall_app. split; [exact Hev0|].
      eapply Forall_impl; [exact Hev2|].
      intros e He. unfold engine_event. rewrite He. reflexivity. }
    split; [right; exact Hres2|].
    intros _ Ht Hg. apply Hfail2; assumption.
Qed.

(** What [news_search] returns, when it returns, on every world. *)
Lemma news_search_result w q m s r s' :
  news_search w q m s = (Return r, s') ->
  (exists k items,
      w_news w k q (clamp m) = Return items
      /\ r = map normalize_news items)
  \/ (r <> [] /\ Py.len r <= clamp m)
  \/ r = []
  \/ (exists k b items,
         w_text w k (q ++ " news")%string (clamp (clamp m)) b = Return items
         /\ r = map normalize_text items).
Proof.
  rewrite news_search_unfold. intros Hrun.
  destruct (news_attempts_frame w q (clamp m) (Py.range 5) None
                                (log (Call_news_search q m) s))
    as (s1 & evs & _ & _ & _ & _ & _ & _ & Hout & _).
  destruct Hout as [(k & items & Hw & Hok) | [[Hgen _] | (e' & k & Hr & _)]].
  - rewrite Hok in Hrun. injection Hrun as <- _.
    left. exists k, items. split; [exact Hw|reflexivity].
  - rewrite Hgen in Hrun.
    destruct (search_frame w (q ++ " news")%string (clamp m) s1)
      as (out & s2 & evs2 & Hs & _ & _ & _ & _ & _ & Hout2).
    rewrite Hs in Hrun. destruct out as [r2|e2]; simpl in Hrun.
    + injection Hrun as <- _. right. exact (proj1 Hout2).
    + injection Hrun as <- _. right. right. left. reflexivity.
  - rewrite Hr in Hrun. discriminate.
Qed.


(** ** Failure signalling *)





(** ** The retry loop of the fallback client *)

Lemma text_attempts_cons w q m a rest last s :
  text_attempts w q m (a :: rest) last s
  = match text_attempt w q m a s with
    | (Return (inl results), s') => (Return results, s')
    | (Return (inr e), s') => text_attempts w q m rest (Some e) s'
    | (Raise e, s') => (Raise e, s')
    end.
Proof.
  simpl. unfold bind.
  destruct (text_attempt w q m a s) as [[[?|?]|?] ?]; reflexivity.
Qed.

Lemma text_attempts_success w q m a rest last s items :
  w_text w (count_ev is_ddgs_text (trace s)) q m
         (backend_at (_backend_idx (engine s))) = Return items ->
  text_attempts w q m (a :: rest) last s
  = (Return (map normalize_text items),
     log (ddgs_text q m (backend_at (_backend_idx (engine s)))) s).
Proof.
  intros Hw. rewrite text_attempts_cons.
  pose proof (text_attempt_cases w q m a s) as Hstep. cbv zeta in Hstep.
  rewrite Hw in Hstep. rewrite Hstep. reflexivity.
Qed.


Lemma search_duckduckgo_unfold w q m s :
  _search_duckduckgo w q m s
  = text_attempts w q (clamp m) [0; 1; 2; 3; 4] None
                  (log (Call_search_duckduckgo q m) s).
Proof. reflexivity. Qed.



(** ** How many records a fetch returns *)

Lemma clamp_bounds (m : Z) : 1 <= clamp m <= 20.
Proof. unfold clamp. lia. Qed.

Lemma clamp_id (m : Z) : 1 <= m <= 20 -> clamp m = m.
Proof. unfold clamp. lia. Qed.

Lemma len_map {A B} (f : A -> B) (l : list A) : Py.len (map f l) = Py.len l.
Proof. unfold Py.len. rewrite length_map. reflexivity. Qed.

(** C6: the code breaks the claim on the primary path.  With the
    credentials configured, a request for 25 results is answered by 25
    records, from three pages of the primary provider (a provider that
    never sends more than the [num] it is asked for); so it is not true that
    no successful fetch returns more than 20 records.  The fallback client
    and the news client clamp [max_results] into [1, 20]; the primary
    client does not. *)
Lemma primary_path_exceeds_twenty :
  (exists r s',
      search world_flaky "ai" 25 (configured "auto") = (Return r, s')
      /\ Py.len r = 25
      /\ count_ev is_requests_get (trace s') = 3%nat)
  /\ ~ (forall (w : World) (q : string) (m : Z) (s : State) r s',
          search w q m s = (Return r, s') -> Py.len r <= 20).
Proof.
  assert (H : exists r s',
             search world_flaky "ai" 25 (configured "auto") = (Return r, s')
             /\ Py.len r = 25
             /\ count_ev is_requests_get (trace s') = 3%nat).
  { destruct (search world_flaky "ai" 25 (configured "auto")) as [[r|e] s']
      eqn:Hrun.
    - exists r, s'. split; [reflexivity|]. split.
      + apply (f_equal (fun out => match fst out with
                                   | Return l => Py.len l
                                   | Raise _ => 0
                                   end)) in Hrun.
        simpl in Hrun. rewrite <- Hrun. vm_compute. reflexivity.
      + apply (f_equal (fun out => count_ev is_requests_get (trace (snd out))))
          in Hrun.
        simpl in Hrun. rewrite <- Hrun. vm_compute. reflexivity.
    - apply (f_equal (fun out => is_raise (fst out))) in Hrun.
      vm_compute in Hrun. discriminate. }
  split; [exact H|].
  intros Hclaim. destruct H as (r & s' & Hrun & Hlen & _).
  specialize (Hclaim _ _ _ _ _ _ Hrun). lia.
Qed.

Lemma world_flaky_honours : honours_max_results world_flaky.
Proof.
  split.
  - intros k q m b items Hw. simpl in Hw.
    destruct k; [discriminate|]. injection Hw as <-.
    unfold Py.len. rewrite length_take. lia.
  - intros k q m items Hw. discriminate.
Qed.

(** ** What a search call leaves behind *)

(** C9, as the spec states it, fails: after a call in which the fallback
    backend was rate limited once, the engine is not the one the call
    started from; its backend index went from slot 0 to slot 1, and the
    same call repeated starts from slot 1, on the next backend. *)
Lemma backend_index_outlives_call :
  let before := unconfigured "auto" in
  let after := snd (search world_flaky "ai" 5 before) in
  engine after <> engine before
  /\ _backend_idx (engine before) = 0
  /\ _backend_idx (engine after) = 1
  /\ backend_at (_backend_idx (engine before)) = "api"
  /\ backend_at (_backend_idx (engine after)) = "html".
Proof.
  cbv zeta. split; [|repeat split; vm_compute; reflexivity].
  intros Heq.
  apply (f_equal _backend_idx) in Heq. vm_compute in Heq. discriminate.
Qed.

(** The first request of the fallback client goes to the backend of the
    slot the engine is on when the call starts. *)
Lemma duckduckgo_first_request w q m s :
  exists rest,
    trace (snd (_search_duckduckgo w q m s))
    = trace s
      ++ Call_search_duckduckgo q m
         :: ddgs_text q (clamp m) (backend_at (_backend_idx (engine s)))
         :: rest.
Proof.
  rewrite search_duckduckgo_unfold.
  set (s0 := log (Call_search_duckduckgo q m) s).
  change (_backend_idx (engine s)) with (_backend_idx (engine s0)).
  destruct (w_text w (count_ev is_ddgs_text (trace s0)) q (clamp m)
                   (backend_at (_backend_idx (engine s0))))
    as [items|e] eqn:Hw.
  - rewrite (text_attempts_success w q (clamp m) 0 [1; 2; 3; 4] None s0 items
                                   Hw).
    exists []. subst s0. simpl. rewrite <- app_assoc. reflexivity.
  - pose proof (text_attempt_cases w q (clamp m) 0 s0) as Hstep.
    cbv zeta in Hstep. rewrite Hw in Hstep.
    destruct Hstep as (out1 & s1 & evs1 & Hrun & _ & _ & Htr1 & Hcase).
    change [0; 1; 2; 3; 4] with (0 :: [1; 2; 3; 4]).
    rewrite text_attempts_cons, Hrun.
    destruct Hcase as [(-> & _ & _)|((e' & k' & -> & _) & _ & _)].
    + destruct (text_attempts_frame w q (clamp m) [1; 2; 3; 4] (Some e) s1)
        as (out & s2 & evs & Hrun2 & _ & Htr2 & _).
      rewrite Hrun2. simpl.
      exists (evs1 ++ evs).
      rewrite Htr2, Htr1. subst s0. simpl.
      rewrite <- !app_assoc. reflexivity.
    + simpl. exists evs1. rewrite Htr1. subst s0. simpl.
      rewrite <- !app_assoc. reflexivity.
Qed.

(** C9, amended: the attempt counter and the last error live in the loop
    of one call only (they are no part of the state), but the backend index
    is an attribute of the engine and outlives the call.  A search call
    leaves the credentials, the preferred engine, the history and the heap
    as they were, and moves the backend index one slot on, modulo 3, for
    each rate-limit-flavoured failure of the fallback backend during the
    call; without such a failure the index is unchanged.  A following
    fallback fetch sends its first request to the backend of the slot this
    call ended on. *)
Theorem search_keeps_backend_rotation (w : World) (q : string) (m : Z)
        (s : State) :
  let s' := snd (search w q m s) in
  exists evs,
    trace s' = trace s ++ evs
    /\ same_config s s'
    /\ _backend_idx (engine s')
       = rotated (rate_limit_count w (count_ev is_ddgs_text (trace s)) evs)
                 (_backend_idx (engine s))
    /\ (rate_limit_count w (count_ev is_ddgs_text (trace s)) evs = 0 ->
        _backend_idx (engine s') = _backend_idx (engine s))
    /\ (forall q2 m2, exists rest,
           trace (snd (_search_duckduckgo w q2 m2 s'))
           = trace s'
             ++ Call_search_duckduckgo q2 m2
                :: ddgs_text q2 (clamp m2)
                     (backend_at
                        (rotated
                           (rate_limit_count
                              w (count_ev is_ddgs_text (trace s)) evs)
                           (_backend_idx (engine s))))
                :: rest).
Proof.
  cbv zeta.
  destruct (search_frame w q m s)
    as (out & s' & evs & Hrun & Hcfg & Htr & _ & _ & Hidx & _).
  rewrite Hrun. simpl. exists evs.
  split; [exact Htr|]. split; [exact Hcfg|]. split; [exact Hidx|].
  split.
  - intros Hz. rewrite Hidx, Hz. reflexivity.
  - intros q2 m2. rewrite <- Hidx. apply duckduckgo_first_request.
Qed.

(** ** The research operation *)

Lemma call_progress_run w cb msg s :
  callback_returns w cb ->
  call_progress w cb msg s
  = (Return tt, if cb then log (progress msg) s else s).
Proof.
  intros Hcb. unfold call_progress. destruct cb; [|reflexivity].
  rewrite (Hcb eq_refl). reflexivity.
Qed.

Lemma call_progress_spec w cb msg s :
  callback_returns w cb ->
  exists s',
    call_progress w cb msg s = (Return tt, s')
    /\ agent s' = agent s /\ heap s' = heap s
    /\ count_ev is_scrape (trace s') = count_ev is_scrape (trace s)
    /\ count_ev is_analyze (trace s') = count_ev is_analyze (trace s).
Proof.
  intros Hcb. rewrite (call_progress_run w cb msg s Hcb). destruct cb.
  - exists (log (progress msg) s). split; [reflexivity|].
    cbn. rewrite !count_ev_app. simpl.
    repeat split; lia.
  - exists s. repeat split.
Qed.

Lemma update_spec r f s d :
  heap s !! r = Some d ->
  exists s',
    update r f s = (Return tt, s')
    /\ agent s' = agent s /\ trace s' = trace s
    /\ heap s' !! r = Some (f d)
    /\ length (heap s') = length (heap s).
Proof.
  intros Hd. exists (set_heap (alter f r (heap s)) s).
  split; [reflexivity|]. split; [reflexivity|]. split; [reflexivity|].
  split.
  - simpl. rewrite list_lookup_alter_eq, Hd. reflexivity.
  - simpl. apply length_alter.
Qed.

Lemma same_but_sources_refl d : same_but_sources d d.
Proof. unfold same_but_sources. tauto. Qed.

Lemma same_but_sources_trans d1 d2 d3 :
  same_but_sources d1 d2 -> same_but_sources d2 d3 -> same_but_sources d1 d3.
Proof. unfold same_but_sources. intuition congruence. Qed.

(** The scraping loop returns, and changes the dictionary at [r] in its
    [sources] only. *)
Lemma scrape_sources_spec w cb r total items :
  callback_returns w cb ->
  forall s d,
  heap s !! r = Some d ->
  exists s' d',
    scrape_sources w cb r total items s = (Return tt, s')
    /\ agent s' = agent s
    /\ heap s' !! r = Some d'
    /\ same_but_sources d d'
    /\ length (heap s') = length (heap s).
Proof.
  intros Hcb.
  induction items as [|[i result] rest IH]; intros s d Hd.
  - exists s, d. split; [reflexivity|]. split; [reflexivity|].
    split; [exact Hd|]. split; [apply same_but_sources_refl|reflexivity].
  - simpl scrape_sources. unfold bind at 1.
    destruct (call_progress_spec w cb
                ("Scraping [" ++ Py.str_int i ++ "/" ++ Py.str_int total
                              ++ "] " ++ url result)%string s Hcb)
      as (s1 & Hrun1 & Hag1 & Hhp1 & _).
    rewrite Hrun1. unfold bind at 1, try_except. unfold bind at 1.
    assert (Hstep : exists s2 d2,
               (let (r0, s'0) := scrape_url w (url result) s1 in
                match r0 with
                | Return a =>
                    (if success a then update r (add_source a) else ret tt)
                      s'0
                | Raise e => (Raise e, s'0)
                end)
               = (match scrape_url w (url result) s1 with
                  | (Raise e, _) => Raise e
                  | _ => Return tt
                  end, s2)
               /\ agent s2 = agent s /\ heap s2 !! r = Some d2
               /\ same_but_sources d d2
               /\ length (heap s2) = length (heap s)).
    { assert (Hsc : exists out,
                 scrape_url w (url result) s1
                 = (out, log (scrape (url result)) s1)).
      { unfold scrape_url.
        destruct (String.eqb (url result) ""
                  || negb (Py.startswith (url result) "http://"
                           || Py.startswith (url result) "https://"));
          eexists; reflexivity. }
      destruct Hsc as [out Hsc]. rewrite Hsc.
      set (s1' := log (scrape (url result)) s1).
      assert (Hd1 : heap s1' !! r = Some d).
      { subst s1'. simpl. rewrite Hhp1. exact Hd. }
      destruct out as [x|e].
      - destruct (success x).
        + destruct (update_spec r (add_source x) s1' d Hd1)
            as (s2 & Hrun2 & Hag2 & _ & Hd2 & Hlen2).
          exists s2, (add_source x d). rewrite Hrun2.
          split; [reflexivity|].
          split; [rewrite Hag2; subst s1'; simpl; exact Hag1|].
          split; [exact Hd2|].
          split; [unfold same_but_sources; cbn; tauto|].
          rewrite Hlen2. subst s1'. simpl. rewrite Hhp1. reflexivity.
        + exists s1', d. split; [reflexivity|].
          split; [subst s1'; simpl; exact Hag1|].
          split; [exact Hd1|].
          split; [apply same_but_sources_refl|].
          subst s1'. simpl. rewrite Hhp1. reflexivity.
      - exists s1', d. split; [reflexivity|].
        split; [subst s1'; simpl; exact Hag1|].
        split; [exact Hd1|].
        split; [apply same_but_sources_refl|].
        subst s1'. simpl. rewrite Hhp1. reflexivity. }
    destruct Hstep as (s2 & d2 & Hrun2 & Hag2 & Hd2 & Hsame2 & Hlen2).
    rewrite Hrun2.
    destruct (IH s2 d2 Hd2) as (s' & d' & Hrun & Hag & Hd' & Hsame & Hlen).
    exists s', d'.
    split.
    { destruct (scrape_url w (url result) s1) as [[x|e] sx]; exact Hrun. }
    split; [rewrite Hag; exact Hag2|].
    split; [exact Hd'|].
    split; [eapply same_but_sources_trans; eassumption|].
    rewrite Hlen. exact Hlen2.
Qed.



Lemma length_enumerate1 (l : list SearchRecord) :
  length (Py.enumerate1 l) = length l.
Proof.
  unfold Py.enumerate1. generalize 1%nat.
  induction l as [|x l IH]; intros n; simpl; [reflexivity|].
  rewrite IH. reflexivity.
Qed.



































(** * Properties beyond the specification *)

(** ** The primary client without usable credentials *)

Lemma search_google_guard w q m s :
  google_disabled (engine s) = true ->
  _search_google w q m s = (Return [], log (Call_search_google q m) s).
Proof.
  intros Hoff. unfold _search_google, bind at 1, emit, modify.
  unfold bind at 1, get.
  change (engine (log (Call_search_google q m) s)) with (engine s).
  unfold google_disabled, Py.truthy_str in Hoff.
  destruct (google_api_key (engine s)) as [key|]; [|reflexivity].
  destruct (google_cse_id (engine s)) as [cx|]; [|reflexivity].
  destruct (String.eqb key ""); [reflexivity|].
  destruct (String.eqb cx ""); [reflexivity|].
  simpl in Hoff. rewrite Hoff. reflexivity.
Qed.

(** X1: when a credential is missing or empty, or the search-engine id
    contains the placeholder [your_custom_search_engine_id] in any letter
    case, [_search_google] returns the empty list and sends nothing; and
    [search], in whatever mode, then sends no request to the primary
    provider. *)
Theorem google_disabled_sends_nothing (w : World) (q : string) (m : Z)
        (s : State) :
  google_disabled (engine s) = true ->
  _search_google w q m s = (Return [], log (Call_search_google q m) s)
  /\ count_ev is_requests_get (trace (snd (search w q m s)))
     = count_ev is_requests_get (trace s).
Proof.
  intros Hoff.
  pose proof (search_google_guard w q m s Hoff) as Hg.
  split; [exact Hg|].
  pose proof (duckduckgo_counts w q m s) as (_ & _ & Hd).
  pose proof (duckduckgo_counts w q m (log (Call_search_google q m) s))
    as (_ & _ & Hd').
  cbv zeta in Hd, Hd'.
  assert (Hc : count_ev is_requests_get
                        (trace (log (Call_search_google q m) s))
               = count_ev is_requests_get (trace s)).
  { simpl. rewrite count_ev_app. simpl. lia. }
  unfold search, bind at 1, get.
  destruct (String.eqb (preferred_engine (engine s)) "duckduckgo");
    [exact Hd|].
  destruct (String.eqb (preferred_engine (engine s)) "google");
    destruct (Py.truthy_str (google_api_key (engine s))
              && Py.truthy_str (google_cse_id (engine s)));
    try exact Hd;
    unfold bind; rewrite Hg; simpl; rewrite Hd', Hc;
    reflexivity.
Qed.

Lemma google_disabled_sends_nothing_witness :
  _search_google world_flaky "ai" 5
     (init_state (Some "key") (Some "Your_Custom_Search_Engine_ID") true
                 "ollama" "google")
  = (Return [],
     log (Call_search_google "ai" 5)
         (init_state (Some "key") (Some "Your_Custom_Search_Engine_ID") true
                     "ollama" "google")).
Proof.
  apply (google_disabled_sends_nothing
           world_flaky "ai" 5
           (init_state (Some "key") (Some "Your_Custom_Search_Engine_ID")
                       true "ollama" "google")).
  reflexivity.
Defined.

(** ** The forced-primary mode *)

Lemma search_google_unfold w q m s :
  preferred_engine (engine s) = "google" ->
  search w q m s
  = if Py.truthy_str (google_api_key (engine s))
       && Py.truthy_str (google_cse_id (engine s))
    then match _search_google w q m s with
         | (Return g, s1) =>
             if Py.truthy_list g then (Return g, s1)
             else _search_duckduckgo w q m s1
         | (Raise e, s1) => (Raise e, s1)
         end
    else _search_duckduckgo w q m s.
Proof.
  intros Hmode. unfold search, bind at 1, get. rewrite Hmode. simpl.
  destruct (Py.truthy_str (google_api_key (engine s))
            && Py.truthy_str (google_cse_id (engine s))); [|reflexivity].
  unfold bind. destruct (_search_google w q m s) as [[g|e] s1]; [|reflexivity].
  destruct (Py.truthy_list g); reflexivity.
Qed.

(** X2: the mode [google] is a preference, not an exclusion.  With the
    credentials configured the primary client runs first and a non-empty
    answer is returned without entering the fallback client; an empty
    answer (also a failure of the primary provider) hands the query over
    to the fallback client, once; without the credentials the fallback
    client runs directly and the primary client is not entered. *)
Theorem search_forced_google_falls_back (w : World) (q : string) (m : Z)
        (s : State) :
  preferred_engine (engine s) = "google" ->
  let configured :=
    Py.truthy_str (google_api_key (engine s))
    && Py.truthy_str (google_cse_id (engine s)) in
  let final := snd (search w q m s) in
  (configured = true ->
   exists g s1,
     _search_google w q m s = (Return g, s1)
     /\ (g <> [] ->
         search w q m s = (Return g, s1)
         /\ count_ev is_call_duckduckgo (trace final)
            = count_ev is_call_duckduckgo (trace s))
     /\ (g = [] ->
         search w q m s = _search_duckduckgo w q m s1
         /\ count_ev is_call_duckduckgo (trace final)
            = S (count_ev is_call_duckduckgo (trace s))))
  /\ (configured = false ->
      search w q m s = _search_duckduckgo w q m s
      /\ count_ev is_call_google (trace final)
         = count_ev is_call_google (trace s)).
Proof.
  intros Hmode configured final. subst final.
  rewrite (search_google_unfold w q m s Hmode). fold configured.
  split; intros Hc; rewrite Hc.
  - destruct (search_google_spec w q m s) as (g & s1 & evs & Hrun & _).
    pose proof (google_counts w q m s) as (_ & Hg2 & _).
    rewrite Hrun in Hg2. simpl in Hg2.
    pose proof (duckduckgo_counts w q m s1) as (Hd1 & _ & _).
    cbv zeta in Hd1.
    exists g, s1. rewrite Hrun. split; [reflexivity|].
    destruct g as [|x g]; simpl.
    + split; [intros Hne; contradiction|].
      intros _. split; [reflexivity|]. rewrite Hd1, Hg2. reflexivity.
    + split; [|discriminate].
      intros _. split; [reflexivity|exact Hg2].
  - pose proof (duckduckgo_counts w q m s) as (_ & Hd2 & _).
    split; [reflexivity|exact Hd2].
Qed.

Lemma search_forced_google_falls_back_witness :
  search world_down "ai" 5 (configured "google")
  = _search_duckduckgo
      world_down "ai" 5
      (snd (_search_google world_down "ai" 5 (configured "google"))).
Proof.
  destruct (search_forced_google_falls_back world_down "ai" 5
                                            (configured "google") eq_refl)
    as [Hconf _].
  destruct (Hconf eq_refl) as (g & s1 & Hrun & _ & Hempty).
  rewrite Hrun. simpl.
  assert (Hg : g = []).
  { apply (f_equal fst) in Hrun. vm_compute in Hrun.
    injection Hrun as <-. reflexivity. }
  apply Hempty, Hg.
Defined.

(** ** The requests of the primary client *)

(** [_search_google] either stops at its guard, or runs the request loop
    with the configured credentials, slices what the loop collected and
    turns an exception of the loop into the empty list. *)
Lemma search_google_cases w q m s :
  let s0 := log (Call_search_google q m) s in
  (google_disabled (engine s) = true
   /\ _search_google w q m s = (Return [], s0))
  \/ (exists key cx,
         google_api_key (engine s) = Some key
         /\ google_cse_id (engine s) = Some cx
         /\ _search_google w q m s
            = match google_requests w key cx q m
                      (Py.range (Z.min ((m + 9) / 10) 3)) [] s0 with
              | (Return results, s') => (Return (Py.slice results 0 m), s')
              | (Raise _, s') => (Return [], s')
              end).
Proof.
  intros s0.
  destruct (google_disabled (engine s)) eqn:Hoff.
  - left. split; [reflexivity|].
    apply (search_google_guard w q m s Hoff).
  - right. unfold google_disabled, Py.truthy_str in Hoff.
    destruct (google_api_key (engine s)) as [key|] eqn:Hk;
      [|discriminate].
    destruct (google_cse_id (engine s)) as [cx|] eqn:Hc;
      [|simpl in Hoff; destruct (negb (negb (String.eqb key "")));
        discriminate].
    exists key, cx. split; [reflexivity|]. split; [reflexivity|].
    unfold _search_google, bind at 1, emit, modify. unfold bind at 1, get.
    fold s0. change (engine s0) with (engine s). rewrite Hk, Hc.
    destruct (String.eqb key ""); [discriminate|].
    destruct (String.eqb cx ""); [discriminate|]. simpl in Hoff.
    rewrite Hoff. simpl. unfold try_except, bind, ret.
    destruct (google_requests w key cx q m
                (Py.range (Z.min ((m + 9) / 10) 3)) [] s0) as [[res|e] s'];
      [reflexivity|].
    destruct e; reflexivity.
Qed.

(** The requests of the loop, one per index until it stops: page [i] is
    asked from result number [10 i + 1] on, for between 1 and 10 results
    and never more than are still missing. *)
Lemma google_requests_params w key cx q m indices : forall results s,
  Py.len results < m ->
  exists evs,
    trace (snd (google_requests w key cx q m indices results s))
    = trace s ++ evs
    /\ (length evs <= length indices)%nat
    /\ (forall j e, evs !! j = Some e ->
        exists i num,
          indices !! j = Some i
          /\ e = requests_get key cx q (i * 10 + 1) num
          /\ 1 <= num <= 10 /\ num <= m).
Proof.
  induction indices as [|i rest IH]; intros results s Hlt.
  - exists []. simpl. rewrite app_nil_r. split; [reflexivity|].
    split; [lia|]. intros j e Hj. destruct j; discriminate.
  - pose proof (len_nonneg results) as Hnn.
    set (num := Z.min 10 (m - Py.len results)).
    set (ev := requests_get key cx q (i * 10 + 1) num).
    assert (Hone : exists evs,
               trace (log ev s) = trace s ++ evs
               /\ (length evs <= length (i :: rest))%nat
               /\ (forall j e, evs !! j = Some e ->
                   exists i' num',
                     (i :: rest) !! j = Some i'
                     /\ e = requests_get key cx q (i' * 10 + 1) num'
                     /\ 1 <= num' <= 10 /\ num' <= m)).
    { exists [ev]. split; [reflexivity|]. split; [simpl; lia|].
      intros j e Hj. destruct j as [|j]; [|destruct j; discriminate].
      injection Hj as <-. exists i, num. split; [reflexivity|].
      split; [reflexivity|]. subst num. lia. }
    simpl google_requests. fold num. fold ev.
    unfold bind at 1, requests_get_. fold ev.
    destruct (w_get w (count_ev is_requests_get (trace s)) key cx q
                    (i * 10 + 1) num) as [resp|e]; [|exact Hone].
    unfold bind at 1, raise_for_status.
    destruct ((400 <=? status_code resp) && (status_code resp <? 600));
      [exact Hone|].
    unfold ret at 1. unfold bind at 1, json_get_items.
    destruct (json_items resp) as [items|]; [|exact Hone].
    unfold ret at 1.
    destruct (negb (Py.truthy_list items)); [exact Hone|].
    destruct (Z.geb_spec (Py.len (results ++ map normalize_google items)) m)
      as [Hge|Hlt'].
    { exact Hone. }
    destruct (IH (results ++ map normalize_google items) (log ev s) Hlt')
      as (evs & Htr & Hlen & Hpar).
    exists (ev :: evs).
    split; [rewrite Htr; simpl; rewrite <- app_assoc; reflexivity|].
    split; [simpl; lia|].
    intros j e Hj. destruct j as [|j].
    + injection Hj as <-. exists i, num. split; [reflexivity|].
      split; [reflexivity|]. subst num. lia.
    + apply (Hpar j e Hj).
Qed.

Lemma lookup_range (n : Z) (j : nat) (i : Z) :
  Py.range n !! j = Some i -> i = Z.of_nat j.
Proof.
  unfold Py.range. rewrite list_lookup_fmap.
  destruct (seq 0 (Z.to_nat n) !! j) as [x|] eqn:Hx; [|discriminate].
  apply lookup_seq in Hx. destruct Hx as [-> _].
  simpl. intros [= <-]. reflexivity.
Qed.

(** X3: the requests [_search_google] sends in one call are at most
    [min(ceil(max_results / 10), 3)], none when [max_results <= 0]; the
    j-th of them (from 0) carries the configured key and engine id and the
    query, starts at result [10 j + 1] and asks for between 1 and 10
    results, never more than [max_results]. *)
Theorem google_request_parameters (w : World) (q : string) (m : Z)
        (s : State) :
  exists evs,
    trace (snd (_search_google w q m s))
    = trace s ++ Call_search_google q m :: evs
    /\ Z.of_nat (length evs) <= Z.max 0 (Z.min ((m + 9) / 10) 3)
    /\ (forall j e, evs !! j = Some e ->
        exists key cx num,
          google_api_key (engine s) = Some key
          /\ google_cse_id (engine s) = Some cx
          /\ e = requests_get key cx q (10 * Z.of_nat j + 1) num
          /\ 1 <= num <= 10 /\ num <= m).
Proof.
  destruct (search_google_cases w q m s)
    as [[_ Hrun] | (key & cx & Hk & Hc & Hrun)]; cbv zeta in Hrun.
  - exists []. rewrite Hrun. split; [reflexivity|]. split; [simpl; lia|].
    intros j e Hj. destruct j; discriminate.
  - set (n := Z.min ((m + 9) / 10) 3) in *.
    set (s0 := log (Call_search_google q m) s) in *.
    destruct (Z.leb_spec n 0) as [Hn|Hn].
    + rewrite (range_nonpos n Hn) in Hrun. simpl in Hrun.
      exists []. rewrite Hrun. split; [reflexivity|]. split; [simpl; lia|].
      intros j e Hj. destruct j; discriminate.
    + assert (Hm : 0 < m).
      { destruct (Z.leb_spec m 0) as [Hle|]; [|assumption].
        assert ((m + 9) / 10 < 1) by (apply Z.div_lt_upper_bound; lia).
        subst n. lia. }
      destruct (google_requests_params w key cx q m (Py.range n) [] s0)
        as (evs & Htr & Hlen & Hpar).
      { change (Py.len (@nil SearchRecord)) with 0. exact Hm. }
      exists evs.
      assert (Htr' : trace (snd (_search_google w q m s))
                     = trace (snd (google_requests w key cx q m (Py.range n)
                                                   [] s0))).
      { rewrite Hrun.
        destruct (google_requests w key cx q m (Py.range n) [] s0)
          as [[res|e] s']; reflexivity. }
      split.
      { rewrite Htr', Htr. subst s0. simpl. rewrite <- app_assoc.
        reflexivity. }
      split; [rewrite length_range in Hlen; lia|].
      intros j e Hj. destruct (Hpar j e Hj) as (i & num & Hi & He & Hnum).
      apply lookup_range in Hi. subst i.
      exists key, cx, num. split; [exact Hk|]. split; [exact Hc|].
      split; [|exact Hnum]. rewrite He. f_equal. lia.
Qed.

(** ** Where a search goes *)

(** A call of [search] is a (possibly absent) run of the primary client
    that touches only the trace, followed either by the return of its
    non-empty answer or by a run of the fallback client. *)
Lemma search_decompose w q m s :
  exists s1 pre,
    trace s1 = trace s ++ pre
    /\ Forall (fun e => is_call_google e || is_requests_get e = true) pre
    /\ agent s1 = agent s /\ heap s1 = heap s
    /\ ((exists g, g <> [] /\ _search_google w q m s = (Return g, s1)
                   /\ search w q m s = (Return g, s1))
        \/ search w q m s = _search_duckduckgo w q m s1).
Proof.
  assert (Hddg : exists s1 pre,
             trace s1 = trace s ++ pre
             /\ Forall (fun e => is_call_google e || is_requests_get e = true)
                       pre
             /\ agent s1 = agent s /\ heap s1 = heap s
             /\ ((exists g, g <> []
                            /\ _search_google w q m s = (Return g, s1)
                            /\ _search_duckduckgo w q m s = (Return g, s1))
                 \/ _search_duckduckgo w q m s = _search_duckduckgo w q m s1)).
  { exists s, []. rewrite app_nil_r.
    split; [reflexivity|]. split; [constructor|].
    split; [reflexivity|]. split; [reflexivity|].
    right. reflexivity. }
  assert (Hboth : exists s1 pre,
             trace s1 = trace s ++ pre
             /\ Forall (fun e => is_call_google e || is_requests_get e = true)
                       pre
             /\ agent s1 = agent s /\ heap s1 = heap s
             /\ ((exists g, g <> []
                    /\ _search_google w q m s = (Return g, s1)
                    /\ (let* google_results := _search_google w q m in
                        if Py.truthy_list google_results
                        then ret google_results
                        else _search_duckduckgo w q m) s = (Return g, s1))
                 \/ (let* google_results := _search_google w q m in
                     if Py.truthy_list google_results
                     then ret google_results
                     else _search_duckduckgo w q m) s
                    = _search_duckduckgo w q m s1)).
  { destruct (search_google_spec w q m s)
      as (g & s1 & evs & Hrun & Hag & Hhp & Htr & Hev & _).
    exists s1, (Call_search_google q m :: evs).
    split; [exact Htr|].
    split.
    { constructor; [reflexivity|]. eapply Forall_impl; [exact Hev|].
      intros e He. rewrite He. apply orb_true_r. }
    split; [exact Hag|]. split; [exact Hhp|].
    unfold bind. rewrite Hrun. destruct g as [|x g]; simpl.
    - right. reflexivity.
    - left. exists (x :: g). split; [discriminate|].
      split; reflexivity. }
  set (both := (let* google_results := _search_google w q m in
                if Py.truthy_list google_results
                then ret google_results
                else _search_duckduckgo w q m) s) in *.
  assert (Hsearch : search w q m s
            = if String.eqb (preferred_engine (engine s)) "duckduckgo"
              then _search_duckduckgo w q m s
              else if Py.truthy_str (google_api_key (engine s))
                      && Py.truthy_str (google_cse_id (engine s))
                   then both else _search_duckduckgo w q m s).
  { unfold search, bind at 1, get. subst both.
    destruct (String.eqb (preferred_engine (engine s)) "duckduckgo");
      [reflexivity|].
    destruct (String.eqb (preferred_engine (engine s)) "google");
      destruct (Py.truthy_str (google_api_key (engine s))
                && Py.truthy_str (google_cse_id (engine s)));
      reflexivity. }
  rewrite Hsearch.
  destruct (String.eqb (preferred_engine (engine s)) "duckduckgo");
    [exact Hddg|].
  destruct (Py.truthy_str (google_api_key (engine s))
            && Py.truthy_str (google_cse_id (engine s)));
    [exact Hboth | exact Hddg].
Qed.

(** ** Time spent sleeping *)

Lemma total_sleep_app (a b : list Event) :
  (total_sleep (a ++ b) == total_sleep a + total_sleep b)%Q.
Proof.
  induction a as [|e a IH]; simpl.
  - rewrite Qplus_0_l. reflexivity.
  - destruct e; try exact IH. rewrite IH. apply Qplus_assoc.
Qed.

Lemma sleep_budget_sum_nonneg (attempts : list Z) :
  (0 <= sleep_budget_sum attempts)%Q.
Proof.
  induction attempts as [|a r IH]; simpl; [discriminate|].
  assert (H0 : (0 <= sleep_budget a)%Q).
  { unfold sleep_budget. destruct (a <? 4); [|discriminate].
    apply Qle_trans with 1%Q; [discriminate|apply Q.le_max_l]. }
  apply Qle_trans with (0 + 0)%Q; [discriminate|].
  apply Qplus_le_compat; assumption.
Qed.

Lemma make_events_quiet (evs : list Event) :
  Forall (fun x => x = make_ddgs) evs ->
  count_ev is_sleep evs = O
  /\ total_sleep evs = 0%Q
  /\ count_ev is_ddgs_text evs = O.
Proof.
  intros Hall. induction Hall as [|e evs He _ IH].
  - repeat split.
  - subst e. exact IH.
Qed.

(** What an [except] clause of the text loop sleeps: once within the budget
    of the attempt, and not at all after the last attempt. *)
Lemma text_handler_sleep w a e s :
  jitter_bounded w ->
  count_ev is_sleep (text_handler_events w a e s)
  = (if (a <? 4)%Z then 1 else 0)%nat
  /\ (total_sleep (text_handler_events w a e s) <= sleep_budget a)%Q
  /\ count_ev is_ddgs_text (text_handler_events w a e s) = O.
Proof.
  intros Hj. unfold text_handler_events, sleep_budget.
  destruct (Hj (count_ev is_uniform (trace s))) as [_ Hhi].
  destruct (rate_limited e), (a <? 4); simpl;
    (split; [reflexivity|]); (split; [|reflexivity]);
    try discriminate.
  - rewrite Qplus_0_r. unfold sleep_time. apply Q.max_le_compat_l.
    apply Qplus_le_compat; [apply Qle_refl|exact Hhi].
  - rewrite Qplus_0_r. apply Q.le_max_l.
Qed.

(** The text loop sleeps exactly once between two consecutive requests and
    never after the last one, and stays within the budget of the attempts
    it uses. *)
Lemma text_attempts_sleeps w q m :
  jitter_bounded w ->
  forall attempts last s,
    remaining_attempts attempts ->
    exists evs,
      trace (snd (text_attempts w q m attempts last s)) = trace s ++ evs
      /\ S (count_ev is_sleep evs) = count_ev is_ddgs_text evs
      /\ (total_sleep evs <= sleep_budget_sum attempts)%Q.
Proof.
  intros Hj attempts.
  induction attempts as [|a rest IH]; intros last s Hrem; [contradiction|].
  set (ev := ddgs_text q m (backend_at (_backend_idx (engine s)))).
  destruct (w_text w (count_ev is_ddgs_text (trace s)) q m
                   (backend_at (_backend_idx (engine s))))
    as [items|e] eqn:Hw.
  - rewrite (text_attempts_success w q m a rest last s items Hw).
    exists [ev]. split; [reflexivity|]. split; [reflexivity|].
    simpl total_sleep. apply sleep_budget_sum_nonneg.
  - rewrite text_attempts_cons.
    pose proof (text_attempt_cases w q m a s) as Hstep. cbv zeta in Hstep.
    rewrite Hw in Hstep. fold ev in Hstep.
    destruct Hstep
      as (out & s1 & hevs & Hrun & _ & _ & Htr1
          & [(-> & _ & ->) | ((e' & k & -> & _) & _ & Hmk)]);
      rewrite Hrun.
    2:{ (* the constructor of the client raises: the loop is left *)
      destruct (make_events_quiet hevs Hmk) as (Hq1 & Hq2 & Hq3).
      exists (ev :: hevs). split; [exact Htr1|].
      split; [simpl; rewrite Hq1, Hq3; reflexivity|].
      simpl total_sleep. rewrite Hq2. apply sleep_budget_sum_nonneg. }
    destruct (text_handler_sleep w a e s Hj) as (Hc & Ht & Hx).
    set (h := text_handler_events w a e s) in *.
    destruct rest as [|b rest'].
    + (* the last attempt *)
      simpl in Hrem. exists (ev :: h ++ [logging_error (Some e)]).
      assert (Ha : (a <? 4) = false) by (apply Z.ltb_ge; exact Hrem).
      rewrite Ha in Hc. unfold sleep_budget in Ht. rewrite Ha in Ht.
      split; [simpl; rewrite Htr1, <- app_assoc; reflexivity|].
      split; [simpl; rewrite !count_ev_app, Hc, Hx; reflexivity|].
      simpl total_sleep. rewrite total_sleep_app. simpl total_sleep.
      change (sleep_budget_sum [a]) with (sleep_budget a + 0)%Q.
      unfold sleep_budget. rewrite Ha.
      apply Qplus_le_compat; [exact Ht|apply Qle_refl].
    + destruct Hrem as [Ha Hrem].
      destruct (IH (Some e) s1 Hrem) as (evs & Htr & Hcnt & Htot).
      assert (Halt : (a <? 4) = true) by (apply Z.ltb_lt; exact Ha).
      rewrite Halt in Hc.
      exists (ev :: h ++ evs).
      split; [rewrite Htr, Htr1, <- app_assoc; reflexivity|].
      split.
      { simpl. rewrite !count_ev_app, Hc, Hx. simpl. rewrite <- Hcnt.
        reflexivity. }
      simpl total_sleep. rewrite total_sleep_app.
      change (sleep_budget_sum (a :: b :: rest'))
        with (sleep_budget a + sleep_budget_sum (b :: rest'))%Q.
      apply Qplus_le_compat; assumption.
Qed.

Lemma primary_events_quiet (pre : list Event) :
  Forall (fun e => is_call_google e || is_requests_get e = true) pre ->
  count_ev is_sleep pre = O
  /\ total_sleep pre = 0%Q
  /\ count_ev is_ddgs_text pre = O
  /\ count_ev is_ddgs_news pre = O.
Proof.
  intros Hall. induction Hall as [|e pre He _ IH].
  - repeat split.
  - destruct e; try discriminate; exact IH.
Qed.

Lemma duckduckgo_sleeps w q m s :
  jitter_bounded w ->
  exists evs,
    trace (snd (_search_duckduckgo w q m s)) = trace s ++ evs
    /\ S (count_ev is_sleep evs) = count_ev is_ddgs_text evs
    /\ (count_ev is_sleep evs <= 4)%nat
    /\ (total_sleep evs <= 17)%Q.
Proof.
  intros Hj. rewrite search_duckduckgo_unfold.
  destruct (text_attempts_sleeps w q (clamp m) Hj [0; 1; 2; 3; 4] None
              (log (Call_search_duckduckgo q m) s))
    as (evs & Htr & Hcnt & Htot).
  { simpl. lia. }
  destruct (search_duckduckgo_frame w q m s)
    as (r & s' & evs' & Hrun & _ & Htr' & _ & Hcnt' & _).
  rewrite search_duckduckgo_unfold in Hrun. rewrite Hrun in Htr.
  simpl in Htr. rewrite Htr', <- app_assoc in Htr.
  apply app_inv_head in Htr. simpl in Htr. injection Htr as Heq.
  subst evs'.
  exists (Call_search_duckduckgo q m :: evs).
  split; [rewrite Hrun; simpl; exact Htr'|].
  split; [exact Hcnt|]. split; [simpl; lia|].
  simpl total_sleep. eapply Qle_trans; [exact Htot|].
  vm_compute. discriminate.
Qed.

Lemma search_sleeps w q m s :
  jitter_bounded w ->
  exists evs,
    trace (snd (search w q m s)) = trace s ++ evs
    /\ (count_ev is_sleep evs <= 4)%nat
    /\ (total_sleep evs <= 17)%Q.
Proof.
  intros Hj.
  destruct (search_decompose w q m s)
    as (s1 & pre & Htr1 & Hpre & _ & _ & [(g & _ & _ & Hrun) | Hrun]).
  - exists pre. rewrite Hrun. split; [exact Htr1|].
    destruct (primary_events_quiet pre Hpre) as (-> & -> & _).
    split; [lia|discriminate].
  - destruct (duckduckgo_sleeps w q m s1 Hj) as (evs & Htr & _ & Hcnt & Htot).
    exists (pre ++ evs). rewrite Hrun.
    split; [rewrite Htr, Htr1, <- app_assoc; reflexivity|].
    rewrite count_ev_app, total_sleep_app.
    destruct (primary_events_quiet pre Hpre) as (-> & -> & _).
    split; [simpl; exact Hcnt|]. rewrite Qplus_0_l. exact Htot.
Qed.

(** X4: one call of the fallback client sleeps exactly once between two
    consecutive requests and never after the last one, so at most four
    times; with the jitter within its bounds the sleeps add up to at most
    17 seconds.  A call of [search] in any mode sleeps no more than that:
    the primary client never sleeps. *)
Theorem search_sleep_budget (w : World) (q : string) (m : Z) (s : State) :
  jitter_bounded w ->
  (exists evs,
      trace (snd (_search_duckduckgo w q m s)) = trace s ++ evs
      /\ S (count_ev is_sleep evs) = count_ev is_ddgs_text evs
      /\ (count_ev is_sleep evs <= 4)%nat
      /\ (total_sleep evs <= 17)%Q)
  /\ (exists evs,
         trace (snd (search w q m s)) = trace s ++ evs
         /\ (count_ev is_sleep evs <= 4)%nat
         /\ (total_sleep evs <= 17)%Q).
Proof.
  intros Hj. split; [apply duckduckgo_sleeps | apply search_sleeps]; exact Hj.
Qed.

Lemma search_sleep_budget_witness :
  exists evs,
    trace (snd (search world_flaky "ai" 5 (unconfigured "auto")))
    = trace (unconfigured "auto") ++ evs
    /\ (count_ev is_sleep evs <= 4)%nat
    /\ (total_sleep evs <= 17)%Q.
Proof.
  destruct (search_sleep_budget world_flaky "ai" 5 (unconfigured "auto"))
    as [_ H].
  - intros k. split; vm_compute; discriminate.
  - exact H.
Defined.

(** ** The backend rotation *)

Lemma backend_at_in (i : Z) : In (backend_at i) _backends_cycle.
Proof.
  unfold backend_at. change (Py.len _backends_cycle) with 3.
  pose proof (Z.mod_pos_bound i 3 ltac:(lia)) as Hb.
  assert (Hc : i mod 3 = 0 \/ i mod 3 = 1 \/ i mod 3 = 2) by lia.
  destruct Hc as [-> | [-> | ->]]; simpl; tauto.
Qed.

Lemma rotated_in_range (n i : Z) : 0 <= i < 3 -> 0 <= rotated n i < 3.
Proof.
  intros Hi. unfold rotated. change (Py.len _backends_cycle) with 3.
  destruct (n =? 0); [exact Hi|]. apply Z.mod_pos_bound. lia.
Qed.

Lemma known_backend_retry (evs : list Event) :
  Forall (fun e => retry_event e = true) evs -> Forall known_backend evs.
Proof.
  intros H. eapply Forall_impl; [exact H|].
  intros e He q m b ->. discriminate.
Qed.

Lemma text_attempts_backends w q m attempts : forall last s,
  exists evs,
    trace (snd (text_attempts w q m attempts last s)) = trace s ++ evs
    /\ Forall known_backend evs.
Proof.
  induction attempts as [|a rest IH]; intros last s.
  - exists [logging_error last]. split; [reflexivity|].
    constructor; [|constructor]. intros q' m' b Heq. discriminate.
  - set (ev := ddgs_text q m (backend_at (_backend_idx (engine s)))).
    assert (Hev : known_backend ev).
    { intros q' m' b Heq. injection Heq as _ _ <-. apply backend_at_in. }
    destruct (w_text w (count_ev is_ddgs_text (trace s)) q m
                     (backend_at (_backend_idx (engine s))))
      as [items|e] eqn:Hw.
    + rewrite (text_attempts_success w q m a rest last s items Hw).
      exists [ev]. split; [reflexivity|]. constructor; [exact Hev|constructor].
    + rewrite text_attempts_cons.
      pose proof (text_attempt_cases w q m a s) as Hstep. cbv zeta in Hstep.
      rewrite Hw in Hstep. fold ev in Hstep.
      destruct Hstep
        as (out & s1 & hevs & Hrun & _ & _ & Htr1
            & [(-> & _ & ->) | ((e' & k & -> & _) & _ & Hmk)]);
        rewrite Hrun.
      * destruct (IH (Some e) s1) as (evs & Htr & Hall).
        exists (ev :: text_handler_events w a e s ++ evs).
        split; [rewrite Htr, Htr1, <- app_assoc; reflexivity|].
        constructor; [exact Hev|]. apply Forall_app. split; [|exact Hall].
        apply known_backend_retry, text_handler_events_retry.
      * exists (ev :: hevs). split; [exact Htr1|].
        constructor; [exact Hev|].
        apply known_backend_retry, make_events_retry, Hmk.
Qed.

Lemma snd_or_empty (out : Result (list SearchRecord) * State) :
  snd (or_empty out) = snd out.
Proof. destruct out as [[r|e] s]; reflexivity. Qed.

(** X5: the backend index stays within the cycle: from a slot in
    [0, 3) a call of [search] or of [news_search] ends on a slot in
    [0, 3); and whatever the index is, every request of [search] to the
    fallback provider names one of the backends [api], [html], [lite]. *)
Theorem backend_rotation_invariant (w : World) (q : string) (m : Z)
        (s : State) :
  (0 <= _backend_idx (engine s) < 3 ->
   0 <= _backend_idx (engine (snd (search w q m s))) < 3
   /\ 0 <= _backend_idx (engine (snd (news_search w q m s))) < 3)
  /\ (exists evs,
         trace (snd (search w q m s)) = trace s ++ evs
         /\ Forall known_backend evs).
Proof.
  split.
  - intros Hi.
    assert (Hs : forall q' m' s0,
               0 <= _backend_idx (engine s0) < 3 ->
               0 <= _backend_idx (engine (snd (search w q' m' s0))) < 3).
    { intros q' m' s0 Hi0.
      destruct (search_frame w q' m' s0)
        as (r & s' & evs & Hrun & _ & _ & _ & _ & Hidx & _).
      rewrite Hrun. simpl. rewrite Hidx. apply rotated_in_range, Hi0. }
    split; [apply Hs, Hi|].
    rewrite news_search_unfold.
    destruct (news_attempts_frame w q (clamp m) (Py.range 5) None
                                  (log (Call_news_search q m) s))
      as (s1 & evs & _ & Hidx & _ & _ & _ & _ & Hout & _).
    simpl in Hidx.
    destruct Hout as [(k & items & _ & Hrun) | [[Hrun _] | (e' & k & Hrun & _)]];
      rewrite Hrun.
    + simpl. rewrite Hidx. exact Hi.
    + rewrite snd_or_empty. apply Hs. rewrite Hidx. exact Hi.
    + simpl. rewrite Hidx. exact Hi.
  - destruct (search_decompose w q m s)
      as (s1 & pre & Htr1 & Hpre & _ & _ & [(g & _ & _ & Hrun) | Hrun]).
    + exists pre. rewrite Hrun. split; [exact Htr1|].
      eapply Forall_impl; [exact Hpre|].
      intros e He q' m' b ->. discriminate.
    + rewrite Hrun, search_duckduckgo_unfold.
      destruct (text_attempts_backends w q (clamp m) [0; 1; 2; 3; 4] None
                  (log (Call_search_duckduckgo q m) s1))
        as (evs & Htr & Hall).
      exists (pre ++ Call_search_duckduckgo q m :: evs).
      split.
      { rewrite Htr. simpl. rewrite Htr1, <- !app_assoc. reflexivity. }
      apply Forall_app. split.
      * eapply Forall_impl; [exact Hpre|].
        intros e He q' m' b ->. discriminate.
      * constructor; [intros q' m' b Heq; discriminate|exact Hall].
Qed.

Lemma backend_rotation_invariant_witness :
  0 <= _backend_idx
         (engine (snd (search world_down "ai" 5 (unconfigured "auto")))) < 3.
Proof.
  destruct (backend_rotation_invariant world_down "ai" 5
                                       (unconfigured "auto")) as [H _].
  apply H. simpl. lia.
Defined.

(** ** The research operation in full *)









(** ** The cap of the fallback provider seen from [research] *)





(** ** Web records and news records *)

Lemma slice_Forall {A} (P : A -> Prop) (l : list A) (lo hi : Z) :
  Forall P l -> Forall P (Py.slice l lo hi).
Proof. intros H. unfold Py.slice. apply Forall_take, Forall_drop, H. Qed.

Lemma google_requests_web w key cx q m indices : forall results s r s',
  Forall is_web_record results ->
  google_requests w key cx q m indices results s = (Return r, s') ->
  Forall is_web_record r.
Proof.
  induction indices as [|i rest IH]; intros results s r s' Hall Hrun.
  - injection Hrun as <- _. exact Hall.
  - simpl in Hrun. unfold bind at 1, requests_get_ in Hrun.
    destruct (w_get w (count_ev is_requests_get (trace s)) key cx q
                    (i * 10 + 1) (Z.min 10 (m - Py.len results)))
      as [resp|e]; [|discriminate].
    unfold bind at 1, raise_for_status in Hrun.
    destruct ((400 <=? status_code resp) && (status_code resp <? 600));
      [discriminate|].
    unfold ret at 1 in Hrun. unfold bind at 1, json_get_items in Hrun.
    destruct (json_items resp) as [items|]; [|discriminate].
    unfold ret at 1 in Hrun.
    assert (Hall' : Forall is_web_record
                           (results ++ map normalize_google items)).
    { apply Forall_app. split; [exact Hall|].
      apply Forall_forall. intros x Hx. apply list_elem_of_In in Hx.
      apply in_map_iff in Hx. destruct Hx as (y & <- & _). split; reflexivity. }
    destruct (negb (Py.truthy_list items)).
    { injection Hrun as <- _. exact Hall. }
    destruct (Py.len (results ++ map normalize_google items) >=? m).
    { injection Hrun as <- _. exact Hall'. }
    apply (IH _ _ _ _ Hall' Hrun).
Qed.

Lemma search_google_web w q m s g s' :
  _search_google w q m s = (Return g, s') -> Forall is_web_record g.
Proof.
  intros Hrun.
  destruct (search_google_cases w q m s)
    as [[_ Hg] | (key & cx & _ & _ & Hg)]; cbv zeta in Hg;
    rewrite Hg in Hrun.
  - injection Hrun as <- _. constructor.
  - destruct (google_requests w key cx q m
                (Py.range (Z.min ((m + 9) / 10) 3)) []
                (log (Call_search_google q m) s)) as [[res|e] s0] eqn:Hloop.
    + injection Hrun as <- _. apply slice_Forall.
      eapply google_requests_web; [|exact Hloop]. constructor.
    + injection Hrun as <- _. constructor.
Qed.

Lemma search_duckduckgo_web w q m s r s' :
  _search_duckduckgo w q m s = (Return r, s') -> Forall is_web_record r.
Proof.
  intros Hrun.
  destruct (search_duckduckgo_frame w q m s)
    as (out & s0 & evs & Hrun0 & _ & _ & _ & _ & _ & _ & Hout).
  rewrite Hrun in Hrun0. injection Hrun0 as <- _.
  destruct Hout as [[-> | (k & b & items & _ & ->)] _]; [constructor|].
  apply Forall_forall. intros x Hx. apply list_elem_of_In in Hx.
  apply in_map_iff in Hx. destruct Hx as (y & <- & _). split; reflexivity.
Qed.

Lemma search_web w q m s r s' :
  search w q m s = (Return r, s') -> Forall is_web_record r.
Proof.
  intros Hrun.
  destruct (search_decompose w q m s)
    as (s1 & pre & _ & _ & _ & _ & [(g & _ & Hg & Hs) | Hs]);
    rewrite Hs in Hrun.
  - injection Hrun as <- _. apply (search_google_web w q m s g s1 Hg).
  - apply (search_duckduckgo_web w q m s1 r s' Hrun).
Qed.

(** X11: a news record can be told from a web record.  Every record
    that [search] returns has neither date nor source.  The records that
    [news_search] returns are of one kind: either all of them carry a date
    and a source, or the five news requests have failed and all of them
    are web records of the generic search.  Where every client is built,
    both operations return. *)
Theorem news_records_all_or_nothing (w : World) (q : string) (m : Z)
        (s : State) :
  (forall r s',
      search w q m s = (Return r, s') -> Forall is_web_record r)
  /\ (forall r s',
         news_search w q m s = (Return r, s') ->
         Forall is_news_record r
         \/ (Forall is_web_record r
             /\ (count_ev is_ddgs_news (trace s) + 5
                 <= count_ev is_ddgs_news (trace s'))%nat))
  /\ (clients_build w ->
      (exists r s', search w q m s = (Return r, s'))
      /\ (exists r s', news_search w q m s = (Return r, s'))).
Proof.
  split; [|split].
  - intros r s' Hrun. apply (search_web w q m s r s' Hrun).
  - intros r s' Hrun. rewrite news_search_unfold in Hrun.
    set (s0 := log (Call_news_search q m) s) in Hrun.
    destruct (news_attempts_frame w q (clamp m) (Py.range 5) None s0)
      as (s1 & evs & _ & _ & Htr & _ & _ & _ & Hout & _).
    destruct Hout
      as [(k & items & _ & Hok) | [[Hgen Hn] | (e' & k & Hr & _)]].
    + rewrite Hok in Hrun. injection Hrun as <- _.
      left. apply Forall_forall. intros x Hx. apply list_elem_of_In in Hx.
      apply in_map_iff in Hx. destruct Hx as (y & <- & _).
      split; discriminate.
    + destruct (search_frame w (q ++ " news")%string (clamp m) s1)
        as (out & s2 & evs2 & Hs & _ & Htr2 & _).
      rewrite Hgen, Hs in Hrun. right.
      assert (Hcount : (count_ev is_ddgs_news (trace s) + 5
                        <= count_ev is_ddgs_news (trace s2))%nat).
      { rewrite Htr2, Htr. subst s0. simpl.
        rewrite !count_ev_app, Hn. simpl. lia. }
      destruct out as [r2|e2]; simpl in Hrun; injection Hrun as <- <-.
      * split; [apply (search_web w _ _ s1 r2 s2 Hs)|exact Hcount].
      * split; [constructor|exact Hcount].
    + rewrite Hr in Hrun. discriminate.
  - intros Hb. split.
    + destruct (search_spec w q m s Hb) as (r & s' & evs & Hrun & _).
      exists r, s'. exact Hrun.
    + destruct (news_search_spec w q m s Hb) as (r & s' & evs & Hrun & _).
      exists r, s'. exact Hrun.
Qed.

Lemma news_records_all_or_nothing_witness :
  exists r s',
    news_search world_flaky "ai" 5 (unconfigured "auto") = (Return r, s')
    /\ Forall is_web_record r
    /\ (5 <= count_ev is_ddgs_news (trace s'))%nat.
Proof.
  destruct (news_records_all_or_nothing
              world_flaky "ai" 5 (unconfigured "auto"))
    as (_ & Hnews & Htotal).
  destruct (Htotal ltac:(intros k; reflexivity))
    as (_ & r & s' & Hrun).
  exists r, s'. split; [exact Hrun|].
  destruct (Hnews r s' Hrun) as [Hn | [Hweb Hcount]].
  - assert (Hr : r = fst (match fst (news_search world_flaky "ai" 5
                                                 (unconfigured "auto")) with
                          | Return x => (x, tt)
                          | Raise _ => ([], tt)
                          end)).
    { rewrite Hrun. reflexivity. }
    vm_compute in Hr. subst r.
    apply Forall_inv in Hn. destruct Hn as [Hdate _].
    exfalso. apply Hdate. reflexivity.
  - split; [exact Hweb|exact Hcount].
Defined.

(** ** Changing the preferred engine *)

(** X12: [set_search_engine] stores the name in lower case and changes
    nothing else.  A following [search] uses the fallback client alone when
    the name is [duckduckgo] in any letter case; for every other name, known
    or not, it tries the primary client first when the credentials are
    configured and the fallback client otherwise or on an empty answer. *)
Theorem set_search_engine_then_search (w : World) (e q : string) (m : Z)
        (s : State) :
  let s1 := snd (set_search_engine e s) in
  set_search_engine e s = (Return tt, s1)
  /\ preferred_engine (engine s1) = Py.lower e
  /\ google_api_key (engine s1) = google_api_key (engine s)
  /\ google_cse_id (engine s1) = google_cse_id (engine s)
  /\ _backend_idx (engine s1) = _backend_idx (engine s)
  /\ ddgs (engine s1) = ddgs (engine s)
  /\ research_history (agent s1) = research_history (agent s)
  /\ heap s1 = heap s /\ trace s1 = trace s
  /\ (Py.lower e = "duckduckgo" ->
      search w q m s1 = _search_duckduckgo w q m s1)
  /\ (Py.lower e <> "duckduckgo" ->
      search w q m s1
      = if Py.truthy_str (google_api_key (engine s))
           && Py.truthy_str (google_cse_id (engine s))
        then match _search_google w q m s1 with
             | (Return g, s2) =>
                 if Py.truthy_list g then (Return g, s2)
                 else _search_duckduckgo w q m s2
             | (Raise x, s2) => (Raise x, s2)
             end
        else _search_duckduckgo w q m s1).
Proof.
  cbv zeta. unfold set_search_engine, set_preferred_engine, modify.
  cbn [snd]. repeat (split; [reflexivity|]).
  set (s1 := set_engine (set_preferred (Py.lower e) (engine s)) s).
  assert (Hp : preferred_engine (engine s1) = Py.lower e) by reflexivity.
  split.
  - intros Hddg. apply search_forced_duckduckgo. rewrite Hp. exact Hddg.
  - intros Hne. unfold search, bind at 1, get. rewrite Hp.
    change (google_api_key (engine s1)) with (google_api_key (engine s)).
    change (google_cse_id (engine s1)) with (google_cse_id (engine s)).
    destruct (String.eqb_spec (Py.lower e) "duckduckgo") as [|_];
      [contradiction|].
    destruct (String.eqb (Py.lower e) "google");
      destruct (Py.truthy_str (google_api_key (engine s))
                && Py.truthy_str (google_cse_id (engine s)));
      try reflexivity;
      unfold bind;
      destruct (_search_google w q m s1) as [[g|x] s2]; try reflexivity;
      destruct (Py.truthy_list g); reflexivity.
Qed.

Lemma set_search_engine_then_search_witness :
  search world_flaky "ai" 5
         (snd (set_search_engine "DuckDuckGo" (configured "google")))
  = _search_duckduckgo
      world_flaky "ai" 5
      (snd (set_search_engine "DuckDuckGo" (configured "google")))
  /\ search world_flaky "ai" 5
            (snd (set_search_engine kelvin_name (configured "google")))
     = _search_duckduckgo
         world_flaky "ai" 5
         (snd (set_search_engine kelvin_name (configured "google")))
  /\ preferred_engine
       (engine (snd (set_search_engine "Bing" (configured "google"))))
     = "bing".
Proof.
  split; [|split].
  - destruct (set_search_engine_then_search
                world_flaky "DuckDuckGo" "ai" 5 (configured "google"))
      as (_ & _ & _ & _ & _ & _ & _ & _ & _ & H & _).
    apply H. reflexivity.
  - destruct (set_search_engine_then_search
                world_flaky kelvin_name "ai" 5 (configured "google"))
      as (_ & _ & _ & _ & _ & _ & _ & _ & _ & H & _).
    apply H. vm_compute. reflexivity.
  - destruct (set_search_engine_then_search
                world_flaky "Bing" "ai" 5 (configured "google"))
      as (_ & H & _).
    exact H.
Defined.

(** ** Time a news search spends sleeping *)

Lemma news_attempts_cons w q m a rest last s :
  news_attempts w q m (a :: rest) last s
  = match news_attempt w q m a s with
    | (Return (inl results), s') => (Return results, s')
    | (Return (inr e), s') => news_attempts w q m rest (Some e) s'
    | (Raise e, s') => (Raise e, s')
    end.
Proof.
  simpl. unfold bind.
  destruct (news_attempt w q m a s) as [[[?|?]|?] ?]; reflexivity.
Qed.

Lemma news_handler_sleep w a e s :
  jitter_bounded w ->
  (count_ev is_sleep (news_handler_events w a e s)
   <= if (a <? 4)%Z then 1 else 0)%nat
  /\ (total_sleep (news_handler_events w a e s) <= sleep_budget a)%Q.
Proof.
  intros Hj. unfold news_handler_events, sleep_budget.
  destruct (Hj (count_ev is_uniform (trace s))) as [_ Hhi].
  destruct (a <? 4), (rate_limited e); simpl;
    (split; [lia|]); try discriminate;
    rewrite Qplus_0_r; unfold sleep_time; apply Q.max_le_compat_l;
    (apply Qplus_le_compat; [apply Qle_refl|exact Hhi]).
Qed.

(** The news loop up to its exit: it sleeps at most once per attempt
    before the last and within the budget of the attempts, then either is
    left, by [return] or by an exception of the constructor, or hands over
    to the generic search, whose exception it catches. *)
Lemma news_attempts_sleeps w q m :
  jitter_bounded w ->
  forall attempts last s,
    exists s1 evs,
      trace s1 = trace s ++ evs
      /\ (count_ev is_sleep evs
          <= length (List.filter (fun a => (a <? 4)%Z) attempts))%nat
      /\ (total_sleep evs <= sleep_budget_sum attempts)%Q
      /\ ((exists o, news_attempts w q m attempts last s = (o, s1))
          \/ news_attempts w q m attempts last s
             = or_empty (search w (q ++ " news")%string m s1)).
Proof.
  intros Hj attempts.
  induction attempts as [|a rest IH]; intros last s.
  - exists (log (logging_error last) s), [logging_error last].
    split; [reflexivity|]. split; [simpl; lia|]. split; [discriminate|].
    right. simpl.
    unfold bind at 1, emit, modify, try_except, bind, ret, or_empty.
    destruct (search w (q ++ " news")%string m
                     (log (logging_error last) s)) as [[r|e] s'];
      reflexivity.
  - rewrite news_attempts_cons.
    pose proof (news_attempt_cases w q m a s) as Hstep. cbv zeta in Hstep.
    destruct (w_news w (count_ev is_ddgs_news (trace s)) q m)
      as [items|e].
    + rewrite Hstep. exists (log (ddgs_news q m) s), [ddgs_news q m].
      split; [reflexivity|]. split; [simpl; lia|].
      split; [simpl total_sleep; apply sleep_budget_sum_nonneg|].
      left. eexists. reflexivity.
    + destruct Hstep
        as (out & s0 & hevs & Hrun & _ & _ & Htr0
            & [(-> & ->) | ((e' & k & -> & _) & _ & Hmk)]);
        rewrite Hrun.
      * destruct (news_handler_sleep w a e s Hj) as [Hc Ht].
        destruct (IH (Some e) s0) as (s1 & evs & Htr & Hcnt & Htot & Hout).
        exists s1, (ddgs_news q m :: news_handler_events w a e s ++ evs).
        split; [rewrite Htr, Htr0, <- app_assoc; reflexivity|].
        split.
        { simpl. rewrite count_ev_app. destruct (a <? 4); simpl; lia. }
        split; [|exact Hout].
        simpl total_sleep. rewrite total_sleep_app. simpl sleep_budget_sum.
        apply Qplus_le_compat; assumption.
      * destruct (make_events_quiet hevs Hmk) as (Hq1 & Hq2 & _).
        exists s0, (ddgs_news q m :: hevs).
        split; [exact Htr0|].
        split; [simpl; rewrite Hq1; lia|].
        split; [simpl total_sleep; rewrite Hq2;
                apply sleep_budget_sum_nonneg|].
        left. eexists. reflexivity.
Qed.

(** X13: with the jitter within its bounds, one call of [news_search]
    sleeps at most eight times and at most 34 seconds in all: up to four
    backoffs of the news loop and up to four sleeps of the generic search
    it falls back to. *)
Theorem news_search_sleep_budget (w : World) (q : string) (m : Z)
        (s : State) :
  jitter_bounded w ->
  exists evs,
    trace (snd (news_search w q m s)) = trace s ++ evs
    /\ (count_ev is_sleep evs <= 8)%nat
    /\ (total_sleep evs <= 34)%Q.
Proof.
  intros Hj. rewrite news_search_unfold.
  change (Py.range 5) with [0; 1; 2; 3; 4].
  set (s0 := log (Call_news_search q m) s).
  destruct (news_attempts_sleeps w q (clamp m) Hj [0; 1; 2; 3; 4] None s0)
    as (s1 & evs & Htr & Hcnt & Htot & Hout).
  assert (Hbudget : (sleep_budget_sum [0; 1; 2; 3; 4]%Z <= 17)%Q)
    by (vm_compute; discriminate).
  simpl in Hcnt.
  destruct Hout as [[r Hrun] | Hrun]; rewrite Hrun; rewrite ?snd_or_empty.
  - exists (Call_news_search q m :: evs).
    split; [simpl; rewrite Htr; subst s0; simpl; rewrite <- app_assoc;
            reflexivity|].
    split; [simpl; lia|]. simpl total_sleep.
    apply Qle_trans with 17%Q; [|discriminate].
    eapply Qle_trans; [exact Htot|exact Hbudget].
  - destruct (search_sleeps w (q ++ " news")%string (clamp m) s1 Hj)
      as (evs2 & Htr2 & Hcnt2 & Htot2).
    exists ((Call_news_search q m :: evs) ++ evs2).
    split.
    { rewrite Htr2, Htr. subst s0. simpl. rewrite <- !app_assoc.
      reflexivity. }
    split; [rewrite count_ev_app; simpl; lia|].
    rewrite total_sleep_app. simpl total_sleep.
    apply Qle_trans with (17 + 17)%Q; [|discriminate].
    apply Qplus_le_compat; [|exact Htot2].
    eapply Qle_trans; [exact Htot|exact Hbudget].
Qed.

Lemma news_search_sleep_budget_witness :
  exists evs,
    trace (snd (news_search world_down "ai" 5 (unconfigured "auto")))
    = trace (unconfigured "auto") ++ evs
    /\ (count_ev is_sleep evs <= 8)%nat
    /\ (total_sleep evs <= 34)%Q.
Proof.
  apply (news_search_sleep_budget world_down "ai" 5 (unconfigured "auto")).
  intros k. split; vm_compute; discriminate.
Defined.

(** ** Fetch sizes of the three clients *)

Lemma news_search_requests w q m s :
  exists evs,
    trace (snd (news_search w q m s)) = trace s ++ evs
    /\ Forall (fun e => forall q' m',
                   e = ddgs_news q' m' -> q' = q /\ m' = clamp m) evs.
Proof.
  rewrite news_search_unfold.
  set (s0 := log (Call_news_search q m) s).
  destruct (news_attempts_frame w q (clamp m) (Py.range 5) None s0)
    as (s1 & evs & _ & _ & Htr & _ & _ & Hreq & Hout & _).
  assert (Htr0 : trace s1 = trace s ++ Call_news_search q m :: evs).
  { rewrite Htr. subst s0. simpl. rewrite <- app_assoc. reflexivity. }
  assert (Hreq0 : Forall (fun e => forall q' m',
                              e = ddgs_news q' m' -> q' = q /\ m' = clamp m)
                         (Call_news_search q m :: evs)).
  { constructor; [intros q' m' Heq; discriminate|exact Hreq]. }
  destruct Hout as [(k & items & _ & Hrun) | [[Hgen _] | (e' & k & Hr & _)]].
  - exists (Call_news_search q m :: evs). rewrite Hrun.
    split; [exact Htr0|exact Hreq0].
  - destruct (search_frame w (q ++ " news")%string (clamp m) s1)
      as (out & s2 & evs2 & Hs & _ & Htr2 & Hev2 & _).
    exists ((Call_news_search q m :: evs) ++ evs2).
    rewrite Hgen, snd_or_empty, Hs.
    split; [simpl; rewrite Htr2, Htr0, <- app_assoc; reflexivity|].
    apply Forall_app. split; [exact Hreq0|].
    eapply Forall_impl; [exact Hev2|].
    intros e He q' m' ->. discriminate.
  - exists (Call_news_search q m :: evs). rewrite Hr.
    split; [exact Htr0|exact Hreq0].
Qed.

(** X23: how many records a fetch returns.  When the fallback backend
    answers with no more hits than it is asked for, the fallback client and
    the news client return at most [clamp max_results] records, so at most
    20; every request of the fallback client asks for [clamp max_results],
    and so does every news request of the news client; the primary client
    returns at most [max_results] records without clamping (from at most
    three requests); hence for [max_results] in [1, 20] the generic search
    and the news search return at most [max_results] records in every
    mode. *)
Theorem fetch_size_bounds (w : World) (q : string) (m : Z) (s : State) :
  honours_max_results w ->
  (forall r s', _search_google w q m s = (Return r, s') ->
                Py.len r <= Z.max 0 m
                /\ (count_ev is_requests_get (trace s')
                    <= count_ev is_requests_get (trace s) + 3)%nat)
  /\ (forall r s', _search_duckduckgo w q m s = (Return r, s') ->
                   Py.len r <= clamp m /\ clamp m <= 20)
  /\ (exists evs,
         trace (snd (_search_duckduckgo w q m s))
         = trace s ++ Call_search_duckduckgo q m :: evs
         /\ Forall (fun e => forall q' m' b,
                        e = ddgs_text q' m' b -> m' = clamp m) evs)
  /\ (forall r s', news_search w q m s = (Return r, s') ->
                   Py.len r <= clamp m /\ clamp m <= 20)
  /\ (exists evs,
         trace (snd (news_search w q m s)) = trace s ++ evs
         /\ Forall (fun e => forall q' m',
                        e = ddgs_news q' m' -> q' = q /\ m' = clamp m) evs)
  /\ (1 <= m <= 20 ->
      (forall r s', search w q m s = (Return r, s') -> Py.len r <= m)
      /\ (forall r s', news_search w q m s = (Return r, s') ->
                       Py.len r <= m)).
Proof.
  intros [Htext Hnews].
  pose proof (clamp_bounds m) as Hcl.
  assert (Hddg : forall r s', _search_duckduckgo w q m s = (Return r, s') ->
                              Py.len r <= clamp m /\ clamp m <= 20).
  { intros r s' Hrun.
    destruct (search_duckduckgo_frame w q m s)
      as (out & s0 & evs & Hrun0 & _ & _ & _ & _ & _ & _ & Hout).
    rewrite Hrun in Hrun0. injection Hrun0 as <- _.
    destruct Hout as [Hres _].
    split; [|lia].
    destruct Hres as [-> | (k & b & items & Hw & ->)].
    - change (Py.len (@nil SearchRecord)) with 0. lia.
    - rewrite len_map. pose proof (Htext _ _ _ _ _ Hw). lia. }
  assert (Hnw : forall r s', news_search w q m s = (Return r, s') ->
                             Py.len r <= clamp m /\ clamp m <= 20).
  { intros r s' Hrun.
    pose proof (news_search_result w q m s r s' Hrun) as Hres.
    split; [|lia].
    destruct Hres as [(k & items & Hw & ->)
                     | [[_ Hle] | [-> | (k & b & items & Hw & ->)]]].
    - rewrite len_map. pose proof (Hnews _ _ _ _ Hw). lia.
    - exact Hle.
    - change (Py.len (@nil SearchRecord)) with 0. lia.
    - rewrite len_map. rewrite (clamp_id (clamp m)) in Hw by lia.
      pose proof (Htext _ _ _ _ _ Hw). lia. }
  split.
  { intros r s' Hrun.
    destruct (search_google_spec w q m s)
      as (g & s0 & evs & Hrun0 & _ & _ & Htr & Hev & Hlen3 & Hlen & _).
    rewrite Hrun in Hrun0. injection Hrun0 as <- <-.
    split; [exact Hlen|].
    rewrite Htr, count_ev_app. simpl.
    pose proof (count_ev_le_length is_requests_get evs). lia. }
  split; [exact Hddg|].
  split.
  { destruct (search_duckduckgo_frame w q m s)
      as (out & s0 & evs & Hrun0 & _ & Htr & _ & _ & Hreq & _).
    exists evs. rewrite Hrun0. split; [exact Htr|].
    eapply Forall_impl; [exact Hreq|].
    intros e He q' m' b Heq. apply (He q' m' b Heq). }
  split; [exact Hnw|].
  split; [apply news_search_requests|].
  intros Hm. split.
  - intros r s' Hrun.
    destruct (search_frame w q m s)
      as (out & s0 & evs & Hrun0 & _ & _ & _ & _ & _ & Hout).
    rewrite Hrun in Hrun0. injection Hrun0 as <- _.
    destruct Hout as [Hres _].
    destruct Hres as [[_ Hle] | [-> | (k & b & items & Hw & ->)]].
    + exact Hle.
    + change (Py.len (@nil SearchRecord)) with 0. lia.
    + rewrite len_map. rewrite (clamp_id m Hm) in Hw.
      pose proof (Htext _ _ _ _ _ Hw). lia.
  - intros r s' Hrun. destruct (Hnw r s' Hrun) as [Hle _].
    rewrite (clamp_id m Hm) in Hle. exact Hle.
Qed.

Lemma fetch_size_bounds_witness :
  (forall r s', search world_flaky "ai" 5 (unconfigured "auto")
                = (Return r, s') -> Py.len r <= 5)
  /\ (forall r s', _search_duckduckgo world_flaky "ai" 50
                                      (unconfigured "auto")
                   = (Return r, s') -> Py.len r <= 20).
Proof.
  split.
  - destruct (fetch_size_bounds world_flaky "ai" 5 (unconfigured "auto")
                                world_flaky_honours)
      as (_ & _ & _ & _ & _ & Hm).
    destruct (Hm ltac:(lia)) as [Hs _]. exact Hs.
  - destruct (fetch_size_bounds world_flaky "ai" 50 (unconfigured "auto")
                                world_flaky_honours)
      as (_ & Hd & _).
    intros r s' Hrun. destruct (Hd r s' Hrun) as [Hle _].
    exact Hle.
Defined.

(** ** The chat bot's user data *)

Lemma set_missing_lookup items : forall (ud : gmap string Bot.Value) k,
  Bot.set_missing items ud !! k
  = match ud !! k with
    | Some v => Some v
    | None =>
        match List.find (fun kv => String.eqb (fst kv) k) items with
        | Some kv => Some (snd kv)
        | None => None
        end
    end.
Proof.
  induction items as [|[key value] rest IH]; intros ud k; simpl.
  - destruct (ud !! k); reflexivity.
  - rewrite IH. destruct (String.eqb_spec key k) as [->|Hne].
    + destruct (ud !! k) as [v|] eqn:Hk; [rewrite Hk; reflexivity|].
      rewrite lookup_insert_eq. reflexivity.
    + destruct (ud !! key) as [v|] eqn:Hkey; [reflexivity|].
      rewrite lookup_insert_ne by exact Hne. reflexivity.
Qed.

(** X14: [init_user_data] fills in what is missing and nothing else: a key
    that is set keeps its value; [mode], [search_engine] and [page] are set
    afterwards, to ['standard'], ['auto'] and [0] where they were missing;
    every other key is as it was; and running it again changes nothing. *)
Theorem init_user_data_fills_missing (ud : gmap string Bot.Value) :
  (forall k v, ud !! k = Some v -> Bot.init_user_data ud !! k = Some v)
  /\ (ud !! "mode" = None ->
      Bot.init_user_data ud !! "mode" = Some (Bot.VStr "standard"))
  /\ (ud !! "search_engine" = None ->
      Bot.init_user_data ud !! "search_engine" = Some (Bot.VStr "auto"))
  /\ (ud !! "page" = None ->
      Bot.init_user_data ud !! "page" = Some (Bot.VInt 0))
  /\ (forall k, k <> "mode" -> k <> "search_engine" -> k <> "page" ->
                Bot.init_user_data ud !! k = ud !! k)
  /\ Bot.init_user_data (Bot.init_user_data ud) = Bot.init_user_data ud.
Proof.
  unfold Bot.init_user_data.
  split.
  { intros k v Hk. rewrite set_missing_lookup, Hk. reflexivity. }
  split.
  { intros Hk. rewrite set_missing_lookup, Hk. reflexivity. }
  split.
  { intros Hk. rewrite set_missing_lookup, Hk. reflexivity. }
  split.
  { intros Hk. rewrite set_missing_lookup, Hk. reflexivity. }
  split.
  { intros k H1 H2 H3. rewrite set_missing_lookup.
    destruct (ud !! k); [reflexivity|].
    unfold Bot.defaults. cbn [List.find fst snd].
    destruct (String.eqb_spec "mode" k) as [<-|_]; [contradiction|].
    destruct (String.eqb_spec "search_engine" k) as [<-|_]; [contradiction|].
    destruct (String.eqb_spec "page" k) as [<-|_]; [contradiction|].
    reflexivity. }
  apply map_eq. intros k. rewrite (set_missing_lookup _ (Bot.set_missing _ _)).
  destruct (Bot.set_missing Bot.defaults ud !! k) as [v|] eqn:Hk;
    [reflexivity|].
  rewrite set_missing_lookup in Hk.
  destruct (ud !! k); [discriminate|]. exact Hk.
Qed.

Lemma init_user_data_fills_missing_witness :
  Bot.init_user_data (<["mode" := Bot.VStr "news"]> ∅) !! "mode"
  = Some (Bot.VStr "news")
  /\ Bot.init_user_data (<["mode" := Bot.VStr "news"]> ∅) !! "page"
     = Some (Bot.VInt 0).
Proof.
  destruct (init_user_data_fills_missing (<["mode" := Bot.VStr "news"]> ∅))
    as (Hkeep & _ & _ & Hpage & _).
  split.
  - apply Hkeep. reflexivity.
  - apply Hpage. reflexivity.
Defined.

(** X15: the defaults of [get_user_defaults] are those of
    [init_user_data]: initialising the user data does not change what
    [get_user_defaults] answers, and afterwards its answer is what is
    stored. *)
Theorem get_user_defaults_after_init (ud : gmap string Bot.Value) :
  Bot.get_user_defaults (Bot.init_user_data ud) = Bot.get_user_defaults ud
  /\ Bot.init_user_data ud !! "mode"
     = Some (fst (Bot.get_user_defaults ud))
  /\ Bot.init_user_data ud !! "search_engine"
     = Some (snd (Bot.get_user_defaults ud)).
Proof.
  unfold Bot.get_user_defaults, Bot.init_user_data.
  rewrite !set_missing_lookup. simpl.
  destruct (ud !! "mode"), (ud !! "search_engine"); repeat split.
Qed.

(** ** The chat bot's keyboards *)

(** X16: the keyboard under a page of results offers the previous page
    exactly from the second page on and the next page exactly when the
    entry says [has_more]; it always offers a new search, and the row of
    page buttons is there when either page button is. *)
Theorem results_keyboard_navigation (mode : string) (page : Z)
        (has_more : bool) (engine context : string) :
  context <> "main" -> context <> "choose_mode" -> context <> "settings" ->
  let k := Keyboard.build_keyboard mode page has_more engine context in
  Keyboard.sends "page_prev" k = (0 <? page)
  /\ Keyboard.sends "page_next" k = has_more
  /\ Keyboard.sends "back_to_main" k = true
  /\ length k = (if (0 <? page)%Z || has_more then 2 else 1)%nat.
Proof.
  intros H1 H2 H3. unfold Keyboard.build_keyboard.
  destruct (String.eqb_spec context "main") as [|_]; [contradiction|].
  destruct (String.eqb_spec context "choose_mode") as [|_]; [contradiction|].
  destruct (String.eqb_spec context "settings") as [|_]; [contradiction|].
  destruct (0 <? page), has_more; repeat split.
Qed.

Lemma results_keyboard_navigation_witness :
  Keyboard.sends "page_prev"
    (Keyboard.build_keyboard "standard" 0 true "auto" "results") = false
  /\ Keyboard.sends "page_next"
       (Keyboard.build_keyboard "standard" 0 true "auto" "results") = true.
Proof.
  destruct (results_keyboard_navigation "standard" 0 true "auto" "results")
    as (Hprev & Hnext & _); try discriminate.
  split; [exact Hprev | exact Hnext].
Defined.

(** X17: whatever the mode, the page, the engine and the context, every
    button of a keyboard sends data that [button_callback] recognises. *)
Theorem keyboard_buttons_are_handled (mode : string) (page : Z)
        (has_more : bool) (engine context : string) :
  Forall (fun b => Keyboard.handled (Keyboard.callback_data b) = true)
         (concat (Keyboard.build_keyboard mode page has_more engine context)).
Proof.
  unfold Keyboard.build_keyboard.
  destruct (String.eqb context "main"); [repeat constructor|].
  destruct (String.eqb context "choose_mode"); [repeat constructor|].
  destruct (String.eqb context "settings"); [repeat constructor|].
  destruct (0 <? page), has_more; repeat constructor.
Qed.

(** ** The web scraper in full *)

Lemma length_lstrip {C} (isspace : C -> bool) (t : list C) :
  (length (lstrip C isspace t) <= length t)%nat.
Proof.
  induction t as [|c r IH]; simpl; [lia|].
  destruct (isspace c); simpl; lia.
Qed.

Lemma len_strip {C} (isspace : C -> bool) (t : list C) :
  Py.len (strip C isspace t) <= Py.len t.
Proof.
  unfold strip, rstrip, Py.len.
  pose proof (length_lstrip isspace (rev (lstrip C isspace t))) as H1.
  pose proof (length_lstrip isspace t) as H2.
  rewrite length_rev in *. lia.
Qed.

Lemma len_slice_text {A} (t : list A) :
  50 <= Py.len t -> 50 <= Py.len (Py.slice t 0 10000) <= 10000.
Proof.
  intros H. rewrite len_slice by lia. lia.
Qed.

(** The shape that every answer of the scraper has. *)
Lemma scrape_failure_shape {C} (target msg : string) :
  let d : gmap string (ScrapeValue C) :=
    <["url" := SStr target]>
      (<["error" := SStr msg]> (<["success" := SBool false]> ∅)) in
  d !! "url" = Some (SStr target)
  /\ d !! "success" = Some (SBool false)
  /\ d !! "text" = None
  /\ d !! "error" = Some (SStr msg).
Proof.
  repeat split; reflexivity.
Qed.

Lemma scrape_basic_shape {C} (isspace : C -> bool) (space : C)
      (web : Web C) (target : string) (d : gmap string (ScrapeValue C)) :
  scrape_basic C isspace space web target = Return d ->
  d !! "url" = Some (SStr target)
  /\ d !! "success" = Some (SBool true)
  /\ d !! "error" = None
  /\ d !! "title" <> None
  /\ exists t, d !! "text" = Some (SText t) /\ 50 <= Py.len t <= 10000.
Proof.
  unfold scrape_basic.
  destruct (web_get C web target) as [page|e]; [|discriminate].
  destruct ((400 <=? page_status C page) && (page_status C page <? 600));
    [discriminate|].
  destruct (page_soup C page) as [soup|e]; [|discriminate].
  cbv zeta.
  destruct (Py.len (strip C isspace
                      (join C space (split_ws C isspace (soup_text C soup) [])))
            <? 50) eqn:Hlen; [discriminate|].
  apply Z.ltb_ge in Hlen.
  pose proof (len_strip isspace
                (join C space (split_ws C isspace (soup_text C soup) [])))
    as Hs.
  intros [= <-].
  split; [reflexivity|]. split; [reflexivity|]. split; [reflexivity|].
  split; [destruct (soup_title C soup) as [[?|]|]; discriminate|].
  eexists. split; [reflexivity|]. apply len_slice_text. lia.
Qed.

Lemma scrape_article_shape {C} (isspace : C -> bool)
      (web : Web C) (target : string) (d : gmap string (ScrapeValue C)) :
  scrape_article C isspace web target = Return d ->
  d !! "url" = Some (SStr target)
  /\ d !! "success" = Some (SBool true)
  /\ d !! "error" = None
  /\ d !! "title" <> None
  /\ exists t, d !! "text" = Some (SText t) /\ 50 <= Py.len t <= 10000.
Proof.
  unfold scrape_article.
  destruct (web_article C web target) as [article|e]; [|discriminate].
  destruct (negb (Py.truthy_list (article_text C article))
            || (Py.len (strip C isspace (article_text C article)) <? 50))
    eqn:Hshort; [discriminate|].
  apply orb_false_iff in Hshort. destruct Hshort as [_ Hlen].
  apply Z.ltb_ge in Hlen.
  pose proof (len_strip isspace (article_text C article)) as Hs.
  intros [= <-].
  split; [reflexivity|]. split; [reflexivity|]. split; [reflexivity|].
  split; [destruct (article_title C article); discriminate|].
  eexists. split; [reflexivity|]. apply len_slice_text. lia.
Qed.

(** X18: [WebScraper.scrape_url] never raises: whatever the libraries do,
    it returns a dictionary with the URL it was given and a [success]
    flag.  A successful scrape has a [title] entry, a [text] of 50 to
    10000 characters and no [error]; a failed one has an [error] text and
    no [text]. *)
Theorem scrape_url_result_shape {C} (isspace : C -> bool) (space : C)
        (web : Web C) (target : string) :
  exists d : gmap string (ScrapeValue C),
    WebScraper_scrape_url C isspace space web target = Return d
    /\ d !! "url" = Some (SStr target)
    /\ ((d !! "success" = Some (SBool true)
         /\ d !! "error" = None
         /\ d !! "title" <> None
         /\ exists t,
              d !! "text" = Some (SText t) /\ 50 <= Py.len t <= 10000)
        \/ (d !! "success" = Some (SBool false)
            /\ d !! "text" = None
            /\ exists msg, d !! "error" = Some (SStr msg))).
Proof.
  unfold WebScraper_scrape_url.
  assert (Hfail : forall msg,
             exists d : gmap string (ScrapeValue C),
               Return (<["url" := SStr target]>
                       (<["error" := SStr msg]>
                        (<["success" := @SBool C false]> ∅))) = Return d
               /\ d !! "url" = Some (SStr target)
               /\ ((d !! "success" = Some (SBool true)
                    /\ d !! "error" = None
                    /\ d !! "title" <> None
                    /\ exists t,
                         d !! "text" = Some (SText t)
                         /\ 50 <= Py.len t <= 10000)
                   \/ (d !! "success" = Some (SBool false)
                       /\ d !! "text" = None
                       /\ exists msg, d !! "error" = Some (SStr msg)))).
  { intros msg. eexists. split; [reflexivity|].
    destruct (@scrape_failure_shape C target msg) as (Hu & Hs & Ht & He).
    split; [exact Hu|]. right. split; [exact Hs|]. split; [exact Ht|].
    exists msg. exact He. }
  destruct (String.eqb target ""
            || negb (Py.startswith target "http://"
                     || Py.startswith target "https://")); [apply Hfail|].
  destruct (scrape_article C isspace web target) as [d|e1] eqn:Ha.
  - exists d. split; [reflexivity|].
    destruct (scrape_article_shape isspace web target d Ha)
      as (Hu & Hs & He & Ht & Hx).
    split; [exact Hu|]. left. auto.
  - destruct (scrape_basic C isspace space web target) as [d|e2] eqn:Hb.
    + exists d. split; [reflexivity|].
      destruct (scrape_basic_shape isspace space web target d Hb)
        as (Hu & Hs & He & Ht & Hx).
      split; [exact Hu|]. left. auto.
    + apply Hfail.
Qed.


Lemma single_spaced_weaken {C} (isspace : C -> bool) (t : list C) (b : bool) :
  single_spaced isspace true t = true -> single_spaced isspace b t = true.
Proof.
  destruct t as [|c r]; simpl; [reflexivity|].
  destruct b; [tauto|]. rewrite !andb_true_iff. simpl. tauto.
Qed.

Lemma single_spaced_word {C} (isspace : C -> bool) (w r : list C) (b : bool) :
  Forall (fun c => isspace c = false) w ->
  single_spaced isspace b (w ++ r)
  = single_spaced isspace (match w with [] => b | _ => false end) r.
Proof.
  intros Hw. revert b. induction Hw as [|c w Hc Hw IH]; intros b; simpl.
  - reflexivity.
  - rewrite Hc, andb_false_r. simpl. rewrite IH. destruct w; reflexivity.
Qed.

Lemma single_spaced_take {C} (isspace : C -> bool) (n : nat) :
  forall (t : list C) (b : bool),
    single_spaced isspace b t = true ->
    single_spaced isspace b (take n t) = true.
Proof.
  induction n as [|n IH]; intros [|c r] b H; simpl in *; try reflexivity.
  apply andb_true_iff in H. destruct H as [H1 H2].
  rewrite H1. simpl. apply IH, H2.
Qed.

Lemma split_ws_words {C} (isspace : C -> bool) (t : list C) :
  forall word,
    Forall (fun c => isspace c = false) word ->
    Forall (fun w => w <> [] /\ Forall (fun c => isspace c = false) w)
           (split_ws C isspace t word).
Proof.
  induction t as [|c r IH]; intros word Hword; simpl.
  - destruct word as [|x word']; constructor; [|constructor].
    split.
    + intros Hnil. apply (f_equal (@length C)) in Hnil.
      rewrite length_rev in Hnil. discriminate.
    + apply Forall_rev, Hword.
  - destruct (isspace c) eqn:Hc.
    + destruct word as [|x word'].
      * apply IH. constructor.
      * constructor; [|apply IH; constructor].
        split.
        -- intros Hnil. apply (f_equal (@length C)) in Hnil.
           rewrite length_rev in Hnil. discriminate.
        -- apply Forall_rev, Hword.
    + apply IH. constructor; assumption.
Qed.

Lemma join_single_spaced {C} (isspace : C -> bool) (space : C)
      (words : list (list C)) :
  Forall (fun w => w <> [] /\ Forall (fun c => isspace c = false) w) words ->
  single_spaced isspace true (join C space words) = true.
Proof.
  induction 1 as [|w ws [Hne Hw] Hws IH]; [reflexivity|].
  destruct ws as [|w' ws'].
  - simpl. rewrite <- (app_nil_r w). rewrite single_spaced_word by exact Hw.
    reflexivity.
  - change (join C space (w :: w' :: ws'))
      with (w ++ space :: join C space (w' :: ws')).
    rewrite single_spaced_word by exact Hw.
    destruct w as [|c w0]; [congruence|].
    cbn [single_spaced]. rewrite andb_false_l. cbn [negb andb].
    apply single_spaced_weaken, IH.
Qed.

(** X19: when newspaper's extraction fails and the plain download
    succeeds, the text that [scrape_url] returns has its whitespace
    cleaned up: it does not begin with whitespace and no whitespace
    character follows another. *)
Theorem scrape_url_fallback_text_clean {C} (isspace : C -> bool) (space : C)
        (web : Web C) (target : string) (e : Exn)
        (d : gmap string (ScrapeValue C)) (t : list C) :
  scrape_article C isspace web target = Raise e ->
  WebScraper_scrape_url C isspace space web target = Return d ->
  d !! "text" = Some (SText t) ->
  single_spaced isspace true t = true.
Proof.
  intros Ha Hrun Ht. unfold WebScraper_scrape_url in Hrun.
  destruct (String.eqb target ""
            || negb (Py.startswith target "http://"
                     || Py.startswith target "https://")).
  { injection Hrun as <-. discriminate Ht. }
  rewrite Ha in Hrun. unfold scrape_basic in Hrun.
  destruct (web_get C web target) as [page|e1].
  2:{ injection Hrun as <-. discriminate Ht. }
  destruct ((400 <=? page_status C page) && (page_status C page <? 600)).
  { injection Hrun as <-. discriminate Ht. }
  destruct (page_soup C page) as [soup|e2].
  2:{ injection Hrun as <-. discriminate Ht. }
  cbv zeta in Hrun.
  destruct (Py.len (strip C isspace
                      (join C space (split_ws C isspace (soup_text C soup) [])))
            <? 50).
  { injection Hrun as <-. discriminate Ht. }
  injection Hrun as <-.
  assert (Heq : t = Py.slice
                      (join C space (split_ws C isspace (soup_text C soup) []))
                      0 10000).
  { rewrite lookup_insert_ne in Ht by discriminate.
    rewrite lookup_insert_ne in Ht by discriminate.
    rewrite lookup_insert_eq in Ht. congruence. }
  subst t. unfold Py.slice.
  replace (Z.to_nat (Py.slice_index _ 0)) with 0%nat.
  2:{ unfold Py.slice_index. simpl. pose proof (len_nonneg
        (join C space (split_ws C isspace (soup_text C soup) []))). lia. }
  rewrite drop_0. apply single_spaced_take, join_single_spaced.
  apply split_ws_words. constructor.
Qed.

Lemma scrape_url_fallback_text_clean_witness :
  exists d t,
    WebScraper_scrape_url ascii is_blank " "%char web_plain "https://a.example"
    = Return d
    /\ d !! "text" = Some (SText t)
    /\ single_spaced is_blank true t = true.
Proof.
  eexists. eexists.
  split; [vm_compute; reflexivity|].
  split; [vm_compute; reflexivity|].
  eapply (scrape_url_fallback_text_clean is_blank " "%char web_plain
            "https://a.example" (OtherException "download failed")).
  - reflexivity.
  - vm_compute. reflexivity.
  - vm_compute. reflexivity.
Defined.


(** ** The chat bot's message *)

Lemma format_len_app (a b : string) :
  Format.len (a ++ b) = Format.len a + Format.len b.
Proof.
  induction a as [|c a IH]; simpl; [reflexivity|]. rewrite IH. lia.
Qed.

Lemma format_len_nonneg (s : string) : 0 <= Format.len s.
Proof.
  induction s as [|c s IH]; simpl; [lia|].
  destruct (Format.is_continuation c); lia.
Qed.

Lemma len_take_chars (n : nat) : forall s,
  Format.len (Format.take_chars n s) <= Z.of_nat n.
Proof.
  induction n as [|n IH]; intros s.
  - induction s as [|c s IHs]; simpl; [lia|].
    destruct (Format.is_continuation c) eqn:Hc; simpl; [rewrite Hc|]; lia.
  - induction s as [|c s IHs]; simpl; [lia|].
    destruct (Format.is_continuation c) eqn:Hc; simpl; rewrite Hc.
    + lia.
    + specialize (IH s). lia.
Qed.

Lemma len_rsplit_head (sep : ascii) (s : string) :
  Format.len (Format.rsplit_head sep s) <= Format.len s.
Proof.
  induction s as [|c s IH]; simpl; [lia|].
  destruct (Format.occurs sep s).
  - simpl. lia.
  - destruct (Ascii.eqb c sep); simpl; [|lia].
    pose proof (format_len_nonneg s). destruct (Format.is_continuation c); lia.
Qed.

Lemma len_slice_to (s : string) (n : Z) :
  0 <= n -> Format.len (Format.slice_to s n) <= n.
Proof.
  intros Hn. unfold Format.slice_to.
  pose proof (len_take_chars (Z.to_nat n) s) as H. lia.
Qed.

Lemma len_truncated : Format.len Format.truncated = 21.
Proof. reflexivity. Qed.

(** X20: whatever the entry holds, the message of [format_results] is at
    most 3821 characters long: 3800 and the 21 of the truncation mark. *)
Theorem format_results_length (data : ResearchData) :
  Format.len (Format.format_results data) <= 3821.
Proof.
  unfold Format.format_results, Format.fit.
  generalize (Format.join_lines (Format.parts data)). intros msg.
  destruct (Z.ltb_spec Format.MAX_MESSAGE_LEN (Format.len msg)) as [Hlong|Hfit].
  - rewrite format_len_app, len_truncated.
    pose proof (len_rsplit_head "010"
                  (Format.slice_to msg Format.MAX_MESSAGE_LEN)) as H1.
    pose proof (len_slice_to msg Format.MAX_MESSAGE_LEN) as H2.
    unfold Format.MAX_MESSAGE_LEN in *. lia.
  - unfold Format.MAX_MESSAGE_LEN in Hfit. lia.
Qed.

Lemma str_append_cons (c : ascii) (a b : string) :
  (String c a ++ b)%string = String c (a ++ b)%string.
Proof. reflexivity. Qed.

Lemma str_append_assoc (a b c : string) :
  ((a ++ b) ++ c)%string = (a ++ b ++ c)%string.
Proof.
  induction a as [|x a IH]; [reflexivity|].
  rewrite !str_append_cons, IH. reflexivity.
Qed.

Lemma take_chars_app (a b : string) : forall n,
  Format.len a <= Z.of_nat n ->
  Format.take_chars n (a ++ b)
  = (a ++ Format.take_chars (n - Z.to_nat (Format.len a)) b)%string.
Proof.
  induction a as [|c a IH]; intros n Hn.
  - simpl. rewrite Nat.sub_0_r. reflexivity.
  - pose proof (format_len_nonneg a) as Ha.
    cbn [Format.len] in *. rewrite !str_append_cons.
    cbn [Format.take_chars].
    destruct (Format.is_continuation c).
    + rewrite IH by lia. reflexivity.
    + destruct n as [|n]; [lia|].
      rewrite IH by lia.
      replace (S n - Z.to_nat (1 + Format.len a))%nat
        with (n - Z.to_nat (Format.len a))%nat by lia.
      reflexivity.
Qed.

Lemma take_chars_prefix (n : nat) : forall s,
  exists rest, s = (Format.take_chars n s ++ rest)%string.
Proof.
  induction n as [|n IH]; intros s.
  - induction s as [|c s [rest IHs]]; cbn [Format.take_chars];
      [exists ""; reflexivity|].
    destruct (Format.is_continuation c).
    + exists rest. rewrite str_append_cons, <- IHs. reflexivity.
    + exists (String c s). reflexivity.
  - induction s as [|c s [rest IHs]]; cbn [Format.take_chars];
      [exists ""; reflexivity|].
    destruct (Format.is_continuation c).
    + exists rest. rewrite str_append_cons, <- IHs. reflexivity.
    + destruct (IH s) as [rest' Hr]. exists rest'.
      rewrite str_append_cons, <- Hr. reflexivity.
Qed.

Lemma rsplit_head_split (sep : ascii) (s : string) :
  Format.occurs sep s = true ->
  exists rest, s = (Format.rsplit_head sep s ++ String sep rest)%string.
Proof.
  induction s as [|c s IH]; cbn [Format.occurs Format.rsplit_head];
    [discriminate|].
  destruct (Format.occurs sep s) eqn:Hocc.
  - intros _. destruct (IH eq_refl) as [rest Hr]. exists rest.
    rewrite str_append_cons, <- Hr. reflexivity.
  - rewrite orb_false_r. intros Hc. rewrite Hc.
    apply Ascii.eqb_eq in Hc. subst c. exists s. reflexivity.
Qed.

Lemma occurs_app (sep : ascii) (a b : string) :
  Format.occurs sep (a ++ String sep b) = true.
Proof.
  induction a as [|c a IH].
  - change ("" ++ String sep b)%string with (String sep b).
    cbn [Format.occurs]. rewrite Ascii.eqb_refl. reflexivity.
  - rewrite str_append_cons. cbn [Format.occurs]. rewrite IH. apply orb_true_r.
Qed.

Lemma rsplit_head_keeps (sep : ascii) (a b : string) :
  exists k, Format.rsplit_head sep (a ++ String sep b) = (a ++ k)%string.
Proof.
  induction a as [|c a [k IH]].
  - change ("" ++ String sep b)%string with (String sep b).
    cbn [Format.rsplit_head].
    destruct (Format.occurs sep b); [eexists; reflexivity|].
    rewrite Ascii.eqb_refl. exists "". reflexivity.
  - rewrite str_append_cons. cbn [Format.rsplit_head].
    rewrite occurs_app. exists k. rewrite IH. reflexivity.
Qed.

Lemma message_header (data : ResearchData) :
  exists tail,
    Format.join_lines (Format.parts data)
    = (Format.header ++ String "010" tail)%string.
Proof.
  unfold Format.parts. cbv zeta.
  match goal with
  | |- context [ [Format.header; ?q] ++ ?l ] =>
      change ([Format.header; q] ++ l) with (Format.header :: q :: l);
      exists (Format.join_lines (q :: l))
  end.
  reflexivity.
Qed.

(** X21: a message that is too long is cut at the end of a line, and the
    header line is never cut away: what [format_results] returns is the
    message itself when it has at most 3800 characters, and otherwise the
    header and some whole lines that follow it, and the truncation mark. *)
Theorem format_results_cut_at_line (data : ResearchData) :
  let msg := Format.join_lines (Format.parts data) in
  (Format.len msg <= 3800 -> Format.format_results data = msg)
  /\ (3800 < Format.len msg ->
      exists kept rest,
        msg = (Format.header ++ kept ++ Format.nl ++ rest)%string
        /\ Format.format_results data
           = (Format.header ++ kept ++ Format.truncated)%string).
Proof.
  intros msg. unfold Format.format_results, Format.fit. fold msg.
  destruct (message_header data) as [tail Hmsg]. fold msg in Hmsg.
  clearbody msg.
  destruct (Z.ltb_spec Format.MAX_MESSAGE_LEN (Format.len msg)) as [Hlong|Hfit];
    unfold Format.MAX_MESSAGE_LEN in *.
  2:{ split; [reflexivity|lia]. }
  split; [lia|]. intros _.
  assert (Hsl : exists t,
             Format.slice_to msg 3800
             = (Format.header ++ String "010" t)%string).
  { unfold Format.slice_to. rewrite Hmsg.
    rewrite take_chars_app by (vm_compute; discriminate).
    remember (Z.to_nat 3800 - Z.to_nat (Format.len Format.header))%nat
      as k eqn:Hk.
    vm_compute in Hk. destruct k as [|k']; [discriminate Hk|]. clear Hk.
    cbn [Format.take_chars].
    change (Format.is_continuation "010") with false. cbv iota.
    eexists. reflexivity. }
  destruct Hsl as [t Hsl].
  destruct (rsplit_head_keeps "010" Format.header t) as [kept Hkept].
  rewrite <- Hsl in Hkept.
  destruct (rsplit_head_split "010" (Format.slice_to msg 3800)) as [r1 Hr1].
  { rewrite Hsl. apply occurs_app. }
  destruct (take_chars_prefix (Z.to_nat 3800) msg) as [r2 Hr2].
  fold (Format.slice_to msg 3800) in Hr2.
  exists kept, (r1 ++ r2)%string. split.
  - rewrite Hr2 at 1. rewrite Hr1 at 1. rewrite Hkept.
    rewrite !str_append_assoc. reflexivity.
  - rewrite Hkept. rewrite str_append_assoc. reflexivity.
Qed.

Lemma format_results_cut_at_line_witness :
  3800 < Format.len (Format.join_lines (Format.parts long_entry))
  /\ exists kept rest,
       Format.join_lines (Format.parts long_entry)
       = (Format.header ++ kept ++ Format.nl ++ rest)%string
       /\ Format.format_results long_entry
          = (Format.header ++ kept ++ Format.truncated)%string.
Proof.
  split; [vm_compute; reflexivity|].
  apply (proj2 (format_results_cut_at_line long_entry)).
  vm_compute. reflexivity.
Defined.


Lemma count_char_app (c : ascii) (a b : string) :
  count_char c (a ++ b) = (count_char c a + count_char c b)%nat.
Proof.
  induction a as [|x a IH]; [reflexivity|].
  rewrite str_append_cons. cbn [count_char]. rewrite IH. lia.
Qed.

Lemma count_char_take (c : ascii) (n : nat) : forall s,
  (count_char c (Format.take_chars n s) <= count_char c s)%nat.
Proof.
  induction n as [|n IH]; intros s.
  - induction s as [|x s IHs]; cbn [Format.take_chars count_char]; [lia|].
    destruct (Format.is_continuation x); cbn [count_char]; lia.
  - induction s as [|x s IHs]; cbn [Format.take_chars count_char]; [lia|].
    destruct (Format.is_continuation x); cbn [count_char];
      [|specialize (IH s)]; lia.
Qed.

Lemma count_char_rsplit (c sep : ascii) (s : string) :
  (count_char c (Format.rsplit_head sep s) <= count_char c s)%nat.
Proof.
  induction s as [|x s IH]; cbn [Format.rsplit_head count_char]; [lia|].
  destruct (Format.occurs sep s); cbn [count_char]; [lia|].
  destruct (Ascii.eqb x sep); cbn [count_char]; lia.
Qed.

Lemma count_char_escape (c : ascii) (s : string) :
  c = "<"%char \/ c = ">"%char -> count_char c (Format.escape s) = O.
Proof.
  intros Hc. induction s as [|x s IH]; [reflexivity|].
  cbn [Format.escape]. rewrite count_char_app, IH, Nat.add_0_r.
  destruct (Ascii.eqb_spec x "&"); [destruct Hc; subst c; reflexivity|].
  destruct (Ascii.eqb_spec x "<"); [destruct Hc; subst c; reflexivity|].
  destruct (Ascii.eqb_spec x ">"); [destruct Hc; subst c; reflexivity|].
  destruct (Ascii.eqb_spec x "034"); [destruct Hc; subst c; reflexivity|].
  destruct (Ascii.eqb_spec x "'"); [destruct Hc; subst c; reflexivity|].
  cbn [count_char].
  destruct (Ascii.eqb_spec x c); [destruct Hc; congruence|reflexivity].
Qed.

Lemma count_char_uint (c : ascii) (d : Decimal.uint) :
  c = "<"%char \/ c = ">"%char ->
  count_char c (NilEmpty.string_of_uint d) = O.
Proof.
  intros Hc.
  induction d; cbn [NilEmpty.string_of_uint count_char];
    try rewrite IHd; destruct Hc; subst c; reflexivity.
Qed.

Lemma count_char_str_int (c : ascii) (z : Z) :
  c = "<"%char \/ c = ">"%char -> count_char c (Py.str_int z) = O.
Proof.
  intros Hc. unfold Py.str_int, NilZero.string_of_int.
  destruct (Z.to_int z) as [d|d].
  - unfold NilZero.string_of_uint.
    destruct d; try apply count_char_uint; try assumption.
    destruct Hc; subst c; reflexivity.
  - cbn [count_char]. unfold NilZero.string_of_uint.
    replace (if Ascii.eqb "-" c then 1 else 0)%nat with O
      by (destruct Hc; subst c; reflexivity).
    destruct d; try apply count_char_uint; try assumption.
    destruct Hc; subst c; reflexivity.
Qed.

Lemma list_sum_cons (x : nat) (l : list nat) :
  list_sum (x :: l) = (x + list_sum l)%nat.
Proof. reflexivity. Qed.

Lemma count_char_join (c : ascii) (ps : list string) :
  c = "<"%char \/ c = ">"%char ->
  count_char c (Format.join_lines ps) = list_sum (map (count_char c) ps).
Proof.
  intros Hc. induction ps as [|p ps IH]; [reflexivity|].
  destruct ps as [|p' ps'].
  - simpl. lia.
  - change (Format.join_lines (p :: p' :: ps'))
      with (p ++ Format.nl ++ Format.join_lines (p' :: ps'))%string.
    rewrite !count_char_app, IH.
    replace (count_char c Format.nl) with O
      by (destruct Hc; subst c; reflexivity).
    cbn [map]. rewrite !list_sum_cons. lia.
Qed.

Lemma count_char_analysis (c : ascii) (a : string) :
  c = "<"%char \/ c = ">"%char ->
  count_char c (Format.analysis_text a) = O.
Proof.
  intros Hc. unfold Format.analysis_text. cbv zeta.
  pose proof (count_char_escape c (Format.str_strip a) Hc) as He.
  destruct (Format.ANALYSIS_MAX_LEN <? _); [|exact He].
  rewrite count_char_app.
  pose proof (count_char_rsplit c " "
                (Format.slice_to (Format.escape (Format.str_strip a))
                                 Format.ANALYSIS_MAX_LEN)) as H1.
  pose proof (count_char_take c (Z.to_nat Format.ANALYSIS_MAX_LEN)
                (Format.escape (Format.str_strip a))) as H2.
  unfold Format.slice_to in *.
  assert (H3 : count_char c "…" = O) by (destruct Hc; subst c; reflexivity).
  lia.
Qed.

Lemma count_char_result_lines (c : ascii) (l : list (Z * SearchRecord)) :
  c = "<"%char \/ c = ">"%char ->
  list_sum (map (count_char c) (map Format.result_line l))
  = (2 * length l)%nat.
Proof.
  intros Hc. induction l as [|it l IH]; [reflexivity|].
  cbn [map length]. rewrite list_sum_cons, IH.
  unfold Format.result_line. cbv zeta.
  rewrite !count_char_app.
  rewrite (count_char_str_int c _ Hc), !(count_char_escape c _ Hc).
  destruct Hc; subst c; cbn; lia.
Qed.

Lemma count_char_message (c : ascii) (data : ResearchData) :
  c = "<"%char \/ c = ">"%char ->
  count_char c (Format.join_lines (Format.parts data)) = markup_tags data.
Proof.
  intros Hc. rewrite (count_char_join c _ Hc).
  unfold Format.parts, markup_tags. cbv zeta.
  rewrite !map_app, !list_sum_app.
  destruct (1 <? rd_page data + 1);
    destruct (Py.truthy_list (rd_search_results data));
    destruct (Py.truthy_list (rd_sources data));
    destruct (Py.truthy_str (rd_analysis data));
    destruct (Py.truthy_str (rd_error data));
    cbn [map]; rewrite ?list_sum_cons;
    rewrite ?(count_char_result_lines c _ Hc), ?length_enumerate1;
    rewrite ?count_char_app;
    rewrite ?(count_char_str_int c _ Hc), ?(count_char_escape c _ Hc),
      ?(count_char_analysis c _ Hc);
    destruct Hc; subst c; cbn; lia.
Qed.

(** X22: the texts of an entry bring no markup into the message.  The
    query, the titles, the addresses, the analysis and the error are
    escaped, so the characters [<] and [>] of the message before the length
    check are those of the tags of the templates and no more; the message
    returned has them too when it is short enough, and never more than
    those and the two of the truncation mark. *)
Theorem format_results_markup (data : ResearchData) (c : ascii) :
  c = "<"%char \/ c = ">"%char ->
  count_char c (Format.join_lines (Format.parts data)) = markup_tags data
  /\ (Format.len (Format.join_lines (Format.parts data)) <= 3800 ->
      count_char c (Format.format_results data) = markup_tags data)
  /\ (count_char c (Format.format_results data) <= markup_tags data + 2)%nat.
Proof.
  intros Hc. pose proof (count_char_message c data Hc) as Hm.
  split; [exact Hm|].
  unfold Format.format_results, Format.fit.
  revert Hm. generalize (markup_tags data).
  generalize (Format.join_lines (Format.parts data)).
  intros msg tags Hm.
  assert (H3 : count_char c Format.truncated = 2%nat)
    by (destruct Hc; subst c; reflexivity).
  pose proof (count_char_rsplit c "010"
                (Format.slice_to msg Format.MAX_MESSAGE_LEN)) as H1.
  pose proof (count_char_take c (Z.to_nat Format.MAX_MESSAGE_LEN) msg) as H2.
  fold (Format.slice_to msg Format.MAX_MESSAGE_LEN) in H2.
  destruct (Z.ltb_spec Format.MAX_MESSAGE_LEN (Format.len msg))
    as [Hlong|Hfit].
  - split.
    + intros Hshort. unfold Format.MAX_MESSAGE_LEN in Hlong. lia.
    + rewrite count_char_app, H3. lia.
  - split; [intros _; exact Hm|]. lia.
Qed.

Lemma format_results_markup_witness :
  (count_char "<" (Format.format_results long_entry)
   <= markup_tags long_entry + 2)%nat.
Proof.
  exact (proj2 (proj2 (format_results_markup long_entry "<"
                         (or_introl eq_refl)))).
Defined.
